(** * opi-evpn-bridge: the InfraDB domain objects, the gRPC front ends and the
      FRR subscriber, embedded in Rocq.

    Conventions of the embedding.
    - Go strings are [string]; [uint32], [int32] and [time.Duration] (an
      [int64] count of nanoseconds) are [Z], with the wrap-around written
      out where the code does arithmetic on them; bytes are [Z] in 0..255.
    - Go maps are stdpp [gmap]s; slices are lists, indexed with [!!] and
      updated with [<[i:=x]>]; an index out of range is a panic, modelled
      by [None].
    - A pointer to a struct that the code dereferences without a nil test
      is the struct itself; a pointer the code tests against nil is an
      [option].
    - Calls that leave the process (FRR commands, the key-value store, the
      event bus registry) are oracles: Section variables or explicit
      arguments. *)

From Stdlib Require Import ZArith Lia.
From stdpp Require Import base tactics option list strings gmap.

Local Open Scope Z_scope.

(** ** Package common (pkg/infradb/common) *)

Module Common.

(** The declaration of [ComponentStatus] belongs to a file
    this development does not cover; the three statuses are the ones the code names, and
    [ComponentStatusUnspecified] is the zero value of a fresh
    [common.Component] ([var comp common.Component]). *)
Inductive ComponentStatus :=
| ComponentStatusUnspecified
| ComponentStatusPending
| ComponentStatusSuccess
| ComponentStatusError.

#[export] Instance ComponentStatus_eq_dec : EqDecision ComponentStatus.
Proof. solve_decision. Defined.

(** The fields the code reads and writes: [Name], [CompStatus], [Details]
    and [Timer] (a [time.Duration]). *)
Record Component := mkComponent {
  Name : string;
  CompStatus : ComponentStatus;
  Details : string;
  Timer : Z;
}.

#[export] Instance Component_eq_dec : EqDecision Component.
Proof. solve_decision. Defined.

(** [var comp common.Component]: every field at its zero value. *)
Definition zeroComponent : Component :=
  {| Name := ""; CompStatus := ComponentStatusUnspecified;
     Details := ""; Timer := 0 |}.

(** The four operational statuses every kind declares with [iota]
    ([XOperStatusUnspecified] = 0, [Up] = 1, [Down] = 2,
    [ToBeDeleted] = 3). *)
Inductive OperStatus :=
| OperStatusUnspecified
| OperStatusUp
| OperStatusDown
| OperStatusToBeDeleted.

#[export] Instance OperStatus_eq_dec : EqDecision OperStatus.
Proof. solve_decision. Defined.

End Common.
Export Common.

(** ** Package eventbus (pkg/infradb/subscriberframework/eventbus) *)

Module Eventbus.

(** A registered subscriber; the code reads [Name], the spec adds
    [Priority]. *)
Record Subscriber := mkSubscriber {
  SubName : string;
  Priority : Z;
}.

#[export] Instance Subscriber_eq_dec : EqDecision Subscriber.
Proof. solve_decision. Defined.

(** [ObjectData] is the payload of a notification. *)
Record ObjectData := mkObjectData {
  ODName : string;
  ODResourceVersion : string;
  NotificationID : string;
}.

(** Modelled from the spec: the registry of the event bus, "a static
    registry mapping objectType to an ordered list of Subscribers".
    [GetSubscribers] reads the list of one event type; an event type
    nobody subscribed to has the empty list. *)
Definition EventBus := gmap string (list Subscriber).

(** Modelled from the spec: [GetSubscribers] answers the ordered list
    registered for the event type, empty when there is none. *)
Definition GetSubscribers (EBus : EventBus) (eventType : string)
  : list Subscriber :=
  default [] (EBus !! eventType).

End Eventbus.
Export Eventbus.

(** ** The loops shared by the four kinds

    [setComponentState] and [prepareObjectsForReplay] are written out once
    per kind in the source, with the same body up to the receiver's type.
    The body works on [in.Status.Components] only; it is embedded once, on
    the component list, and each kind's method applies it to its own
    record. *)

(** [for i, comp := range comps { if comp.Name == component.Name
      { comps[i] = component; break } }] *)
Fixpoint setComponentStateLoop (component : Component)
  (comps : list Component) : list Component :=
  match comps with
  | [] => []
  | comp :: rest =>
      if decide (Name comp = Name component)
      then component :: rest
      else comp :: setComponentStateLoop component rest
  end.

(** [for _, comp := range comps { if comp.CompStatus != Success
      { return false } }; return true] *)
Fixpoint checkForAllSuccessLoop (comps : list Component) : bool :=
  match comps with
  | [] => true
  | comp :: rest =>
      if decide (CompStatus comp ≠ ComponentStatusSuccess)
      then false
      else checkForAllSuccessLoop rest
  end.

(** The test of the replay loop:
    [comp.Name == componentName || comp.CompStatus != Success]. *)
Definition needsReplay (componentName : string) (comp : Component) : bool :=
  bool_decide (Name comp = componentName)
  || bool_decide (CompStatus comp ≠ ComponentStatusSuccess).

(** [common.Component{Name: comp.Name, CompStatus: Pending, Details: ""}];
    the fields left out of the literal take their zero value. *)
Definition pendingComponent (name : string) : Component :=
  {| Name := name; CompStatus := ComponentStatusPending;
     Details := ""; Timer := 0 |}.

(** What the replay loop leaves at the place of one component. *)
Definition replayed (c : string) (comp : Component) : Component :=
  if needsReplay c comp then pendingComponent (Name comp) else comp.

(** One iteration of the replay loop at index [i]: the state is the
    component slice (written in place) and [tempSubs]; [subs[i]] panics when
    [i] is out of range. *)
Definition replayStep (componentName : string) (subs : list Subscriber)
  (st : option (list Component * list Subscriber)) (ic : nat * Component)
  : option (list Component * list Subscriber) :=
  match st with
  | None => None
  | Some (comps, tempSubs) =>
      if needsReplay componentName ic.2 then
        match subs !! ic.1 with
        | None => None
        | Some sub =>
            Some (<[ic.1 := pendingComponent (Name ic.2)]> comps,
                  tempSubs ++ [sub])
        end
      else Some (comps, tempSubs)
  end.

(** [for i, comp := range comps { ... }]: the range expression is evaluated
    once, so the loop visits the components as they were on entry. *)
Definition replayLoop (componentName : string) (subs : list Subscriber)
  (comps : list Component) : option (list Component * list Subscriber) :=
  foldl (replayStep componentName subs) (Some (comps, []))
        (imap (λ i comp, (i, comp)) comps).

(** [if status == Up { status = Down }] *)
Definition replayOperStatus (s : OperStatus) : OperStatus :=
  match s with
  | OperStatusUp => OperStatusDown
  | _ => s
  end.


(** Go's [error] values. [errors.New] and [fmt.Errorf] build an error that
    carries no gRPC code; [status.Errorf(codes.X, msg)] carries code [X]. *)
Inductive Code :=
| CodeNone
| InvalidArgument
| NotFound.

Record error := mkError {
  errCode : Code;
  errMsg : string;
}.

#[export] Instance Code_eq_dec : EqDecision Code.
Proof. solve_decision. Defined.

#[export] Instance error_eq_dec : EqDecision error.
Proof. solve_decision. Defined.

Definition errors_New (msg : string) : error :=
  {| errCode := CodeNone; errMsg := msg |}.

Definition status_Errorf (c : Code) (msg : string) : error :=
  {| errCode := c; errMsg := msg |}.

(** ** Package net, as far as the constructors use it *)

(** [net.IPNet]: an address and a mask, both byte slices. *)
Record IPNet := mkIPNet {
  IP : list Z;
  Mask : list Z;
}.

#[export] Instance IPNet_eq_dec : EqDecision IPNet.
Proof. solve_decision. Defined.

(** [binary.BigEndian.PutUint32(b, v)] on a fresh 4-byte slice. *)
Definition PutUint32 (v : Z) : list Z :=
  [Z.land (Z.shiftr v 24) 255; Z.land (Z.shiftr v 16) 255;
   Z.land (Z.shiftr v 8) 255; Z.land v 255].

(** The loop of [net.CIDRMask]: [l] bytes left, [n] one-bits left. *)
Fixpoint maskBytes (l : nat) (n : Z) : list Z :=
  match l with
  | O => []
  | S l' =>
      if 8 <=? n then 255 :: maskBytes l' (n - 8)
      else (255 - Z.shiftr 255 n) :: maskBytes l' 0
  end.

(** [net.CIDRMask(ones, bits)]; the nil mask is the empty list. *)
Definition CIDRMask (ones bits : Z) : list Z :=
  if bool_decide (bits ≠ 32 ∧ bits ≠ 128) then []
  else if bool_decide (ones < 0 ∨ ones > bits) then []
  else maskBytes (Z.to_nat (bits / 8)) ones.

(** ** The protobuf messages (opi-api), as far as the code reads them *)

Module Pb.

Inductive V4OrV6 :=
| V4Addr (a : Z)
| V6Addr (bs : list Z).

Record IPAddress := mkIPAddress {
  Af : Z;
  Addr46 : option V4OrV6;
}.

(** The generated getter: 0 for a nil receiver or another variant. *)
Definition GetV4Addr (x : option IPAddress) : Z :=
  match x with
  | Some {| Addr46 := Some (V4Addr a) |} => a
  | _ => 0
  end.

Record IPPrefix := mkIPPrefix {
  Addr : option IPAddress;
  Len : Z;
}.

Record SviSpec := mkSviSpec {
  SviVrf : string;
  SviLogicalBridge : string;
  SviMacAddress : list Z;
  GwIpPrefix : list IPPrefix;
  SviEnableBgp : bool;
  SviRemoteAs : Z;
}.

Record Svi := mkSvi {
  SviName : string;
  SviSpec_ : SviSpec;
}.

Record LogicalBridgeSpec := mkLogicalBridgeSpec {
  VlanId : Z;
  LbVni : option Z;
  VtepIpPrefix : option IPPrefix;
}.

Record LogicalBridge := mkLogicalBridge {
  LbName : string;
  LbSpec : LogicalBridgeSpec;
}.

Inductive BridgePortType :=
| BRIDGE_PORT_TYPE_UNSPECIFIED
| BRIDGE_PORT_TYPE_ACCESS
| BRIDGE_PORT_TYPE_TRUNK.

Record BridgePortSpec := mkBridgePortSpec {
  BpPtype : BridgePortType;
  BpMacAddress : list Z;
  BpLogicalBridges : list string;
}.

Record BridgePort := mkBridgePort {
  BpName : string;
  BpSpec : BridgePortSpec;
}.

End Pb.

(** ** Package infradb: Svi (pkg/infradb/svi.go) *)

Module Svi.

Definition SviOperStatusUnspecified := OperStatusUnspecified.
Definition SviOperStatusUp := OperStatusUp.
Definition SviOperStatusDown := OperStatusDown.
Definition SviOperStatusToBeDeleted := OperStatusToBeDeleted.

Record SviStatus := mkSviStatus {
  SviOperStatus : OperStatus;
  Components : list Component;
}.

Record SviSpec := mkSviSpec {
  Vrf : string;
  LogicalBridge : string;
  MacAddress : list Z;
  GatewayIPs : list IPNet;
  EnableBgp : bool;
  RemoteAs : Z;
}.

Record SviMetadata := mkSviMetadata { }.

Record Svi := mkSvi {
  Name : string;
  Spec : SviSpec;
  Status : SviStatus;
  Metadata : SviMetadata;
  ResourceVersion : string;
}.

(** [&Svi{}]: every field at its zero value, the nil sub-structs as
    their zero records. *)
Definition empty : Svi :=
  {| Name := "";
     Spec := {| Vrf := ""; LogicalBridge := ""; MacAddress := [];
                GatewayIPs := []; EnableBgp := false; RemoteAs := 0 |};
     Status := {| SviOperStatus := OperStatusUnspecified; Components := [] |};
     Metadata := mkSviMetadata;
     ResourceVersion := "" |}.

(** The body of the loop over [in.Spec.GwIpPrefix]. *)
Definition parseGatewayIP (gwIPPrefix : Pb.IPPrefix) : IPNet :=
  {| IP := PutUint32 (Pb.GetV4Addr (Pb.Addr gwIPPrefix));
     Mask := CIDRMask (Pb.Len gwIPPrefix) 32 |}.

(** [NewSvi]; [EBus] is the event bus it reads and [newVersion] the string
    [generateVersion()] returns in this call. *)
Definition NewSvi (EBus : EventBus) (newVersion : string) (i : Pb.Svi)
  : Svi * option error :=
  let macAddr := Pb.SviMacAddress (Pb.SviSpec_ i) in
  let gwIPs := map parseGatewayIP (Pb.GwIpPrefix (Pb.SviSpec_ i)) in
  let subscribers := GetSubscribers EBus "svi" in
  if bool_decide (length subscribers = 0%nat) then
    (empty, Some (errors_New "no subscribers found for svi"))
  else
    let components :=
      map (λ sub, {| Common.Name := SubName sub;
                     CompStatus := ComponentStatusPending;
                     Details := ""; Timer := 0 |}) subscribers in
    ({| Name := Pb.SviName i;
        Spec := {| Vrf := Pb.SviVrf (Pb.SviSpec_ i);
                   LogicalBridge := Pb.SviLogicalBridge (Pb.SviSpec_ i);
                   MacAddress := macAddr;
                   GatewayIPs := gwIPs;
                   EnableBgp := Pb.SviEnableBgp (Pb.SviSpec_ i);
                   RemoteAs := Pb.SviRemoteAs (Pb.SviSpec_ i) |};
        Status := {| SviOperStatus := SviOperStatusDown;
                     Components := components |};
        Metadata := mkSviMetadata;
        ResourceVersion := newVersion |}, None).

Definition GetName (i : Svi) : string := Name i.

Definition withComponents (comps : list Component) (i : Svi) : Svi :=
  {| Name := Name i; Spec := Spec i;
     Status := {| SviOperStatus := SviOperStatus (Status i);
                  Components := comps |};
     Metadata := Metadata i; ResourceVersion := ResourceVersion i |}.

Definition setComponentState (component : Component) (i : Svi) : Svi :=
  withComponents (setComponentStateLoop component (Components (Status i))) i.

Definition checkForAllSuccess (i : Svi) : bool :=
  checkForAllSuccessLoop (Components (Status i)).

Definition parseMeta (sviMeta : option SviMetadata) (i : Svi) : Svi :=
  match sviMeta with
  | Some m =>
      {| Name := Name i; Spec := Spec i; Status := Status i;
         Metadata := m; ResourceVersion := ResourceVersion i |}
  | None => i
  end.

(** [prepareObjectsForReplay]; [None] is the panic of [sviSubs[i]] out of
    range, [newVersion] the string [generateVersion()] returns. *)
Definition prepareObjectsForReplay (componentName : string)
  (sviSubs : list Subscriber) (newVersion : string) (i : Svi)
  : option (Svi * list Subscriber) :=
  match replayLoop componentName sviSubs (Components (Status i)) with
  | None => None
  | Some (comps, tempSubs) =>
      Some ({| Name := Name i; Spec := Spec i;
               Status := {| SviOperStatus :=
                              replayOperStatus (SviOperStatus (Status i));
                            Components := comps |};
               Metadata := Metadata i;
               ResourceVersion := newVersion |}, tempSubs)
  end.

End Svi.

(** ** Package infradb: LogicalBridge *)

Module LogicalBridge.

Definition LogicalBridgeOperStatusUnspecified := OperStatusUnspecified.
Definition LogicalBridgeOperStatusUp := OperStatusUp.
Definition LogicalBridgeOperStatusDown := OperStatusDown.
Definition LogicalBridgeOperStatusToBeDeleted := OperStatusToBeDeleted.

Record LogicalBridgeStatus := mkLogicalBridgeStatus {
  LBOperStatus : OperStatus;
  Components : list Component;
}.

Record LogicalBridgeSpec := mkLogicalBridgeSpec {
  VlanID : Z;
  Vni : option Z;
  VtepIP : IPNet;
}.

Record LogicalBridgeMetadata := mkLogicalBridgeMetadata { }.

Record LogicalBridge := mkLogicalBridge {
  Name : string;
  Spec : LogicalBridgeSpec;
  Status : LogicalBridgeStatus;
  Metadata : LogicalBridgeMetadata;
  Svi : string;
  BridgePorts : gmap string bool;
  MacTable : gmap string string;
  ResourceVersion : string;
}.

(** [&LogicalBridge{}] *)
Definition empty : LogicalBridge :=
  {| Name := "";
     Spec := {| VlanID := 0; Vni := None;
                VtepIP := {| IP := []; Mask := [] |} |};
     Status := {| LBOperStatus := OperStatusUnspecified; Components := [] |};
     Metadata := mkLogicalBridgeMetadata;
     Svi := ""; BridgePorts := ∅; MacTable := ∅;
     ResourceVersion := "" |}.

(** [NewLogicalBridge]; [defaultVtep] is the value of
    [utils.GetIPAddress(config.GlobalConfig.LinuxFrr.DefaultVtep)]. *)
Definition NewLogicalBridge (EBus : EventBus) (defaultVtep : IPNet)
  (newVersion : string) (i : Pb.LogicalBridge)
  : LogicalBridge * option error :=
  let vip :=
    match Pb.VtepIpPrefix (Pb.LbSpec i) with
    | Some p =>
        {| IP := PutUint32 (Pb.GetV4Addr (Pb.Addr p));
           Mask := CIDRMask (Pb.Len p) 32 |}
    | None => defaultVtep
    end in
  let subscribers := GetSubscribers EBus "logical-bridge" in
  if bool_decide (length subscribers = 0%nat) then
    (empty, Some (errors_New "no subscribers found for logical bridge"))
  else
    let components :=
      map (λ sub, {| Common.Name := SubName sub;
                     CompStatus := ComponentStatusPending;
                     Details := ""; Timer := 0 |}) subscribers in
    ({| Name := Pb.LbName i;
        Spec := {| VlanID := Pb.VlanId (Pb.LbSpec i);
                   Vni := Pb.LbVni (Pb.LbSpec i);
                   VtepIP := vip |};
        Status := {| LBOperStatus := LogicalBridgeOperStatusDown;
                     Components := components |};
        Metadata := mkLogicalBridgeMetadata;
        Svi := "";
        BridgePorts := ∅;
        MacTable := ∅;
        ResourceVersion := newVersion |}, None).

Definition withSvi (s : string) (i : LogicalBridge) : LogicalBridge :=
  {| Name := Name i; Spec := Spec i; Status := Status i;
     Metadata := Metadata i; Svi := s; BridgePorts := BridgePorts i;
     MacTable := MacTable i; ResourceVersion := ResourceVersion i |}.

Definition withPorts (bps : gmap string bool) (macs : gmap string string)
  (i : LogicalBridge) : LogicalBridge :=
  {| Name := Name i; Spec := Spec i; Status := Status i;
     Metadata := Metadata i; Svi := Svi i; BridgePorts := bps;
     MacTable := macs; ResourceVersion := ResourceVersion i |}.

(** The methods that change the receiver return it next to the error. *)
Definition AddSvi (sviName : string) (i : LogicalBridge)
  : LogicalBridge * option error :=
  if bool_decide (Svi i ≠ "") then
    (i, Some (errors_New
       ("AddSvi(): the logical bridge is already associated with an svi interface: "
        +:+ Svi i)))
  else (withSvi sviName i, None).

Definition DeleteSvi (sviName : string) (i : LogicalBridge)
  : LogicalBridge * option error :=
  if bool_decide (Svi i ≠ sviName) then
    (i, Some (errors_New
       ("DeleteSvi(): the logical bridge is not associated with the svi interface: "
        +:+ sviName)))
  else (withSvi "" i, None).

Definition AddBridgePort (bpName bpMac : string) (i : LogicalBridge)
  : LogicalBridge * option error :=
  match BridgePorts i !! bpName with
  | Some _ =>
      (i, Some (errors_New
         ("AddBridgePort(): the logical bridge " +:+ Name i +:+
          " is already associated with the bridge port: " +:+ bpName)))
  | None =>
      match MacTable i !! bpMac with
      | Some _ =>
          (i, Some (errors_New
             ("AddBridgePort(): the logical bridge " +:+ Name i +:+
              " is already associated with the bridge port mac: " +:+ bpMac)))
      | None =>
          (withPorts (<[bpName := false]> (BridgePorts i))
                     (<[bpMac := bpName]> (MacTable i)) i, None)
      end
  end.

Definition DeleteBridgePort (bpName bpMac : string) (i : LogicalBridge)
  : LogicalBridge * option error :=
  match BridgePorts i !! bpName with
  | None =>
      (i, Some (errors_New
         ("DeleteBridgePort(): the logical bridge " +:+ Name i +:+
          " is not associated with the bridge port: " +:+ bpName)))
  | Some _ =>
      match MacTable i !! bpMac with
      | None =>
          (i, Some (errors_New
             ("DeleteBridgePort(): the logical bridge " +:+ Name i +:+
              " is not associated with the bridge port mac: " +:+ bpMac)))
      | Some _ =>
          (withPorts (delete bpName (BridgePorts i))
                     (delete bpMac (MacTable i)) i, None)
      end
  end.

Definition GetName (i : LogicalBridge) : string := Name i.

Definition withComponents (comps : list Component) (i : LogicalBridge)
  : LogicalBridge :=
  {| Name := Name i; Spec := Spec i;
     Status := {| LBOperStatus := LBOperStatus (Status i);
                  Components := comps |};
     Metadata := Metadata i; Svi := Svi i; BridgePorts := BridgePorts i;
     MacTable := MacTable i; ResourceVersion := ResourceVersion i |}.

Definition setComponentState (component : Component) (i : LogicalBridge)
  : LogicalBridge :=
  withComponents (setComponentStateLoop component (Components (Status i))) i.

Definition checkForAllSuccess (i : LogicalBridge) : bool :=
  checkForAllSuccessLoop (Components (Status i)).

Definition parseMeta (lbMeta : option LogicalBridgeMetadata)
  (i : LogicalBridge) : LogicalBridge :=
  match lbMeta with
  | Some m =>
      {| Name := Name i; Spec := Spec i; Status := Status i;
         Metadata := m; Svi := Svi i; BridgePorts := BridgePorts i;
         MacTable := MacTable i; ResourceVersion := ResourceVersion i |}
  | None => i
  end.

Definition prepareObjectsForReplay (componentName : string)
  (lbSubs : list Subscriber) (newVersion : string) (i : LogicalBridge)
  : option (LogicalBridge * list Subscriber) :=
  match replayLoop componentName lbSubs (Components (Status i)) with
  | None => None
  | Some (comps, tempSubs) =>
      Some ({| Name := Name i; Spec := Spec i;
               Status := {| LBOperStatus :=
                              replayOperStatus (LBOperStatus (Status i));
                            Components := comps |};
               Metadata := Metadata i; Svi := Svi i;
               BridgePorts := BridgePorts i; MacTable := MacTable i;
               ResourceVersion := newVersion |}, tempSubs)
  end.

End LogicalBridge.

(** ** Package infradb: BridgePort *)

Module BridgePort.

Inductive BridgePortType :=
| Unspecified
| Access
| Trunk.

Definition BridgePortOperStatusUnspecified := OperStatusUnspecified.
Definition BridgePortOperStatusUp := OperStatusUp.
Definition BridgePortOperStatusDown := OperStatusDown.
Definition BridgePortOperStatusToBeDeleted := OperStatusToBeDeleted.

Record BridgePortStatus := mkBridgePortStatus {
  BPOperStatus : OperStatus;
  Components : list Component;
}.

Record BridgePortSpec := mkBridgePortSpec {
  SpecName : string;
  Ptype : BridgePortType;
  MacAddress : list Z;
  LogicalBridges : list string;
}.

Record BridgePortMetadata := mkBridgePortMetadata {
  VPort : string;
}.

Record BridgePort := mkBridgePort {
  Name : string;
  Spec : BridgePortSpec;
  Status : BridgePortStatus;
  Metadata : BridgePortMetadata;
  TransparentTrunk : bool;
  Vlans : list Z;
  ResourceVersion : string;
}.

(** [&BridgePort{}] *)
Definition empty : BridgePort :=
  {| Name := "";
     Spec := {| SpecName := ""; Ptype := Unspecified; MacAddress := [];
                LogicalBridges := [] |};
     Status := {| BPOperStatus := OperStatusUnspecified; Components := [] |};
     Metadata := {| VPort := "" |};
     TransparentTrunk := false; Vlans := []; ResourceVersion := "" |}.

Definition NewBridgePort (EBus : EventBus) (newVersion : string)
  (i : Pb.BridgePort) : BridgePort * option error :=
  let macAddr := Pb.BpMacAddress (Pb.BpSpec i) in
  let subscribers := GetSubscribers EBus "bridge-port" in
  if bool_decide (length subscribers = 0%nat) then
    (empty, Some (errors_New "no subscribers found for bridge port"))
  else
    let components :=
      map (λ sub, {| Common.Name := SubName sub;
                     CompStatus := ComponentStatusPending;
                     Details := ""; Timer := 0 |}) subscribers in
    let transTrunk :=
      bool_decide (length (Pb.BpLogicalBridges (Pb.BpSpec i)) = 0%nat) in
    let bpType :=
      match Pb.BpPtype (Pb.BpSpec i) with
      | Pb.BRIDGE_PORT_TYPE_ACCESS => Access
      | Pb.BRIDGE_PORT_TYPE_TRUNK => Trunk
      | _ => Unspecified
      end in
    ({| Name := Pb.BpName i;
        Spec := {| SpecName := ""; Ptype := bpType; MacAddress := macAddr;
                   LogicalBridges := Pb.BpLogicalBridges (Pb.BpSpec i) |};
        Status := {| BPOperStatus := BridgePortOperStatusDown;
                     Components := components |};
        Metadata := {| VPort := "" |};
        TransparentTrunk := transTrunk;
        Vlans := [];
        ResourceVersion := newVersion |}, None).

Definition GetName (i : BridgePort) : string := Name i.

Definition withComponents (comps : list Component) (i : BridgePort)
  : BridgePort :=
  {| Name := Name i; Spec := Spec i;
     Status := {| BPOperStatus := BPOperStatus (Status i);
                  Components := comps |};
     Metadata := Metadata i; TransparentTrunk := TransparentTrunk i;
     Vlans := Vlans i; ResourceVersion := ResourceVersion i |}.

Definition setComponentState (component : Component) (i : BridgePort)
  : BridgePort :=
  withComponents (setComponentStateLoop component (Components (Status i))) i.

Definition checkForAllSuccess (i : BridgePort) : bool :=
  checkForAllSuccessLoop (Components (Status i)).

Definition parseMeta (bpMeta : option BridgePortMetadata) (i : BridgePort)
  : BridgePort :=
  match bpMeta with
  | Some m =>
      if bool_decide (VPort m ≠ "") then
        {| Name := Name i; Spec := Spec i; Status := Status i;
           Metadata := {| VPort := VPort m |};
           TransparentTrunk := TransparentTrunk i; Vlans := Vlans i;
           ResourceVersion := ResourceVersion i |}
      else i
  | None => i
  end.

Definition prepareObjectsForReplay (componentName : string)
  (bpSubs : list Subscriber) (newVersion : string) (i : BridgePort)
  : option (BridgePort * list Subscriber) :=
  match replayLoop componentName bpSubs (Components (Status i)) with
  | None => None
  | Some (comps, tempSubs) =>
      Some ({| Name := Name i; Spec := Spec i;
               Status := {| BPOperStatus :=
                              replayOperStatus (BPOperStatus (Status i));
                            Components := comps |};
               Metadata := Metadata i;
               TransparentTrunk := TransparentTrunk i; Vlans := Vlans i;
               ResourceVersion := newVersion |}, tempSubs)
  end.

End BridgePort.

(** ** Package infradb: Sa *)

Module Sa.

Definition SaOperStatusUnspecified := OperStatusUnspecified.
Definition SaOperStatusUp := OperStatusUp.
Definition SaOperStatusDown := OperStatusDown.
Definition SaOperStatusToBeDeleted := OperStatusToBeDeleted.

Record Lifetime := mkLifetime {
  Life : Z;
  Rekey : Z;
  Jitter : Z;
}.

Record LifetimeCfg := mkLifetimeCfg {
  LtTime : option Lifetime;
  LtBytes : option Lifetime;
  LtPackets : option Lifetime;
}.

Record SaStatus := mkSaStatus {
  SaOperStatus : OperStatus;
  Components : list Component;
}.

(** [Protocol], [Mode], [CryptoAlg], [IntegAlg] and [DscpCopy] are named
    [int] types; they stay integers here. *)
Record SaSpec := mkSaSpec {
  SrcIP : list Z;
  DstIP : list Z;
  Spi : Z;
  Protocol : Z;
  IfId : Z;
  Mode : Z;
  Interface : string;
  LifetimeCfg_ : option LifetimeCfg;
  EncAlg : Z;
  EncKey : list Z;
  IntAlg : Z;
  IntKey : list Z;
  ReplayWindow : Z;
  UdpEncap : bool;
  Esn : bool;
  CopyDf : bool;
  CopyEcn : bool;
  CopyDscp : Z;
  Inbound : bool;
  SpecVrf : string;
}.

Record SaMetadata := mkSaMetadata { }.

Record Sa := mkSa {
  Name : string;
  Spec : SaSpec;
  Status : SaStatus;
  Metadata : SaMetadata;
  Vrf : string;
  Index : Z;
  OldVersions : list string;
  ResourceVersion : string;
}.

Definition withComponents (comps : list Component) (i : Sa) : Sa :=
  {| Name := Name i; Spec := Spec i;
     Status := {| SaOperStatus := SaOperStatus (Status i);
                  Components := comps |};
     Metadata := Metadata i; Vrf := Vrf i; Index := Index i;
     OldVersions := OldVersions i; ResourceVersion := ResourceVersion i |}.

Definition setComponentState (component : Component) (i : Sa) : Sa :=
  withComponents (setComponentStateLoop component (Components (Status i))) i.

Definition checkForAllSuccess (i : Sa) : bool :=
  checkForAllSuccessLoop (Components (Status i)).

Definition parseMeta (saMeta : option SaMetadata) (i : Sa) : Sa :=
  match saMeta with
  | Some m =>
      {| Name := Name i; Spec := Spec i; Status := Status i; Metadata := m;
         Vrf := Vrf i; Index := Index i; OldVersions := OldVersions i;
         ResourceVersion := ResourceVersion i |}
  | None => i
  end.

Definition prepareObjectsForReplay (componentName : string)
  (saSubs : list Subscriber) (newVersion : string) (i : Sa)
  : option (Sa * list Subscriber) :=
  match replayLoop componentName saSubs (Components (Status i)) with
  | None => None
  | Some (comps, tempSubs) =>
      Some ({| Name := Name i; Spec := Spec i;
               Status := {| SaOperStatus :=
                              replayOperStatus (SaOperStatus (Status i));
                            Components := comps |};
               Metadata := Metadata i; Vrf := Vrf i; Index := Index i;
               OldVersions := OldVersions i;
               ResourceVersion := newVersion |}, tempSubs)
  end.

End Sa.

(** ** The interface [EvpnObject]

    The four kinds are used through one interface; a value of the interface
    is one of the four, and a method call dispatches on the kind. *)

Inductive EvpnObject :=
| OfSvi (o : Svi.Svi)
| OfLogicalBridge (o : LogicalBridge.LogicalBridge)
| OfBridgePort (o : BridgePort.BridgePort)
| OfSa (o : Sa.Sa).

Definition objComponents (o : EvpnObject) : list Component :=
  match o with
  | OfSvi o => Svi.Components (Svi.Status o)
  | OfLogicalBridge o => LogicalBridge.Components (LogicalBridge.Status o)
  | OfBridgePort o => BridgePort.Components (BridgePort.Status o)
  | OfSa o => Sa.Components (Sa.Status o)
  end.

Definition objOperStatus (o : EvpnObject) : OperStatus :=
  match o with
  | OfSvi o => Svi.SviOperStatus (Svi.Status o)
  | OfLogicalBridge o => LogicalBridge.LBOperStatus (LogicalBridge.Status o)
  | OfBridgePort o => BridgePort.BPOperStatus (BridgePort.Status o)
  | OfSa o => Sa.SaOperStatus (Sa.Status o)
  end.

Definition objResourceVersion (o : EvpnObject) : string :=
  match o with
  | OfSvi o => Svi.ResourceVersion o
  | OfLogicalBridge o => LogicalBridge.ResourceVersion o
  | OfBridgePort o => BridgePort.ResourceVersion o
  | OfSa o => Sa.ResourceVersion o
  end.

Definition objName (o : EvpnObject) : string :=
  match o with
  | OfSvi o => Svi.Name o
  | OfLogicalBridge o => LogicalBridge.Name o
  | OfBridgePort o => BridgePort.Name o
  | OfSa o => Sa.Name o
  end.

(** The object with the three fields a replay touches overwritten and every
    other field (name, spec, metadata, references) kept. *)
Definition objWith (comps : list Component) (st : OperStatus)
  (version : string) (o : EvpnObject) : EvpnObject :=
  match o with
  | OfSvi o =>
      OfSvi {| Svi.Name := Svi.Name o; Svi.Spec := Svi.Spec o;
               Svi.Status := {| Svi.SviOperStatus := st;
                                Svi.Components := comps |};
               Svi.Metadata := Svi.Metadata o;
               Svi.ResourceVersion := version |}
  | OfLogicalBridge o =>
      OfLogicalBridge
        {| LogicalBridge.Name := LogicalBridge.Name o;
           LogicalBridge.Spec := LogicalBridge.Spec o;
           LogicalBridge.Status :=
             {| LogicalBridge.LBOperStatus := st;
                LogicalBridge.Components := comps |};
           LogicalBridge.Metadata := LogicalBridge.Metadata o;
           LogicalBridge.Svi := LogicalBridge.Svi o;
           LogicalBridge.BridgePorts := LogicalBridge.BridgePorts o;
           LogicalBridge.MacTable := LogicalBridge.MacTable o;
           LogicalBridge.ResourceVersion := version |}
  | OfBridgePort o =>
      OfBridgePort
        {| BridgePort.Name := BridgePort.Name o;
           BridgePort.Spec := BridgePort.Spec o;
           BridgePort.Status :=
             {| BridgePort.BPOperStatus := st;
                BridgePort.Components := comps |};
           BridgePort.Metadata := BridgePort.Metadata o;
           BridgePort.TransparentTrunk := BridgePort.TransparentTrunk o;
           BridgePort.Vlans := BridgePort.Vlans o;
           BridgePort.ResourceVersion := version |}
  | OfSa o =>
      OfSa {| Sa.Name := Sa.Name o; Sa.Spec := Sa.Spec o;
              Sa.Status := {| Sa.SaOperStatus := st;
                              Sa.Components := comps |};
              Sa.Metadata := Sa.Metadata o; Sa.Vrf := Sa.Vrf o;
              Sa.Index := Sa.Index o; Sa.OldVersions := Sa.OldVersions o;
              Sa.ResourceVersion := version |}
  end.

Definition setComponentState (component : Component) (o : EvpnObject)
  : EvpnObject :=
  match o with
  | OfSvi o => OfSvi (Svi.setComponentState component o)
  | OfLogicalBridge o =>
      OfLogicalBridge (LogicalBridge.setComponentState component o)
  | OfBridgePort o => OfBridgePort (BridgePort.setComponentState component o)
  | OfSa o => OfSa (Sa.setComponentState component o)
  end.

Definition prepareObjectsForReplay (componentName : string)
  (subs : list Subscriber) (newVersion : string) (o : EvpnObject)
  : option (EvpnObject * list Subscriber) :=
  match o with
  | OfSvi o =>
      prod_map OfSvi id <$>
        Svi.prepareObjectsForReplay componentName subs newVersion o
  | OfLogicalBridge o =>
      prod_map OfLogicalBridge id <$>
        LogicalBridge.prepareObjectsForReplay componentName subs newVersion o
  | OfBridgePort o =>
      prod_map OfBridgePort id <$>
        BridgePort.prepareObjectsForReplay componentName subs newVersion o
  | OfSa o =>
      prod_map OfSa id <$>
        Sa.prepareObjectsForReplay componentName subs newVersion o
  end.

(** The per-kind methods unfold to the shared loops. *)
Create HintDb kinds.
#[export] Hint Unfold
  Svi.setComponentState Svi.withComponents Svi.prepareObjectsForReplay
  LogicalBridge.setComponentState LogicalBridge.withComponents
  LogicalBridge.prepareObjectsForReplay
  BridgePort.setComponentState BridgePort.withComponents
  BridgePort.prepareObjectsForReplay
  Sa.setComponentState Sa.withComponents Sa.prepareObjectsForReplay : kinds.

(** ** Package svi: the validation of an SVI spec *)

Section SviServer.

(** [resourcename.Validate] (go.einride.tech/aip) and
    [utils.ValidateMacAddress] are library calls: oracles. *)
Variable resourcename_Validate : string → option error.
Variable ValidateMacAddress : list Z → option error.

Definition validateSviSpec (svi : Pb.Svi) : option error :=
  match resourcename_Validate (Pb.SviLogicalBridge (Pb.SviSpec_ svi)) with
  | Some err => Some err
  | None =>
  match resourcename_Validate (Pb.SviVrf (Pb.SviSpec_ svi)) with
  | Some err => Some err
  | None =>
  match ValidateMacAddress (Pb.SviMacAddress (Pb.SviSpec_ svi)) with
  | Some err =>
      Some (status_Errorf InvalidArgument
              ("Invalid format of MAC Address: " +:+ errMsg err))
  | None =>
      if bool_decide (Pb.SviRemoteAs (Pb.SviSpec_ svi) > 65535) then
        Some (status_Errorf InvalidArgument
                "RemoteAs must be in range 1-65535")
      else None
  end end end.

End SviServer.

(** ** Package vrf: the gRPC front end of the VRFs *)

Module PbVrf.

Record VrfSpec := mkVrfSpec {
  Vni : option Z;
  LoopbackIpPrefix : option Pb.IPPrefix;
  VtepIpPrefix : option Pb.IPPrefix;
}.

Record PbComponent := mkPbComponent {
  CName : string;
  CStatus : Z;
  CDetails : string;
}.

Record VrfStatus := mkVrfStatus {
  OperStatus : Z;
  Components : list PbComponent;
}.

Record Vrf := mkVrf {
  Name : string;
  Spec : VrfSpec;
  Status : option VrfStatus;
}.

Definition withName (n : string) (v : Vrf) : Vrf :=
  {| Name := n; Spec := Spec v; Status := Status v |}.

Record CreateVrfRequest := mkCreateVrfRequest {
  VrfId : string;
  CVrf : Vrf;
}.

Record UpdateVrfRequest := mkUpdateVrfRequest {
  UVrf : Vrf;
  UpdateMask : list string;
  AllowMissing : bool;
}.

End PbVrf.

#[export] Instance V4OrV6_eq_dec : EqDecision Pb.V4OrV6.
Proof. solve_decision. Defined.
#[export] Instance IPAddress_eq_dec : EqDecision Pb.IPAddress.
Proof. solve_decision. Defined.
#[export] Instance IPPrefix_eq_dec : EqDecision Pb.IPPrefix.
Proof. solve_decision. Defined.
#[export] Instance PbVrfSpec_eq_dec : EqDecision PbVrf.VrfSpec.
Proof. solve_decision. Defined.
#[export] Instance PbComponent_eq_dec : EqDecision PbVrf.PbComponent.
Proof. solve_decision. Defined.
#[export] Instance PbVrfStatus_eq_dec : EqDecision PbVrf.VrfStatus.
Proof. solve_decision. Defined.
#[export] Instance PbVrf_eq_dec : EqDecision PbVrf.Vrf.
Proof. solve_decision. Defined.

(** [infradb.ErrKeyNotFound], the error the store answers for a missing
    key; the code compares errors with it. *)
Definition ErrKeyNotFound : error := errors_New "key not found".

Section VrfServer.

(** What the server calls in other files of the package. [World] is
    everything the calls can read or change: the InfraDB store, the task
    queue, the server's [ListHelper]. [getVrf] reads ([infradb.GetVrf] and
    [ToPb], as [getBridgePort] does for ports); [createVrf] and [updateVrf]
    validate, write the store and enqueue a task, so they return the new
    world. *)
Variable World : Type.
Variable validateCreateVrfRequest : PbVrf.CreateVrfRequest → option error.
Variable validateUpdateVrfRequest : PbVrf.UpdateVrfRequest → option error.
Variable resourceIDToFullName : string → string.
Variable getVrf : World → string → error + PbVrf.Vrf.
Variable createVrf : World → PbVrf.Vrf → (error + PbVrf.Vrf) * World.
Variable updateVrf : World → PbVrf.Vrf → (error + PbVrf.Vrf) * World.
Variable ApplyMaskToStoredPbObject :
  list string → PbVrf.Vrf → PbVrf.Vrf → PbVrf.Vrf.

(** [utils.ProtoClone]: a deep copy; values are not shared here. *)
Definition ProtoClone (v : PbVrf.Vrf) : PbVrf.Vrf := v.

(** [CreateVrf]; [sysID] is what [resourceid.NewSystemGenerated()] returns
    in this call. The request's [Vrf.Name] is overwritten with the full
    name before the lookup; [inVrf] is the request's object after that. *)
Definition CreateVrf (sysID : string) (w : World)
  (i : PbVrf.CreateVrfRequest) : (error + PbVrf.Vrf) * World :=
  match validateCreateVrfRequest i with
  | Some err => (inl err, w)
  | None =>
      let resourceID :=
        if bool_decide (PbVrf.VrfId i ≠ "") then PbVrf.VrfId i else sysID in
      let inVrf :=
        PbVrf.withName (resourceIDToFullName resourceID) (PbVrf.CVrf i) in
      match getVrf w (PbVrf.Name inVrf) with
      | inr vrfObj => (inr vrfObj, w)
      | inl err =>
          if bool_decide (err ≠ ErrKeyNotFound) then (inl err, w)
          else
            match createVrf w inVrf with
            | (inl err, w') => (inl err, w')
            | (inr response, w') => (inr response, w')
            end
      end
  end.

Definition UpdateVrf (w : World) (i : PbVrf.UpdateVrfRequest)
  : (error + PbVrf.Vrf) * World :=
  match validateUpdateVrfRequest i with
  | Some err => (inl err, w)
  | None =>
      match getVrf w (PbVrf.Name (PbVrf.UVrf i)) with
      | inl err =>
          if bool_decide (err ≠ ErrKeyNotFound) then (inl err, w)
          else if negb (PbVrf.AllowMissing i) then
            (inl (status_Errorf NotFound
                    ("unable to find key " +:+ PbVrf.Name (PbVrf.UVrf i))), w)
          else
            match createVrf w (PbVrf.UVrf i) with
            | (inl err, w') => (inl err, w')
            | (inr response, w') => (inr response, w')
            end
      | inr vrfObj =>
          let updatedvrfObj :=
            ApplyMaskToStoredPbObject (PbVrf.UpdateMask i)
              (ProtoClone vrfObj) (PbVrf.UVrf i) in
          if bool_decide (vrfObj = updatedvrfObj) then (inr vrfObj, w)
          else
            match updateVrf w updatedvrfObj with
            | (inl err, w') => (inl err, w')
            | (inr response, w') => (inr response, w')
            end
      end
  end.

End VrfServer.

(** A small InfraDB on which the front end runs as a whole.

    Modelled from the spec: [infradb.GetVrf], [infradb.CreateVrf] and
    [infradb.UpdateVrf] are not among the files embedded here. After the spec,
    Get reads the row of a name, Create persists the new object and
    enqueues one task, Update persists and enqueues one task. The store
    keeps the rows in their protobuf form. *)
Module VrfWorld.

Record InfraDB := mkInfraDB {
  vrfs : gmap string PbVrf.Vrf;
  tasks : list string;
}.

Definition resourceIDToFullName (resourceID : string) : string :=
  "//network.opiproject.org/vrfs/" +:+ resourceID.

Definition getVrf (db : InfraDB) (name : string) : error + PbVrf.Vrf :=
  match vrfs db !! name with
  | Some v => inr v
  | None => inl ErrKeyNotFound
  end.

Definition createVrf (db : InfraDB) (v : PbVrf.Vrf)
  : (error + PbVrf.Vrf) * InfraDB :=
  (inr v, {| vrfs := <[PbVrf.Name v := v]> (vrfs db);
             tasks := tasks db ++ [PbVrf.Name v] |}).

Definition updateVrf (db : InfraDB) (v : PbVrf.Vrf)
  : (error + PbVrf.Vrf) * InfraDB :=
  (inr v, {| vrfs := <[PbVrf.Name v := v]> (vrfs db);
             tasks := tasks db ++ [PbVrf.Name v] |}).

(** A field mask applied path by path; the paths of a VRF are its three
    spec fields. *)
Definition applyPath (src : PbVrf.Vrf) (dst : PbVrf.Vrf) (path : string)
  : PbVrf.Vrf :=
  let s := PbVrf.Spec src in
  let d := PbVrf.Spec dst in
  if bool_decide (path = "spec.vni") then
    {| PbVrf.Name := PbVrf.Name dst;
       PbVrf.Spec := {| PbVrf.Vni := PbVrf.Vni s;
                        PbVrf.LoopbackIpPrefix := PbVrf.LoopbackIpPrefix d;
                        PbVrf.VtepIpPrefix := PbVrf.VtepIpPrefix d |};
       PbVrf.Status := PbVrf.Status dst |}
  else if bool_decide (path = "spec.loopback_ip_prefix") then
    {| PbVrf.Name := PbVrf.Name dst;
       PbVrf.Spec := {| PbVrf.Vni := PbVrf.Vni d;
                        PbVrf.LoopbackIpPrefix := PbVrf.LoopbackIpPrefix s;
                        PbVrf.VtepIpPrefix := PbVrf.VtepIpPrefix d |};
       PbVrf.Status := PbVrf.Status dst |}
  else if bool_decide (path = "spec.vtep_ip_prefix") then
    {| PbVrf.Name := PbVrf.Name dst;
       PbVrf.Spec := {| PbVrf.Vni := PbVrf.Vni d;
                        PbVrf.LoopbackIpPrefix := PbVrf.LoopbackIpPrefix d;
                        PbVrf.VtepIpPrefix := PbVrf.VtepIpPrefix s |};
       PbVrf.Status := PbVrf.Status dst |}
  else dst.

Definition ApplyMaskToStoredPbObject (mask : list string)
  (dst src : PbVrf.Vrf) : PbVrf.Vrf :=
  foldl (applyPath src) dst mask.

(** Validators that accept every request. *)
Definition acceptCreate (_ : PbVrf.CreateVrfRequest) : option error := None.
Definition acceptUpdate (_ : PbVrf.UpdateVrfRequest) : option error := None.

Definition blue : PbVrf.Vrf :=
  {| PbVrf.Name := "";
     PbVrf.Spec := {| PbVrf.Vni := Some 100; PbVrf.LoopbackIpPrefix := None;
                      PbVrf.VtepIpPrefix := None |};
     PbVrf.Status := None |}.

Definition emptyDB : InfraDB := {| vrfs := ∅; tasks := [] |}.

End VrfWorld.

(** ** Package infradb: Vrf and TunRep, as the FRR module reads them

    The declarations of [infradb.Vrf] and [infradb.TunRep] are not among the
    files embedded here; the records hold the fields the handlers and the
    spec name. *)

Module Vrf.

Definition VrfOperStatusUnspecified := OperStatusUnspecified.
Definition VrfOperStatusUp := OperStatusUp.
Definition VrfOperStatusDown := OperStatusDown.
Definition VrfOperStatusToBeDeleted := OperStatusToBeDeleted.

Record VrfStatus := mkVrfStatus {
  VrfOperStatus : OperStatus;
  Components : list Component;
}.

Record VrfSpec := mkVrfSpec {
  Vni : option Z;
  LoopbackIP : option IPNet;
  VtepIP : option IPNet;
}.

Record VrfMetadata := mkVrfMetadata { }.

Record Vrf := mkVrf {
  Name : string;
  Spec : VrfSpec;
  Status : VrfStatus;
  ResourceVersion : string;
}.

End Vrf.

Module TunRep.

Definition TunRepOperStatusToBeDeleted := OperStatusToBeDeleted.

Record TunRepStatus := mkTunRepStatus {
  TunRepOperStatus : OperStatus;
  Components : list Component;
}.

Record TunRepMetadata := mkTunRepMetadata { }.

Record TunRep := mkTunRep {
  Name : string;
  Status : TunRepStatus;
  OldVersions : list string;
  ResourceVersion : string;
}.

End TunRep.

(** ** Package frr: the FRR subscriber *)

Module Frr.

Definition frrComp : string := "frr".

(** [time.Second], in nanoseconds. *)
Definition Second : Z := 1000000000.

Definition replayThreshold : Z := 64 * Second.

(** [int64] arithmetic wraps around. *)
Definition wrap64 (z : Z) : Z := (z + 2 ^ 63) mod 2 ^ 64 - 2 ^ 63.

Definition setName (n : string) (c : Component) : Component :=
  {| Common.Name := n; CompStatus := CompStatus c; Details := Details c;
     Timer := Timer c |}.

Definition setCompStatus (s : ComponentStatus) (c : Component) : Component :=
  {| Common.Name := Common.Name c; CompStatus := s; Details := Details c;
     Timer := Timer c |}.

Definition setDetails (d : string) (c : Component) : Component :=
  {| Common.Name := Common.Name c; CompStatus := CompStatus c; Details := d;
     Timer := Timer c |}.

Definition setTimer (t : Z) (c : Component) : Component :=
  {| Common.Name := Common.Name c; CompStatus := CompStatus c;
     Details := Details c; Timer := t |}.

(** [if comp.Timer == 0 { comp.Timer = 2 * time.Second }
     else { comp.Timer *= 2 }], the fragment every error path repeats. *)
Definition backoff (c : Component) : Component :=
  if bool_decide (Timer c = 0) then setTimer (2 * Second) c
  else setTimer (wrap64 (Timer c * 2)) c.

(** [for i := 0; i < len(comps); i++ { if comps[i].Name == frrComp
      { comp = comps[i] } }]: the last component named frr wins. *)
Definition frrComponent (comps : list Component) (comp : Component)
  : Component :=
  foldl (λ acc ci, if bool_decide (Common.Name ci = frrComp) then ci else acc)
        comp comps.

(** What a handler does to the world around it, in the order of the calls.
    [CheckReplayThreshold] is a method of [common.Component], declared in
    a file not embedded here: the call is recorded with its receiver and
    its argument, and the component goes on to the status update with the
    fields the handler set. *)
Inductive Call :=
| CallSetUpVrf (v : Vrf.Vrf)
| CallTearDownVrf (v : Vrf.Vrf)
| CallSetUpSvi (s : Svi.Svi)
| CallTearDownSvi (s : Svi.Svi)
| CallSetUpTunRep (t : TunRep.TunRep)
| CallUpdateTunRep (t : TunRep.TunRep)
| CallTearDownTunRep (t : TunRep.TunRep)
| CallCheckReplayThreshold (comp : Component) (threshold : Z)
| CallUpdateVrfStatus (name resourceVersion notificationID : string)
    (meta : option Vrf.VrfMetadata) (comp : Component)
| CallUpdateSviStatus (name resourceVersion notificationID : string)
    (meta : option Svi.SviMetadata) (comp : Component)
| CallUpdateTunRepStatus (name resourceVersion notificationID : string)
    (meta : option TunRep.TunRepMetadata) (comp : Component).

(** Modelled from the spec: [CheckReplayThreshold] is not among the files
    embedded here. After the spec ("if Timer >= replayThreshold = 64 s,
    enqueue a global Replay"), the call asks for a replay when the
    component's timer has reached the threshold. *)
Definition CheckReplayThreshold (comp : Component) (threshold : Z) : bool :=
  bool_decide (threshold ≤ Timer comp).

(** The calls of a trace that are set-up or tear-down work. *)
Definition isWork (c : Call) : bool :=
  match c with
  | CallSetUpVrf _ | CallTearDownVrf _ | CallSetUpSvi _ | CallTearDownSvi _
  | CallSetUpTunRep _ | CallUpdateTunRep _ | CallTearDownTunRep _ => true
  | _ => false
  end.

(** The line feed of the format strings. *)
Definition nl : string := String (Ascii.ascii_of_nat 10) EmptyString.

Section Handlers.

(** The reads of InfraDB and the work on the FRR daemon: oracles. The
    set-up and tear-down functions run vtysh commands and parse the
    daemon's answers; a handler uses their details string and their
    success flag only. *)
Variable GetVrf : string → error + Vrf.Vrf.
Variable GetSvi : string → error + Svi.Svi.
Variable GetTunRep : string → error + TunRep.TunRep.
Variable setUpVrf : Vrf.Vrf → string * bool.
Variable tearDownVrf : Vrf.Vrf → string * bool.
Variable setUpSvi : Svi.Svi → string * bool.
Variable tearDownSvi : Svi.Svi → string * bool.
Variable setUpTunRep : TunRep.TunRep → bool.
Variable UpdateTunRep : TunRep.TunRep → bool.
Variable tearDownTunRep : TunRep.TunRep → bool.

Definition handlevrf (objectData : ObjectData) : list Call :=
  let comp := zeroComponent in
  match GetVrf (ODName objectData) with
  | inl err =>
      let comp := setName frrComp comp in
      let comp := setCompStatus ComponentStatusError comp in
      let comp :=
        setDetails ("GetVRF error: " +:+ errMsg err +:+ " " +:+
                    ODName objectData +:+ nl) comp in
      let comp := backoff comp in
      [CallUpdateVrfStatus (ODName objectData) (ODResourceVersion objectData)
         (NotificationID objectData) None comp]
  | inr vrf =>
      if bool_decide (ODResourceVersion objectData ≠ Vrf.ResourceVersion vrf)
      then
        let comp := setName frrComp comp in
        let comp := setCompStatus ComponentStatusError comp in
        let comp :=
          setDetails ("FRR: Mismatch in resoruce version " +:+
                      ODResourceVersion objectData +:+ nl +:+
                      " and vrf resource version " +:+
                      Vrf.ResourceVersion vrf +:+ nl) comp in
        let comp := backoff comp in
        [CallUpdateVrfStatus (ODName objectData)
           (ODResourceVersion objectData) (NotificationID objectData)
           None comp]
      else
        let comp := frrComponent (Vrf.Components (Vrf.Status vrf)) comp in
        if bool_decide (Vrf.VrfOperStatus (Vrf.Status vrf)
                        ≠ Vrf.VrfOperStatusToBeDeleted) then
          let '(detail, status) := setUpVrf vrf in
          let comp := setName frrComp comp in
          let comp := setDetails detail comp in
          let comp :=
            if status
            then setTimer 0 (setCompStatus ComponentStatusSuccess comp)
            else setCompStatus ComponentStatusError (backoff comp) in
          [CallSetUpVrf vrf;
           CallCheckReplayThreshold comp replayThreshold;
           CallUpdateVrfStatus (ODName objectData)
             (ODResourceVersion objectData) (NotificationID objectData)
             None comp]
        else
          let '(details, status) := tearDownVrf vrf in
          let comp := setName frrComp comp in
          let comp := setDetails details comp in
          let comp :=
            if status
            then setTimer 0 (setCompStatus ComponentStatusSuccess comp)
            else setCompStatus ComponentStatusError (backoff comp) in
          [CallTearDownVrf vrf;
           CallCheckReplayThreshold comp replayThreshold;
           CallUpdateVrfStatus (ODName objectData)
             (ODResourceVersion objectData) (NotificationID objectData)
             None comp]
  end.

Definition handlesvi (objectData : ObjectData) : list Call :=
  let comp := zeroComponent in
  match GetSvi (ODName objectData) with
  | inl err =>
      let comp := setName frrComp comp in
      let comp := setCompStatus ComponentStatusError comp in
      let comp :=
        setDetails ("GetSvi error: " +:+ errMsg err +:+ " " +:+
                    ODName objectData +:+ nl) comp in
      let comp := backoff comp in
      [CallUpdateSviStatus (ODName objectData) (ODResourceVersion objectData)
         (NotificationID objectData) None comp]
  | inr svi =>
      if bool_decide (ODResourceVersion objectData ≠ Svi.ResourceVersion svi)
      then
        let comp := setName frrComp comp in
        let comp := setCompStatus ComponentStatusError comp in
        let comp :=
          setDetails ("FRR: Mismatch in resoruce version " +:+
                      ODResourceVersion objectData +:+ nl +:+
                      " and svi resource version " +:+
                      Svi.ResourceVersion svi +:+ nl) comp in
        let comp := backoff comp in
        [CallUpdateSviStatus (ODName objectData)
           (ODResourceVersion objectData) (NotificationID objectData)
           None comp]
      else
        let comp := frrComponent (Svi.Components (Svi.Status svi)) comp in
        if bool_decide (Svi.SviOperStatus (Svi.Status svi)
                        ≠ Svi.SviOperStatusToBeDeleted) then
          let '(details, status) := setUpSvi svi in
          let comp := setName frrComp comp in
          let comp := setDetails details comp in
          let comp :=
            if status
            then setTimer 0 (setCompStatus ComponentStatusSuccess comp)
            else setCompStatus ComponentStatusError (backoff comp) in
          [CallSetUpSvi svi;
           CallCheckReplayThreshold comp replayThreshold;
           CallUpdateSviStatus (ODName objectData)
             (ODResourceVersion objectData) (NotificationID objectData)
             None comp]
        else
          let '(details, status) := tearDownSvi svi in
          let comp := setName frrComp comp in
          let comp := setDetails details comp in
          let comp :=
            if status
            then setTimer 0 (setCompStatus ComponentStatusSuccess comp)
            else setCompStatus ComponentStatusError (backoff comp) in
          [CallTearDownSvi svi;
           CallCheckReplayThreshold comp replayThreshold;
           CallUpdateSviStatus (ODName objectData)
             (ODResourceVersion objectData) (NotificationID objectData)
             None comp]
  end.

Definition handleTunRep (objectData : ObjectData) : list Call :=
  let comp := zeroComponent in
  match GetTunRep (ODName objectData) with
  | inl err =>
      let comp := setName frrComp comp in
      let comp := setCompStatus ComponentStatusError comp in
      let comp := backoff comp in
      [CallUpdateTunRepStatus (ODName objectData)
         (ODResourceVersion objectData) (NotificationID objectData)
         None comp]
  | inr tr =>
      if bool_decide (ODResourceVersion objectData
                      ≠ TunRep.ResourceVersion tr)
      then
        let comp := setName frrComp comp in
        let comp := setCompStatus ComponentStatusError comp in
        let comp := backoff comp in
        [CallUpdateTunRepStatus (ODName objectData)
           (ODResourceVersion objectData) (NotificationID objectData)
           None comp]
      else
        let comp := frrComponent (TunRep.Components (TunRep.Status tr)) comp in
        if bool_decide (TunRep.TunRepOperStatus (TunRep.Status tr)
                        ≠ TunRep.TunRepOperStatusToBeDeleted) then
          let status :=
            if bool_decide (0 < length (TunRep.OldVersions tr))%nat
            then UpdateTunRep tr else setUpTunRep tr in
          let work :=
            if bool_decide (0 < length (TunRep.OldVersions tr))%nat
            then CallUpdateTunRep tr else CallSetUpTunRep tr in
          let comp := setName frrComp comp in
          let comp :=
            if status
            then setTimer 0
                   (setCompStatus ComponentStatusSuccess (setDetails "" comp))
            else setCompStatus ComponentStatusError (backoff comp) in
          [work;
           CallCheckReplayThreshold comp replayThreshold;
           CallUpdateTunRepStatus (ODName objectData)
             (ODResourceVersion objectData) (NotificationID objectData)
             None comp]
        else
          let status := tearDownTunRep tr in
          let comp := setName frrComp comp in
          let comp :=
            if status
            then setTimer 0 (setCompStatus ComponentStatusSuccess comp)
            else backoff (setCompStatus ComponentStatusError comp) in
          [CallTearDownTunRep tr;
           CallCheckReplayThreshold comp replayThreshold;
           CallUpdateTunRepStatus (ODName objectData)
             (ODResourceVersion objectData) (NotificationID objectData)
             None comp]
  end.

(** [HandleEvent]: an unknown event type is logged and nothing is called. *)
Definition HandleEvent (eventType : string) (objectData : ObjectData)
  : list Call :=
  if bool_decide (eventType = "vrf") then handlevrf objectData
  else if bool_decide (eventType = "svi") then handlesvi objectData
  else if bool_decide (eventType = "tun-rep") then handleTunRep objectData
  else [].

(** The component of the status update a trace ends with. *)
Definition reported (calls : list Call) : option Component :=
  match last calls with
  | Some (CallUpdateVrfStatus _ _ _ _ comp)
  | Some (CallUpdateSviStatus _ _ _ _ comp)
  | Some (CallUpdateTunRepStatus _ _ _ _ comp) => Some comp
  | _ => None
  end.

End Handlers.

End Frr.

(** ** The references a logical bridge holds, as lists

    The SVIs bound to the bridge (none for the empty string), the names of
    its bridge ports and the MAC addresses of its table, each as the list
    of the entries stored. *)

Definition sviRefs (lb : LogicalBridge.LogicalBridge) : list string :=
  if bool_decide (LogicalBridge.Svi lb = "") then []
  else [LogicalBridge.Svi lb].

Definition portNames (lb : LogicalBridge.LogicalBridge) : list string :=
  (map_to_list (LogicalBridge.BridgePorts lb)).*1.

Definition macAddresses (lb : LogicalBridge.LogicalBridge) : list string :=
  (map_to_list (LogicalBridge.MacTable lb)).*1.

(** Invariants (a), (b) and (c) of the logical bridge. *)
Definition referencesUnique (lb : LogicalBridge.LogicalBridge) : Prop :=
  (length (sviRefs lb) ≤ 1)%nat
  ∧ NoDup (portNames lb)
  ∧ NoDup (macAddresses lb).

(** ** Sample values *)

Module Sample.

(** An SVI request without BGP: [RemoteAs] is left at 0, the default of an
    unset [uint32]. *)
Definition sviNoBgp : Pb.Svi :=
  {| Pb.SviName := "//network.opiproject.org/svis/svi1";
     Pb.SviSpec_ :=
       {| Pb.SviVrf := "//network.opiproject.org/vrfs/blue";
          Pb.SviLogicalBridge := "//network.opiproject.org/bridges/br1";
          Pb.SviMacAddress := [170; 187; 204; 221; 238; 255];
          Pb.GwIpPrefix := [];
          Pb.SviEnableBgp := false;
          Pb.SviRemoteAs := 0 |} |}.

Definition sviBgp (remoteAs : Z) : Pb.Svi :=
  {| Pb.SviName := "//network.opiproject.org/svis/svi1";
     Pb.SviSpec_ :=
       {| Pb.SviVrf := "//network.opiproject.org/vrfs/blue";
          Pb.SviLogicalBridge := "//network.opiproject.org/bridges/br1";
          Pb.SviMacAddress := [170; 187; 204; 221; 238; 255];
          Pb.GwIpPrefix :=
            [{| Pb.Addr := Some {| Pb.Af := 1;
                                   Pb.Addr46 := Some (Pb.V4Addr 167772162) |};
                Pb.Len := 24 |}];
          Pb.SviEnableBgp := true;
          Pb.SviRemoteAs := remoteAs |} |}.

(** Validators that accept every name and every MAC address. *)
Definition acceptName (_ : string) : option error := None.
Definition acceptMac (_ : list Z) : option error := None.

Definition lvm : Subscriber := {| SubName := "lvm"; Priority := 1 |}.
Definition frr : Subscriber := {| SubName := "frr"; Priority := 2 |}.
Definition lgm : Subscriber := {| SubName := "lgm"; Priority := 3 |}.

Definition bus : EventBus :=
  <["svi" := [lvm; frr; lgm]]>
    (<["logical-bridge" := [lvm; lgm]]>
       (<["bridge-port" := [lvm]]> ∅)).

Definition vtep : IPNet := {| IP := [10; 0; 0; 1]; Mask := [255; 255; 255; 255] |}.

Definition pbBridge : Pb.LogicalBridge :=
  {| Pb.LbName := "//network.opiproject.org/bridges/br1";
     Pb.LbSpec := {| Pb.VlanId := 22; Pb.LbVni := Some 11;
                     Pb.VtepIpPrefix := None |} |}.

Definition pbPort : Pb.BridgePort :=
  {| Pb.BpName := "//network.opiproject.org/ports/p1";
     Pb.BpSpec := {| Pb.BpPtype := Pb.BRIDGE_PORT_TYPE_ACCESS;
                     Pb.BpMacAddress := [170; 187; 204; 221; 238; 1];
                     Pb.BpLogicalBridges :=
                       ["//network.opiproject.org/bridges/br1"] |} |}.

(** An SVI up with [lvm] and [lgm] in Success and [frr] in Error. *)
Definition sviUp : Svi.Svi :=
  {| Svi.Name := "//network.opiproject.org/svis/svi1";
     Svi.Spec := {| Svi.Vrf := "//network.opiproject.org/vrfs/blue";
                    Svi.LogicalBridge :=
                      "//network.opiproject.org/bridges/br1";
                    Svi.MacAddress := [170; 187; 204; 221; 238; 255];
                    Svi.GatewayIPs := [];
                    Svi.EnableBgp := false; Svi.RemoteAs := 0 |};
     Svi.Status :=
       {| Svi.SviOperStatus := OperStatusUp;
          Svi.Components :=
            [ {| Name := "lvm"; CompStatus := ComponentStatusSuccess;
                 Details := ""; Timer := 0 |};
              {| Name := "frr"; CompStatus := ComponentStatusError;
                 Details := "failed"; Timer := 4000000000 |};
              {| Name := "lgm"; CompStatus := ComponentStatusSuccess;
                 Details := ""; Timer := 0 |} ] |};
     Svi.Metadata := Svi.mkSviMetadata;
     Svi.ResourceVersion := "v1" |}.

End Sample.

(** The VRF front end on the small InfraDB. *)
Module VrfSample.

Definition CreateVrf :=
  CreateVrf VrfWorld.InfraDB VrfWorld.acceptCreate
    VrfWorld.resourceIDToFullName VrfWorld.getVrf VrfWorld.createVrf.

Definition UpdateVrf :=
  UpdateVrf VrfWorld.InfraDB VrfWorld.acceptUpdate VrfWorld.getVrf
    VrfWorld.createVrf VrfWorld.updateVrf
    VrfWorld.ApplyMaskToStoredPbObject.

(** The row of the VRF "blue", with VNI 100. *)
Definition storedBlue : PbVrf.Vrf :=
  PbVrf.withName "//network.opiproject.org/vrfs/blue" VrfWorld.blue.

Definition dbBlue : VrfWorld.InfraDB :=
  {| VrfWorld.vrfs := {[ "//network.opiproject.org/vrfs/blue" := storedBlue ]};
     VrfWorld.tasks := ["//network.opiproject.org/vrfs/blue"] |}.

(** A second request for the id "blue", with another body (VNI 200). *)
Definition createBlueAgain : PbVrf.CreateVrfRequest :=
  {| PbVrf.VrfId := "blue";
     PbVrf.CVrf :=
       {| PbVrf.Name := "";
          PbVrf.Spec := {| PbVrf.Vni := Some 200;
                           PbVrf.LoopbackIpPrefix := None;
                           PbVrf.VtepIpPrefix := None |};
          PbVrf.Status := None |} |}.

Definition createBlue : PbVrf.CreateVrfRequest :=
  {| PbVrf.VrfId := "blue"; PbVrf.CVrf := VrfWorld.blue |}.

(** An update of "blue" whose mask names the VNI and whose body carries the
    stored VNI. *)
Definition updateBlueSame : PbVrf.UpdateVrfRequest :=
  {| PbVrf.UVrf := storedBlue;
     PbVrf.UpdateMask := ["spec.vni"];
     PbVrf.AllowMissing := false |}.

End VrfSample.

(** ** Consecutive error results for one VRF

    [vrfErrorRun n c]: [c] is the frr component after [n] notifications in a
    row that the handler answered with an Error for the frr component, the
    stored timer being 0 before the first. Each notification finds the
    object (whatever InfraDB and the FRR daemon are at that time), its
    version matches, and the frr component stored in the object is the one
    the previous notification reported. *)
Inductive vrfErrorRun : nat → Component → Prop :=
| vrfErrorRun_O (c : Component) :
    Timer c = 0 → vrfErrorRun 0 c
| vrfErrorRun_S (n : nat) (c c' : Component)
    (GetVrf : string → error + Vrf.Vrf)
    (setUpVrf tearDownVrf : Vrf.Vrf → string * bool)
    (objectData : ObjectData) (vrf : Vrf.Vrf) :
    vrfErrorRun n c →
    GetVrf (ODName objectData) = inr vrf →
    ODResourceVersion objectData = Vrf.ResourceVersion vrf →
    Frr.frrComponent (Vrf.Components (Vrf.Status vrf)) zeroComponent = c →
    Frr.reported (Frr.handlevrf GetVrf setUpVrf tearDownVrf objectData)
    = Some c' →
    CompStatus c' = ComponentStatusError →
    vrfErrorRun (S n) c'.

Module FrrSample.

Definition vrfOf (comps : list Component) : Vrf.Vrf :=
  {| Vrf.Name := "//network.opiproject.org/vrfs/blue";
     Vrf.Spec := {| Vrf.Vni := Some 100; Vrf.LoopbackIP := None;
                    Vrf.VtepIP := None |};
     Vrf.Status := {| Vrf.VrfOperStatus := OperStatusDown;
                      Vrf.Components := comps |};
     Vrf.ResourceVersion := "v1" |}.

Definition notification : ObjectData :=
  {| ODName := "//network.opiproject.org/vrfs/blue";
     ODResourceVersion := "v1";
     NotificationID := "n1" |}.

Definition stale : ObjectData :=
  {| ODName := "//network.opiproject.org/vrfs/blue";
     ODResourceVersion := "v0";
     NotificationID := "n7" |}.

(** The frr component in Error with a timer of [s] seconds. *)
Definition failed (s : Z) : Component :=
  {| Name := "frr"; CompStatus := ComponentStatusError;
     Details := "down"; Timer := s * Frr.Second |}.

Definition down (_ : Vrf.Vrf) : string * bool := ("down", false).
Definition fine (_ : Vrf.Vrf) : string * bool := ("", true).

Definition sviV1 : Svi.Svi := Sample.sviUp.

Definition tunRep : TunRep.TunRep :=
  {| TunRep.Name := "//network.opiproject.org/tunreps/t1";
     TunRep.Status := {| TunRep.TunRepOperStatus := OperStatusDown;
                         TunRep.Components := [] |};
     TunRep.OldVersions := [];
     TunRep.ResourceVersion := "v1" |}.

End FrrSample.

(** * The rest of the packages *)

(** ** The interface, continued *)

Definition checkForAllSuccess (o : EvpnObject) : bool :=
  match o with
  | OfSvi o => Svi.checkForAllSuccess o
  | OfLogicalBridge o => LogicalBridge.checkForAllSuccess o
  | OfBridgePort o => BridgePort.checkForAllSuccess o
  | OfSa o => Sa.checkForAllSuccess o
  end.

(** ** [ToPb]: from the domain objects back to protobuf

    A message [ToPb] builds is the name and the spec, as the constructors
    read them, and the status the method fills in. The three kinds declare
    the same four operational statuses and share the component statuses. *)

Module PbStatus.

Inductive CompStatus :=
| COMP_STATUS_UNSPECIFIED
| COMP_STATUS_PENDING
| COMP_STATUS_SUCCESS
| COMP_STATUS_ERROR.

Record Component := mkComponent {
  CName : string;
  CStatus : CompStatus;
  CDetails : string;
}.

Inductive OperStatus :=
| OPER_STATUS_UNSPECIFIED
| OPER_STATUS_UP
| OPER_STATUS_DOWN
| OPER_STATUS_TO_BE_DELETED.

Record Status := mkStatus {
  SOperStatus : OperStatus;
  SComponents : list Component;
}.

End PbStatus.

(** The [switch] on the operational status, the same in the three methods. *)
Definition operStatusToPb (s : OperStatus) : PbStatus.OperStatus :=
  match s with
  | OperStatusDown => PbStatus.OPER_STATUS_DOWN
  | OperStatusUp => PbStatus.OPER_STATUS_UP
  | OperStatusToBeDeleted => PbStatus.OPER_STATUS_TO_BE_DELETED
  | _ => PbStatus.OPER_STATUS_UNSPECIFIED
  end.

(** The body of the loop over the components, the same in the three
    methods. *)
Definition componentToPb (comp : Component) : PbStatus.Component :=
  {| PbStatus.CName := Name comp;
     PbStatus.CStatus :=
       match CompStatus comp with
       | ComponentStatusPending => PbStatus.COMP_STATUS_PENDING
       | ComponentStatusSuccess => PbStatus.COMP_STATUS_SUCCESS
       | ComponentStatusError => PbStatus.COMP_STATUS_ERROR
       | _ => PbStatus.COMP_STATUS_UNSPECIFIED
       end;
     PbStatus.CDetails := Details comp |}.

Section ToPb.

(** [common.ConvertToIPPrefix] is declared in another file: an oracle. *)
Variable ConvertToIPPrefix : IPNet → Pb.IPPrefix.

Definition SviToPb (i : Svi.Svi) : Pb.Svi * PbStatus.Status :=
  let gatewayIPs := map ConvertToIPPrefix (Svi.GatewayIPs (Svi.Spec i)) in
  ({| Pb.SviName := Svi.Name i;
      Pb.SviSpec_ :=
        {| Pb.SviVrf := Svi.Vrf (Svi.Spec i);
           Pb.SviLogicalBridge := Svi.LogicalBridge (Svi.Spec i);
           Pb.SviMacAddress := Svi.MacAddress (Svi.Spec i);
           Pb.GwIpPrefix := gatewayIPs;
           Pb.SviEnableBgp := Svi.EnableBgp (Svi.Spec i);
           Pb.SviRemoteAs := Svi.RemoteAs (Svi.Spec i) |} |},
   {| PbStatus.SOperStatus := operStatusToPb (Svi.SviOperStatus (Svi.Status i));
      PbStatus.SComponents :=
        map componentToPb (Svi.Components (Svi.Status i)) |}).

Definition LogicalBridgeToPb (i : LogicalBridge.LogicalBridge)
  : Pb.LogicalBridge * PbStatus.Status :=
  let vtepip :=
    ConvertToIPPrefix (LogicalBridge.VtepIP (LogicalBridge.Spec i)) in
  ({| Pb.LbName := LogicalBridge.Name i;
      Pb.LbSpec :=
        {| Pb.VlanId := LogicalBridge.VlanID (LogicalBridge.Spec i);
           Pb.LbVni := LogicalBridge.Vni (LogicalBridge.Spec i);
           Pb.VtepIpPrefix := Some vtepip |} |},
   {| PbStatus.SOperStatus :=
        operStatusToPb (LogicalBridge.LBOperStatus (LogicalBridge.Status i));
      PbStatus.SComponents :=
        map componentToPb
          (LogicalBridge.Components (LogicalBridge.Status i)) |}).

End ToPb.

Definition BridgePortToPb (i : BridgePort.BridgePort)
  : Pb.BridgePort * PbStatus.Status :=
  ({| Pb.BpName := BridgePort.Name i;
      Pb.BpSpec :=
        {| Pb.BpPtype :=
             match BridgePort.Ptype (BridgePort.Spec i) with
             | BridgePort.Access => Pb.BRIDGE_PORT_TYPE_ACCESS
             | BridgePort.Trunk => Pb.BRIDGE_PORT_TYPE_TRUNK
             | _ => Pb.BRIDGE_PORT_TYPE_UNSPECIFIED
             end;
           Pb.BpMacAddress := BridgePort.MacAddress (BridgePort.Spec i);
           Pb.BpLogicalBridges :=
             if negb (BridgePort.TransparentTrunk i)
             then BridgePort.LogicalBridges (BridgePort.Spec i)
             else [] |} |},
   {| PbStatus.SOperStatus :=
        operStatusToPb (BridgePort.BPOperStatus (BridgePort.Status i));
      PbStatus.SComponents :=
        map componentToPb (BridgePort.Components (BridgePort.Status i)) |}).

(** Big-endian reading of a byte slice, the inverse of [PutUint32]. *)
Definition Uint32 (b : list Z) : Z :=
  foldl (λ acc x, acc * 256 + x) 0 b.

(** ** The references of a logical bridge, continued *)

(** Every MAC address of the table is bound to a port of the bridge, and no
    port of the table has two MAC addresses. *)
Definition tableConsistent (lb : LogicalBridge.LogicalBridge) : Prop :=
  (∀ mac port, LogicalBridge.MacTable lb !! mac = Some port →
     is_Some (LogicalBridge.BridgePorts lb !! port))
  ∧ (∀ mac1 mac2 port,
       LogicalBridge.MacTable lb !! mac1 = Some port →
       LogicalBridge.MacTable lb !! mac2 = Some port → mac1 = mac2).

(** ** Package vrf, continued: [GetVrf] and [DeleteVrf] *)

Section VrfServerRead.

Variable World : Type.
Variable validateGetVrfRequest : string → option error.
Variable validateDeleteVrfRequest : string → bool → option error.
Variable getVrf : World → string → error + PbVrf.Vrf.
Variable deleteVrf : World → string → option error * World.

(** [badger.ErrKeyNotFound], the error [DeleteVrf] compares with. *)
Variable badger_ErrKeyNotFound : error.

(** [GetVrf]; the request is its [Name]. *)
Definition GetVrf (w : World) (name : string) : error + PbVrf.Vrf :=
  match validateGetVrfRequest name with
  | Some err => inl err
  | None =>
      match getVrf w name with
      | inl err =>
          if bool_decide (err ≠ ErrKeyNotFound) then inl err
          else inl (status_Errorf NotFound ("unable to find key " +:+ name))
      | inr vrfObj => inr vrfObj
      end
  end.

(** [DeleteVrf]; the request is its [Name] and [AllowMissing]; the answer
    is an error or the empty message. *)
Definition DeleteVrf (w : World) (name : string) (allowMissing : bool)
  : option error * World :=
  match validateDeleteVrfRequest name allowMissing with
  | Some err => (Some err, w)
  | None =>
      match getVrf w name with
      | inl err =>
          if bool_decide (err ≠ badger_ErrKeyNotFound) then (Some err, w)
          else if negb allowMissing then
            (Some (status_Errorf NotFound ("unable to find key " +:+ name)),
             w)
          else (None, w)
      | inr _ =>
          match deleteVrf w name with
          | (Some err, w') => (Some err, w')
          | (None, w') => (None, w')
          end
      end
  end.

End VrfServerRead.

(** ** Package port: the helpers of the bridge-port front end *)

Section PortServer.

(** [World] is InfraDB; the server's own state is its [ListHelper]. The
    file calls [infradb.NewBridgePort] for one result, the object.
    [infradb.CreateBP] and [infradb.UpdateBP] are given the pointer to the
    object: they answer the object as they leave it, which is the one [ToPb]
    is then called on. *)
Variable World : Type.
Variable validateBridgePortSpec : Pb.BridgePort → option error.
Variable NewBridgePort : Pb.BridgePort → BridgePort.BridgePort.
Variable CreateBP :
  World → BridgePort.BridgePort
  → option error * BridgePort.BridgePort * World.
Variable DeleteBP : World → string → option error * World.
Variable GetBP : World → string → error + BridgePort.BridgePort.
Variable UpdateBP :
  World → BridgePort.BridgePort
  → option error * BridgePort.BridgePort * World.



Definition getBridgePort (w : World) (name : string)
  : error + Pb.BridgePort * PbStatus.Status :=
  match GetBP w name with
  | inl err => inl err
  | inr domainBP => inr (BridgePortToPb domainBP)
  end.

Definition updateBridgePort (w : World) (bp : Pb.BridgePort)
  : (error + Pb.BridgePort * PbStatus.Status) * World :=
  match validateBridgePortSpec bp with
  | Some err => (inl err, w)
  | None =>
      let domainBP := NewBridgePort bp in
      match UpdateBP w domainBP with
      | (Some err, _, w') => (inl err, w')
      | (None, domainBP, w') => (inr (BridgePortToPb domainBP), w')
      end
  end.

End PortServer.

(** ** Package frr, continued *)


Definition isReplayCheck (c : Frr.Call) : bool :=
  match c with
  | Frr.CallCheckReplayThreshold _ _ => true
  | _ => false
  end.

(** *** [HandleAction] and [handlePreReplay] *)

Module PreReplay.

(** [ModuleFrrActionHandler] *)
Record ModuleFrrActionHandler := mkHandler {
  runningFrrConfFile : string;
  basicFrrConfFile : string;
  backupFrrConfFile : string;
}.

Definition NewModuleFrrActionHandler : ModuleFrrActionHandler :=
  {| runningFrrConfFile := "/etc/frr/frr.conf";
     basicFrrConfFile := "/etc/frr/frr-basic.conf";
     backupFrrConfFile := "/etc/frr/frr.conf.bak" |}.

Definition NewModuleFrrActionHandlerWithArgs
  (running basic backup : string) : ModuleFrrActionHandler :=
  {| runningFrrConfFile := running;
     basicFrrConfFile := basic;
     backupFrrConfFile := backup |}.

(** The calls to the operating system, in the order made. *)
Inductive OsCall :=
| Rename (oldpath newpath : string)
| ReadFile (name : string)
| WriteFile (name data : string) (perm : Z)
| Lookup (username : string)
| Chown (name : string) (uid gid : Z)
| Run (cmd : list string) (flag : bool).

(** What a call is, without its arguments. *)
Inductive OsStep :=
| StepRename | StepReadFile | StepWriteFile | StepLookup | StepChown
| StepRun.

Definition stepOf (c : OsCall) : OsStep :=
  match c with
  | Rename _ _ => StepRename
  | ReadFile _ => StepReadFile
  | WriteFile _ _ _ => StepWriteFile
  | Lookup _ => StepLookup
  | Chown _ _ _ => StepChown
  | Run _ _ => StepRun
  end.

Section WithOs.

(** The operating system is a world the calls read and change; [user.Lookup]
    answers the Uid and Gid strings of the user; [strconv.Atoi] is a
    function of its argument. *)
Variable OS : Type.
Variable os_Rename : string → string → OS → option error * OS.
Variable os_ReadFile : string → OS → (string * option error) * OS.
Variable os_WriteFile : string → string → Z → OS → option error * OS.
Variable user_Lookup : string → OS → (error + string * string) * OS.
Variable strconv_Atoi : string → error + Z.
Variable os_Chown : string → Z → Z → OS → option error * OS.
Variable utils_Run : list string → bool → OS → (string * Z) * OS.

(** The outcome of an action: the values written to [ErrCh], in order, the
    calls made and the world they leave. *)
Definition ActionResult : Type := list (option error) * list OsCall * OS.

(** [handlePreReplay]: the deferred function writes [deferErr] to the
    channel on every way out. *)
Definition handlePreReplay (h : ModuleFrrActionHandler) (os : OS)
  : ActionResult :=
  let c1 := Rename (runningFrrConfFile h) (backupFrrConfFile h) in
  match os_Rename (runningFrrConfFile h) (backupFrrConfFile h) os with
  | (Some err, os) => ([Some err], [c1], os)
  | (None, os) =>
  let c2 := ReadFile (basicFrrConfFile h) in
  match os_ReadFile (basicFrrConfFile h) os with
  | ((_, Some err), os) => ([Some err], [c1; c2], os)
  | ((input, None), os) =>
  let c3 := WriteFile (runningFrrConfFile h) input 384 in
  match os_WriteFile (runningFrrConfFile h) input 384 os with
  | (Some err, os) => ([Some err], [c1; c2; c3], os)
  | (None, os) =>
  let c4 := Lookup "frr" in
  match user_Lookup "frr" os with
  | (inl err, os) => ([Some err], [c1; c2; c3; c4], os)
  | (inr (groupUid, groupGid), os) =>
  match strconv_Atoi groupUid with
  | inl err => ([Some err], [c1; c2; c3; c4], os)
  | inr uid =>
  match strconv_Atoi groupGid with
  | inl err => ([Some err], [c1; c2; c3; c4], os)
  | inr gid =>
  let c5 := Chown (runningFrrConfFile h) uid gid in
  match os_Chown (runningFrrConfFile h) uid gid os with
  | (Some err, os) => ([Some err], [c1; c2; c3; c4; c5], os)
  | (None, os) =>
  let c6 := Run ["systemctl"; "restart"; "frr"] false in
  match utils_Run ["systemctl"; "restart"; "frr"] false os with
  | ((_, errCmd), os) =>
      if bool_decide (errCmd ≠ 0) then
        ([Some (errors_New "restart FRR daemon failed")],
         [c1; c2; c3; c4; c5; c6], os)
      else ([None], [c1; c2; c3; c4; c5; c6], os)
  end end end end end end end end.

(** [HandleAction]: an unknown action type is logged, and nothing is
    written to the channel. *)
Definition HandleAction (h : ModuleFrrActionHandler) (actionType : string)
  (os : OS) : ActionResult :=
  if bool_decide (actionType = "preReplay") then handlePreReplay h os
  else ([], [], os).

End WithOs.

End PreReplay.

(** *** The work on the FRR daemon: set-up and tear-down *)

Module FrrWork.

(** The calls to the daemon, in the order made. *)
Inductive FrrCall :=
| ZebraCmd (cmd : string) (flag : bool)
| BgpCmd (cmd : string) (flag : bool)
| SaveCmd.

(** A function returns or panics (a nil dereference, an index out of
    range). *)
Inductive Outcome (A : Type) :=
| Returned (a : A)
| Panicked.
Arguments Returned {A} a.
Arguments Panicked {A}.

(** [bgpl2VpnCmd] and [bgpVrfCmd], the answers of the daemon once parsed. *)
Record bgpl2VpnCmd := mkBgpl2VpnCmd {
  Vni : Z;
  Type_ : string;
  InKernel : string;
  Rd : string;
  OriginatorIP : string;
  AdvertiseGatewayMacip : string;
  AdvertiseSviMacIP : string;
  AdvertisePip : string;
  SysIP : string;
  SysMac : string;
  Rmac : string;
  ImportRts : list string;
  ExportRts : list string;
}.

Record route := mkRoute { }.

Record bgpVrfCmd := mkBgpVrfCmd {
  VrfID : Z;
  VrfName : string;
  TableVersion : Z;
  RouterID : string;
  DefaultLocPrf : Z;
  LocalAS : Z;
  Routes : route;
}.

(** The double quote of the format strings. *)
Definition dq : string := String (Ascii.ascii_of_nat 34) EmptyString.

Section WithFrr.

(** The daemon is a world its commands read and change. The reads of
    InfraDB, the host name, the configured AS number and the library
    functions that format and parse are oracles: [path.Base],
    [strconv.Itoa] (and the verbs %d and %+v on integers), the verb %s on a
    slice of strings and on a [net.IPNet], the conversion [string(ip.To4())],
    [strings.Split] and [json.Unmarshal]. *)
Variable FrrWorld : Type.
Variable FrrZebraCmd :
  string → bool → FrrWorld → (string * option error) * FrrWorld.
Variable FrrBgpCmd :
  string → bool → FrrWorld → (string * option error) * FrrWorld.
Variable FrrSave : FrrWorld → option error * FrrWorld.
Variable GetLB : string → error + LogicalBridge.LogicalBridge.
Variable hname : string.
Variable localas : Z.
Variable path_Base : string → string.
Variable Itoa : Z → string.
Variable fmtStrings : list string → string.
Variable fmtIPNet : IPNet → string.
Variable To4String : list Z → string.
Variable strings_Split : string → string → list string.
Variable Unmarshal_bgpl2Vpn : string → error + bgpl2VpnCmd.
Variable Unmarshal_bgpVrf : string → error + bgpVrfCmd.

(** A computation on the daemon: its outcome, the calls it made and the
    world it leaves. A panic ends it. *)
Definition FrrM (A : Type) : Type :=
  FrrWorld → Outcome A * list FrrCall * FrrWorld.

#[local] Instance FrrM_ret : MRet FrrM := λ A a w, (Returned a, [], w).

#[local] Instance FrrM_bind : MBind FrrM := λ A B k m w,
  match m w with
  | (Returned a, calls, w') =>
      match k a w' with
      | (r, calls', w'') => (r, calls ++ calls', w'')
      end
  | (Panicked, calls, w') => (Panicked, calls, w')
  end.

Definition panic {A : Type} : FrrM A := λ w, (Panicked, [], w).

Definition zebraCmd (cmd : string) (flag : bool)
  : FrrM (string * option error) :=
  λ w, match FrrZebraCmd cmd flag w with
       | (r, w') => (Returned r, [ZebraCmd cmd flag], w')
       end.

Definition bgpCmd (cmd : string) (flag : bool)
  : FrrM (string * option error) :=
  λ w, match FrrBgpCmd cmd flag w with
       | (r, w') => (Returned r, [BgpCmd cmd flag], w')
       end.

(** [err = frr.Save(ctx)]: the error is logged and dropped. *)
Definition save : FrrM unit :=
  λ w, match FrrSave w with
       | (_, w') => (Returned tt, [SaveCmd], w')
       end.

(** [strings.Split(strings.Split(cp, "json")[1], hname)[0]] *)
Definition jsonPart (cp : string) : FrrM string :=
  match strings_Split cp "json" !! 1%nat with
  | None => panic
  | Some piece =>
      match strings_Split piece hname !! 0%nat with
      | None => panic
      | Some part => mret part
      end
  end.

Definition setUpVrf (vrf : Vrf.Vrf) : FrrM (string * bool) :=
  if bool_decide (path_Base (Vrf.Name vrf) = "GRD") then mret ("", true)
  else
    match Vrf.Vni (Vrf.Spec vrf) with
    | None => mret ("", true)
    | Some vni =>
        let vrfName := "vrf " +:+ path_Base (Vrf.Name vrf) in
        let vniID := "vni " +:+ Itoa vni in
        '(_, err) ← zebraCmd
          ("configure terminal" +:+ Frr.nl +:+ " " +:+ vrfName +:+ Frr.nl
           +:+ " " +:+ vniID +:+ Frr.nl +:+ " exit-vrf" +:+ Frr.nl
           +:+ " exit") false;
        match err with
        | Some e =>
            mret ("FRR: Error Executing frr config t " +:+ vrfName +:+ " "
                  +:+ vniID +:+ " exit-vrf exit " +:+ Frr.nl +:+ " Error: "
                  +:+ errMsg e +:+ " " +:+ Frr.nl, false)
        | None =>
        _ ← save;
        match Vrf.LoopbackIP (Vrf.Spec vrf) with
        | None => panic
        | Some _ =>
        let lbIP := "0.0.0.0" in
        '(_, err) ← bgpCmd
          ("configure terminal" +:+ Frr.nl +:+ " router bgp " +:+ Itoa localas
           +:+ " vrf " +:+ path_Base (Vrf.Name vrf) +:+ Frr.nl
           +:+ " bgp router-id " +:+ lbIP +:+ Frr.nl
           +:+ " no bgp ebgp-requires-policy" +:+ Frr.nl
           +:+ " no bgp hard-administrative-reset" +:+ Frr.nl
           +:+ " no bgp graceful-restart notification" +:+ Frr.nl
           +:+ " address-family ipv4 unicast" +:+ Frr.nl
           +:+ " redistribute connected" +:+ Frr.nl
           +:+ " redistribute static" +:+ Frr.nl
           +:+ " exit-address-family" +:+ Frr.nl
           +:+ " address-family l2vpn evpn" +:+ Frr.nl
           +:+ " advertise ipv4 unicast" +:+ Frr.nl
           +:+ " exit-address-family" +:+ Frr.nl +:+ " exit") false;
        match err with
        | Some e =>
            mret ("FRR: Error Executing config t bgpVrfName router bgp "
                  +:+ Itoa localas +:+ " vrf " +:+ Vrf.Name vrf
                  +:+ " bgp_route_id " +:+ lbIP
                  +:+ " no bgp ebgp-requires-policy exit-vrf exit Error "
                  +:+ errMsg e +:+ " " +:+ Frr.nl, false)
        | None =>
        _ ← save;
        let cmd := "show bgp l2vpn evpn vni " +:+ Itoa vni +:+ " json" in
        '(cp, _) ← bgpCmd cmd true;
        _ ← save;
        cp ← jsonPart cp;
        match Unmarshal_bgpl2Vpn cp with
        | inl _ =>
            mret ("FRR: Failed in unmarshal the command " +:+ cmd +:+ Frr.nl,
                  false)
        | inr bgpL2vpn =>
        let cmd := "show bgp vrf " +:+ path_Base (Vrf.Name vrf) +:+ " json" in
        '(cp, _) ← bgpCmd cmd true;
        _ ← save;
        cp ← jsonPart cp;
        match Unmarshal_bgpVrf cp with
        | inl _ =>
            mret ("FRR: unable to unmarshal " +:+ dq +:+ cmd +:+ dq
                  +:+ Frr.nl, false)
        | inr bgpVrf =>
            mret ("{ " +:+ dq +:+ "rd" +:+ dq +:+ ":" +:+ dq +:+ Rd bgpL2vpn
                  +:+ dq +:+ "," +:+ dq +:+ "rmac" +:+ dq +:+ ":" +:+ dq
                  +:+ Rmac bgpL2vpn +:+ dq +:+ "," +:+ dq +:+ "importRts"
                  +:+ dq +:+ ":[" +:+ dq +:+ fmtStrings (ImportRts bgpL2vpn)
                  +:+ dq +:+ "]," +:+ dq +:+ "exportRts" +:+ dq +:+ ":["
                  +:+ dq +:+ fmtStrings (ExportRts bgpL2vpn) +:+ dq +:+ "],"
                  +:+ dq +:+ "localAS" +:+ dq +:+ ":"
                  +:+ Itoa (LocalAS bgpVrf) +:+ " }", true)
        end end end end end
    end.

Definition setUpSvi (svi : Svi.Svi) : FrrM (string * bool) :=
  match GetLB (Svi.LogicalBridge (Svi.Spec svi)) with
  | inl err =>
      mret ("FRR: unable to find key " +:+ Svi.LogicalBridge (Svi.Spec svi)
            +:+ " and error is " +:+ errMsg err, false)
  | inr brObj =>
      let linkSvi :=
        path_Base (Svi.Vrf (Svi.Spec svi)) +:+ "-"
        +:+ Itoa (LogicalBridge.VlanID (LogicalBridge.Spec brObj)) in
      match Svi.EnableBgp (Svi.Spec svi), Svi.GatewayIPs (Svi.Spec svi) with
      | true, gw0 :: _ =>
          let gwIP := To4String (IP gw0) in
          let remoteAs := Itoa (Svi.RemoteAs (Svi.Spec svi)) in
          let bgpVrfName :=
            "router bgp " +:+ Itoa localas +:+ " vrf "
            +:+ path_Base (Svi.Vrf (Svi.Spec svi)) +:+ Frr.nl in
          let neighlink := "neighbor " +:+ linkSvi +:+ " peer-group"
                           +:+ Frr.nl in
          let neighlinkRe := "neighbor " +:+ linkSvi +:+ " remote-as "
                             +:+ remoteAs +:+ Frr.nl in
          let neighlinkGw := "neighbor " +:+ linkSvi +:+ " update-source "
                             +:+ gwIP +:+ Frr.nl in
          let neighlinkOv := "neighbor " +:+ linkSvi +:+ " as-override"
                             +:+ Frr.nl in
          let neighlinkSr := "neighbor " +:+ linkSvi
                             +:+ " soft-reconfiguration inbound" +:+ Frr.nl in
          let bgpListen := " bgp listen range " +:+ fmtIPNet gw0
                           +:+ " peer-group " +:+ linkSvi +:+ Frr.nl in
          '(_, err) ← bgpCmd
            ("configure terminal" +:+ Frr.nl +:+ " " +:+ bgpVrfName
             +:+ " bgp disable-ebgp-connected-route-check" +:+ Frr.nl +:+ " "
             +:+ neighlink +:+ " " +:+ neighlinkRe +:+ " " +:+ neighlinkGw
             +:+ " " +:+ neighlinkOv +:+ " " +:+ neighlinkSr +:+ " "
             +:+ bgpListen +:+ " exit") false;
          match err with
          | Some e =>
              mret ("FRR: Error in conf svi " +:+ Svi.Name svi +:+ " "
                    +:+ path_Base (Svi.Vrf (Svi.Spec svi)) +:+ " command "
                    +:+ errMsg e +:+ Frr.nl, false)
          | None =>
              _ ← save;
              mret ("", true)
          end
      | _, _ => mret ("", true)
      end
  end.

Definition tearDownSvi (svi : Svi.Svi) : FrrM (string * bool) :=
  match GetLB (Svi.LogicalBridge (Svi.Spec svi)) with
  | inl err =>
      mret ("LCI: unable to find key " +:+ Svi.LogicalBridge (Svi.Spec svi)
            +:+ " and error is " +:+ errMsg err, false)
  | inr brObj =>
      let linkSvi :=
        path_Base (Svi.Vrf (Svi.Spec svi)) +:+ "-"
        +:+ Itoa (LogicalBridge.VlanID (LogicalBridge.Spec brObj)) in
      match Svi.EnableBgp (Svi.Spec svi), Svi.GatewayIPs (Svi.Spec svi) with
      | true, _ :: _ =>
          let bgpVrfName :=
            "router bgp " +:+ Itoa localas +:+ " vrf "
            +:+ path_Base (Svi.Vrf (Svi.Spec svi)) in
          let noNeigh := "no neighbor " +:+ linkSvi +:+ " peer-group" in
          '(_, err) ← bgpCmd
            ("configure terminal" +:+ Frr.nl +:+ " " +:+ bgpVrfName +:+ Frr.nl
             +:+ " " +:+ noNeigh +:+ Frr.nl +:+ " exit") false;
          match err with
          | Some e =>
              mret ("FRR: Error in conf Delete vrf/VNI command "
                    +:+ errMsg e +:+ Frr.nl, false)
          | None =>
              _ ← save;
              mret ("", true)
          end
      | _, _ => mret ("", true)
      end
  end.

Definition tearDownVrf (vrf : Vrf.Vrf) : FrrM (string * bool) :=
  if bool_decide (path_Base (Vrf.Name vrf) = "GRD") then mret ("", true)
  else
    '(_, err) ← zebraCmd
      ("show vrf " +:+ path_Base (Vrf.Name vrf) +:+ " vni" +:+ Frr.nl) true;
    match err with
    | Some _ => mret ("", true)
    | None =>
        _ ← save;
        match Vrf.Vni (Vrf.Spec vrf) with
        | None => panic
        | Some vni =>
            if bool_decide (vni ≠ 0) then
              let delCmd1 := "no router bgp " +:+ Itoa localas +:+ " vrf "
                             +:+ path_Base (Vrf.Name vrf) in
              let delCmd2 := "no vrf " +:+ path_Base (Vrf.Name vrf) in
              '(_, err) ← bgpCmd
                ("configure terminal" +:+ Frr.nl +:+ " " +:+ delCmd1
                 +:+ Frr.nl +:+ " exit" +:+ Frr.nl) false;
              match err with
              | Some e => mret ("FRR: Error  " +:+ errMsg e +:+ Frr.nl, false)
              | None =>
                  _ ← save;
                  '(_, err) ← zebraCmd
                    ("configure terminal" +:+ Frr.nl +:+ " " +:+ delCmd2
                     +:+ Frr.nl +:+ " exit" +:+ Frr.nl) false;
                  match err with
                  | Some e =>
                      mret ("FRR: Error  " +:+ errMsg e +:+ Frr.nl, false)
                  | None =>
                      _ ← save;
                      mret ("", true)
                  end
              end
            else mret ("", true)
        end
    end.

End WithFrr.

End FrrWork.

(** A trace in which the configuration is saved after every command but,
    possibly, the last one, and at no other time. *)
Fixpoint savedAfterEach (calls : list FrrWork.FrrCall) : bool :=
  match calls with
  | [] => true
  | [FrrWork.ZebraCmd _ _] | [FrrWork.BgpCmd _ _] => true
  | FrrWork.ZebraCmd _ _ :: FrrWork.SaveCmd :: rest
  | FrrWork.BgpCmd _ _ :: FrrWork.SaveCmd :: rest => savedAfterEach rest
  | _ => false
  end.

Definition isBgpCmd (c : FrrWork.FrrCall) : bool :=
  match c with
  | FrrWork.BgpCmd _ _ => true
  | _ => false
  end.

(** What a status update carries: the kind of the object, the notification
    it answers (name, resource version, notification id), whether metadata
    come with it, and the component. *)
Definition statusUpdate (c : Frr.Call)
  : option (string * ObjectData * bool * Component) :=
  match c with
  | Frr.CallUpdateVrfStatus n v i meta comp =>
      Some ("vrf",
            {| ODName := n; ODResourceVersion := v; NotificationID := i |},
            bool_decide (is_Some meta), comp)
  | Frr.CallUpdateSviStatus n v i meta comp =>
      Some ("svi",
            {| ODName := n; ODResourceVersion := v; NotificationID := i |},
            bool_decide (is_Some meta), comp)
  | Frr.CallUpdateTunRepStatus n v i meta comp =>
      Some ("tun-rep",
            {| ODName := n; ODResourceVersion := v; NotificationID := i |},
            bool_decide (is_Some meta), comp)
  | _ => None
  end.

(** A VRF with another loopback address. *)
Definition withLoopbackIP (ip : option IPNet) (vrf : Vrf.Vrf) : Vrf.Vrf :=
  {| Vrf.Name := Vrf.Name vrf;
     Vrf.Spec :=
       {| Vrf.Vni := Vrf.Vni (Vrf.Spec vrf);
          Vrf.LoopbackIP := ip;
          Vrf.VtepIP := Vrf.VtepIP (Vrf.Spec vrf) |};
     Vrf.Status := Vrf.Status vrf;
     Vrf.ResourceVersion := Vrf.ResourceVersion vrf |}.

(** ** Security associations: [NewSa] and its converters *)

(** The protobuf messages of package ipsec. An enumeration is an [int32]
    with named constants: the constants the code names, and any other
    value. *)
Module PbSa.

Inductive IPSecProtocol :=
| IPSecProtocol_IPSecProtoRSVD
| IPSecProtocol_IPSecProtoESP
| IPSecProtocol_IPSecProtoAH
| IPSecProtocol_other (n : Z).

Inductive IPSecMode :=
| IPSecMode_MODE_NONE
| IPSecMode_MODE_TRANSPORT
| IPSecMode_MODE_TUNNEL
| IPSecMode_MODE_BEET
| IPSecMode_MODE_PASS
| IPSecMode_MODE_DROP
| IPSecMode_other (n : Z).

Inductive CryptoAlgorithm :=
| CryptoAlgorithm_ENCR_RSVD
| CryptoAlgorithm_ENCR_NULL
| CryptoAlgorithm_ENCR_AES_CBC
| CryptoAlgorithm_ENCR_AES_CTR
| CryptoAlgorithm_ENCR_AES_CCM_8
| CryptoAlgorithm_ENCR_AES_CCM_12
| CryptoAlgorithm_ENCR_AES_CCM_16
| CryptoAlgorithm_ENCR_AES_GCM_8
| CryptoAlgorithm_ENCR_AES_GCM_12
| CryptoAlgorithm_ENCR_AES_GCM_16
| CryptoAlgorithm_ENCR_NULL_AUTH_AES_GMAC
| CryptoAlgorithm_ENCR_CHACHA20_POLY1305
| CryptoAlgorithm_other (n : Z).

Inductive IntegAlgorithm :=
| IntegAlgorithm_NONE
| IntegAlgorithm_AUTH_HMAC_SHA1_96
| IntegAlgorithm_AUTH_AES_XCBC_96
| IntegAlgorithm_AUTH_AES_CMAC_96
| IntegAlgorithm_AUTH_AES_128_GMAC
| IntegAlgorithm_AUTH_AES_192_GMAC
| IntegAlgorithm_AUTH_AES_256_GMAC
| IntegAlgorithm_AUTH_HMAC_SHA2_256_128
| IntegAlgorithm_AUTH_HMAC_SHA2_384_192
| IntegAlgorithm_AUTH_HMAC_SHA2_512_256
| IntegAlgorithm_AUTH_UNDEFINED
| IntegAlgorithm_other (n : Z).

Inductive DSCPCopy :=
| DSCPCopy_DSCP_COPY_OUT_ONLY
| DSCPCopy_DSCP_COPY_IN_ONLY
| DSCPCopy_DSCP_COPY_YES
| DSCPCopy_DSCP_COPY_NO
| DSCPCopy_other (n : Z).

Inductive Bool :=
| Bool_TRUE
| Bool_FALSE
| Bool_other (n : Z).

Record LifeTime := mkLifeTime {
  Life : Z;
  Rekey : Z;
  Jitter : Z;
}.

Record LifeTimeCfg := mkLifeTimeCfg {
  Time : option LifeTime;
  Bytes : option LifeTime;
  Packets : option LifeTime;
}.

Record SAIdentifier := mkSAIdentifier {
  Src : string;
  Dst : string;
  Spi : Z;
  Proto : IPSecProtocol;
  IfId : Z;
}.

Record AddSAReqData := mkAddSAReqData {
  Mode : IPSecMode;
  Interface : string;
  Lifetime : LifeTimeCfg;
  EncAlg : CryptoAlgorithm;
  EncKey : list Z;
  IntAlg : IntegAlgorithm;
  IntKey : list Z;
  ReplayWindow : Z;
  Encap : Bool;
  Esn : Bool;
  CopyDf : Bool;
  CopyEcn : Bool;
  CopyDscp : DSCPCopy;
  Inbound : Bool;
}.

Record AddSAReq := mkAddSAReq {
  SaId : SAIdentifier;
  SaData : AddSAReqData;
}.

End PbSa.

(** The constants of the named [int] types, by [iota]. *)
Module Protocol.
Definition IPSecProtoRSVD : Z := 0.
Definition IPSecProtoESP : Z := 1.
Definition IPSecProtoAH : Z := 2.
End Protocol.

Module Mode.
Definition None : Z := 0.
Definition Transport : Z := 1.
Definition Tunnel : Z := 2.
Definition Beet : Z := 3.
Definition Pass : Z := 4.
Definition Drop : Z := 5.
End Mode.

Module CryptoAlg.
Definition RSVD : Z := 0.
Definition NULL : Z := 1.
Definition AES_CBC : Z := 2.
Definition AES_CTR : Z := 3.
Definition AES_CCM_8 : Z := 4.
Definition AES_CCM_12 : Z := 5.
Definition AES_CCM_16 : Z := 6.
Definition AES_GCM_8 : Z := 7.
Definition AES_GCM_12 : Z := 8.
Definition AES_GCM_16 : Z := 9.
Definition NULL_AUTH_AES_GMAC : Z := 10.
Definition CHACHA20_POLY1305 : Z := 11.
End CryptoAlg.

Module IntegAlg.
Definition NONE : Z := 0.
Definition HMAC_SHA1_96 : Z := 1.
Definition AES_XCBC_96 : Z := 2.
Definition AES_CMAC_96 : Z := 3.
Definition AES_128_GMAC : Z := 4.
Definition AES_192_GMAC : Z := 5.
Definition AES_256_GMAC : Z := 6.
Definition HMAC_SHA2_256_128 : Z := 7.
Definition HMAC_SHA2_384_192 : Z := 8.
Definition HMAC_SHA2_512_256 : Z := 9.
Definition UNDEFINED : Z := 10.
End IntegAlg.

Module DscpCopy.
Definition OUT_ONLY : Z := 0.
Definition IN_ONLY : Z := 1.
Definition YES : Z := 2.
Definition NO : Z := 3.
End DscpCopy.

Section SaConstructor.

(** The verb %+v on a value of an enumeration (its [String] method), one
    oracle per type; [net.ParseIP], nil for a text that is no address. *)
Variable fmtProtocol : PbSa.IPSecProtocol → string.
Variable fmtMode : PbSa.IPSecMode → string.
Variable fmtCryptoAlgorithm : PbSa.CryptoAlgorithm → string.
Variable fmtIntegAlgorithm : PbSa.IntegAlgorithm → string.
Variable fmtDSCPCopy : PbSa.DSCPCopy → string.
Variable fmtBool : PbSa.Bool → string.
Variable net_ParseIP : string → option (list Z).

Definition convertPbToProtocol (p : PbSa.IPSecProtocol) : Z * option error :=
  match p with
  | PbSa.IPSecProtocol_IPSecProtoRSVD => (Protocol.IPSecProtoRSVD, None)
  | PbSa.IPSecProtocol_IPSecProtoESP => (Protocol.IPSecProtoESP, None)
  | PbSa.IPSecProtocol_IPSecProtoAH => (Protocol.IPSecProtoAH, None)
  | _ =>
      (-1, Some (errors_New ("convertPbToProtocol(): Unknown protocol "
                             +:+ fmtProtocol p)))
  end.

Definition convertPbToMode (m : PbSa.IPSecMode) : Z * option error :=
  match m with
  | PbSa.IPSecMode_MODE_NONE => (Mode.None, None)
  | PbSa.IPSecMode_MODE_TRANSPORT => (Mode.Transport, None)
  | PbSa.IPSecMode_MODE_TUNNEL => (Mode.Tunnel, None)
  | PbSa.IPSecMode_MODE_BEET => (Mode.Beet, None)
  | PbSa.IPSecMode_MODE_PASS => (Mode.Pass, None)
  | PbSa.IPSecMode_MODE_DROP => (Mode.Drop, None)
  | _ =>
      (-1, Some (errors_New ("convertPbToMode(): Unknown ipsec mode "
                             +:+ fmtMode m)))
  end.

Definition convertPbToCryptoAlg (c : PbSa.CryptoAlgorithm)
  : Z * option error :=
  match c with
  | PbSa.CryptoAlgorithm_ENCR_RSVD => (CryptoAlg.RSVD, None)
  | PbSa.CryptoAlgorithm_ENCR_NULL => (CryptoAlg.NULL, None)
  | PbSa.CryptoAlgorithm_ENCR_AES_CBC => (CryptoAlg.AES_CBC, None)
  | PbSa.CryptoAlgorithm_ENCR_AES_CTR => (CryptoAlg.AES_CTR, None)
  | PbSa.CryptoAlgorithm_ENCR_AES_CCM_8 => (CryptoAlg.AES_CCM_8, None)
  | PbSa.CryptoAlgorithm_ENCR_AES_CCM_12 => (CryptoAlg.AES_CCM_12, None)
  | PbSa.CryptoAlgorithm_ENCR_AES_CCM_16 => (CryptoAlg.AES_CCM_16, None)
  | PbSa.CryptoAlgorithm_ENCR_AES_GCM_8 => (CryptoAlg.AES_GCM_8, None)
  | PbSa.CryptoAlgorithm_ENCR_AES_GCM_12 => (CryptoAlg.AES_GCM_12, None)
  | PbSa.CryptoAlgorithm_ENCR_AES_GCM_16 => (CryptoAlg.AES_GCM_16, None)
  | PbSa.CryptoAlgorithm_ENCR_NULL_AUTH_AES_GMAC =>
      (CryptoAlg.NULL_AUTH_AES_GMAC, None)
  | PbSa.CryptoAlgorithm_ENCR_CHACHA20_POLY1305 =>
      (CryptoAlg.CHACHA20_POLY1305, None)
  | _ =>
      (-1, Some (errors_New
                   ("convertPbToCryptoAlg(): Unknown ipsec crypto algorithm "
                    +:+ fmtCryptoAlgorithm c)))
  end.

(** The first case converts the constant [None] of type [Mode], not [NONE]
    of type [IntegAlg]: an untyped conversion of the same number. *)
Definition convertPbToIntegAlg (c : PbSa.IntegAlgorithm) : Z * option error :=
  match c with
  | PbSa.IntegAlgorithm_NONE => (Mode.None, None)
  | PbSa.IntegAlgorithm_AUTH_HMAC_SHA1_96 => (IntegAlg.HMAC_SHA1_96, None)
  | PbSa.IntegAlgorithm_AUTH_AES_XCBC_96 => (IntegAlg.AES_XCBC_96, None)
  | PbSa.IntegAlgorithm_AUTH_AES_CMAC_96 => (IntegAlg.AES_CMAC_96, None)
  | PbSa.IntegAlgorithm_AUTH_AES_128_GMAC => (IntegAlg.AES_128_GMAC, None)
  | PbSa.IntegAlgorithm_AUTH_AES_192_GMAC => (IntegAlg.AES_192_GMAC, None)
  | PbSa.IntegAlgorithm_AUTH_AES_256_GMAC => (IntegAlg.AES_256_GMAC, None)
  | PbSa.IntegAlgorithm_AUTH_HMAC_SHA2_256_128 =>
      (IntegAlg.HMAC_SHA2_256_128, None)
  | PbSa.IntegAlgorithm_AUTH_HMAC_SHA2_384_192 =>
      (IntegAlg.HMAC_SHA2_384_192, None)
  | PbSa.IntegAlgorithm_AUTH_HMAC_SHA2_512_256 =>
      (IntegAlg.HMAC_SHA2_512_256, None)
  | PbSa.IntegAlgorithm_AUTH_UNDEFINED => (IntegAlg.UNDEFINED, None)
  | _ =>
      (-1, Some (errors_New
                   ("convertPbToIntegAlg(): Unknown ipsec authentication "
                    +:+ "algorithm " +:+ fmtIntegAlgorithm c)))
  end.

Definition convertPbToDscpCopy (d : PbSa.DSCPCopy) : Z * option error :=
  match d with
  | PbSa.DSCPCopy_DSCP_COPY_OUT_ONLY => (DscpCopy.OUT_ONLY, None)
  | PbSa.DSCPCopy_DSCP_COPY_IN_ONLY => (DscpCopy.IN_ONLY, None)
  | PbSa.DSCPCopy_DSCP_COPY_YES => (DscpCopy.YES, None)
  | PbSa.DSCPCopy_DSCP_COPY_NO => (DscpCopy.NO, None)
  | _ =>
      (-1, Some (errors_New ("convertPbToDscpCopy(): Unknown ipsec DscpCopy "
                             +:+ fmtDSCPCopy d)))
  end.

Definition convertPbToBoolean (b : PbSa.Bool) : bool * option error :=
  match b with
  | PbSa.Bool_TRUE => (true, None)
  | PbSa.Bool_FALSE => (false, None)
  | _ =>
      (false,
       Some (errors_New ("convertPbToBoolean(): Unknown boolean value "
                         +:+ fmtBool b)))
  end.

Definition NewLifetime (lt : option PbSa.LifeTime) : option Sa.Lifetime :=
  match lt with
  | None => None
  | Some lt =>
      Some {| Sa.Life := PbSa.Life lt; Sa.Rekey := PbSa.Rekey lt;
              Sa.Jitter := PbSa.Jitter lt |}
  end.

Definition NewLifetimeCfg (time bytes packets : option Sa.Lifetime)
  : option Sa.LifetimeCfg :=
  match time, bytes, packets with
  | None, None, None => None
  | _, _, _ =>
      Some {| Sa.LtTime := time; Sa.LtBytes := bytes;
              Sa.LtPackets := packets |}
  end.

(** [NewSa]; on an error the object is nil. *)
Definition NewSa (EBus : EventBus) (newVersion : string) (name : string)
  (sa : PbSa.AddSAReq) : option Sa.Sa * option error :=
  match net_ParseIP (PbSa.Src (PbSa.SaId sa)) with
  | None =>
      (None, Some (errors_New ("NewSa(): Incorrect src IP format "
                               +:+ PbSa.Src (PbSa.SaId sa))))
  | Some srcIP =>
  match net_ParseIP (PbSa.Dst (PbSa.SaId sa)) with
  | None =>
      (None, Some (errors_New ("NewSa(): Incorrect dst IP format "
                               +:+ PbSa.Dst (PbSa.SaId sa))))
  | Some dstIP =>
  match convertPbToProtocol (PbSa.Proto (PbSa.SaId sa)) with
  | (_, Some err) => (None, Some err)
  | (proto, None) =>
  match convertPbToMode (PbSa.Mode (PbSa.SaData sa)) with
  | (_, Some err) => (None, Some err)
  | (mode, None) =>
  let LTtime := NewLifetime (PbSa.Time (PbSa.Lifetime (PbSa.SaData sa))) in
  let LTbytes := NewLifetime (PbSa.Bytes (PbSa.Lifetime (PbSa.SaData sa))) in
  let LTpackets :=
    NewLifetime (PbSa.Packets (PbSa.Lifetime (PbSa.SaData sa))) in
  let lifetimeCfg := NewLifetimeCfg LTtime LTbytes LTpackets in
  match convertPbToCryptoAlg (PbSa.EncAlg (PbSa.SaData sa)) with
  | (_, Some err) => (None, Some err)
  | (encAlg, None) =>
  match convertPbToIntegAlg (PbSa.IntAlg (PbSa.SaData sa)) with
  | (_, Some err) => (None, Some err)
  | (intAlg, None) =>
  match convertPbToBoolean (PbSa.Encap (PbSa.SaData sa)) with
  | (_, Some err) => (None, Some err)
  | (udpEncap, None) =>
  match convertPbToBoolean (PbSa.Esn (PbSa.SaData sa)) with
  | (_, Some err) => (None, Some err)
  | (esn, None) =>
  match convertPbToBoolean (PbSa.CopyDf (PbSa.SaData sa)) with
  | (_, Some err) => (None, Some err)
  | (copyDf, None) =>
  match convertPbToBoolean (PbSa.CopyEcn (PbSa.SaData sa)) with
  | (_, Some err) => (None, Some err)
  | (copyEcn, None) =>
  match convertPbToDscpCopy (PbSa.CopyDscp (PbSa.SaData sa)) with
  | (_, Some err) => (None, Some err)
  | (copyDscp, None) =>
  match convertPbToBoolean (PbSa.Inbound (PbSa.SaData sa)) with
  | (_, Some err) => (None, Some err)
  | (inbound, None) =>
  let subscribers := GetSubscribers EBus "sa" in
  if bool_decide (length subscribers = 0%nat) then
    (None, Some (errors_New "no subscribers found for SAs"))
  else
    let components :=
      map (λ sub, {| Common.Name := SubName sub;
                     CompStatus := ComponentStatusPending;
                     Details := ""; Timer := 0 |}) subscribers in
    (Some {| Sa.Name := name;
             Sa.Spec :=
               {| Sa.SrcIP := srcIP;
                  Sa.DstIP := dstIP;
                  Sa.Spi := PbSa.Spi (PbSa.SaId sa);
                  Sa.Protocol := proto;
                  Sa.IfId := PbSa.IfId (PbSa.SaId sa);
                  Sa.Mode := mode;
                  Sa.Interface := PbSa.Interface (PbSa.SaData sa);
                  Sa.LifetimeCfg_ := lifetimeCfg;
                  Sa.EncAlg := encAlg;
                  Sa.EncKey := PbSa.EncKey (PbSa.SaData sa);
                  Sa.IntAlg := intAlg;
                  Sa.IntKey := PbSa.IntKey (PbSa.SaData sa);
                  Sa.ReplayWindow := PbSa.ReplayWindow (PbSa.SaData sa);
                  Sa.UdpEncap := udpEncap;
                  Sa.Esn := esn;
                  Sa.CopyDf := copyDf;
                  Sa.CopyEcn := copyEcn;
                  Sa.CopyDscp := copyDscp;
                  Sa.Inbound := inbound;
                  Sa.SpecVrf := "" |};
             Sa.Status := {| Sa.SaOperStatus := Sa.SaOperStatusDown;
                             Sa.Components := components |};
             Sa.Metadata := Sa.mkSaMetadata;
             Sa.Vrf := "";
             Sa.Index := 0;
             Sa.OldVersions := [];
             Sa.ResourceVersion := newVersion |}, None)
  end end end end end end end end end end end end.

End SaConstructor.

(** The values of an enumeration the converters know. *)
Definition knownRequest (sa : PbSa.AddSAReq) : bool :=
  match PbSa.Proto (PbSa.SaId sa) with
  | PbSa.IPSecProtocol_other _ => false | _ => true end
  && match PbSa.Mode (PbSa.SaData sa) with
     | PbSa.IPSecMode_other _ => false | _ => true end
  && match PbSa.EncAlg (PbSa.SaData sa) with
     | PbSa.CryptoAlgorithm_other _ => false | _ => true end
  && match PbSa.IntAlg (PbSa.SaData sa) with
     | PbSa.IntegAlgorithm_other _ => false | _ => true end
  && match PbSa.CopyDscp (PbSa.SaData sa) with
     | PbSa.DSCPCopy_other _ => false | _ => true end
  && forallb (λ b, match b with PbSa.Bool_other _ => false | _ => true end)
       [PbSa.Encap (PbSa.SaData sa); PbSa.Esn (PbSa.SaData sa);
        PbSa.CopyDf (PbSa.SaData sa); PbSa.CopyEcn (PbSa.SaData sa);
        PbSa.Inbound (PbSa.SaData sa)].

(** ** Package main: [validateConfigs] *)

Section Main.

(** The configuration [viper] holds, and the library functions that parse:
    oracles. *)
Variable viper_GetInt : string → Z.
Variable viper_GetString : string → string.
Variable net_SplitHostPort : string → (string * string) * option error.
Variable strconv_Atoi : string → Z * option error.
Variable net_ParseIP : string → option (list Z).

Definition validateConfigs : option error :=
  let grpcPort := viper_GetInt "grpcport" in
  if bool_decide (grpcPort ≤ 0 ∨ grpcPort > 65535) then
    Some (errors_New
            "grpcPort must be a positive integer between 1 and 65535")
  else
    let httpPort := viper_GetInt "httpport" in
    if bool_decide (httpPort ≤ 0 ∨ httpPort > 65535) then
      Some (errors_New
              "httpPort must be a positive integer between 1 and 65535")
    else
      let dbAddr := viper_GetString "dbaddress" in
      match net_SplitHostPort dbAddr with
      | (_, Some _) =>
          Some (errors_New
                  ("invalid DBAddress format. "
                   +:+ "It should be in ip_address:port format"))
      | ((_, port), None) =>
          let '(dbPort, err) := strconv_Atoi port in
          if bool_decide (err ≠ None ∨ dbPort ≤ 0 ∨ dbPort > 65535) then
            Some (errors_New
                    ("invalid db port. "
                     +:+ "It must be a positive integer between 1 and 65535"))
          else
            let frrAddr := viper_GetString "frraddress" in
            match net_ParseIP frrAddr with
            | None =>
                Some (errors_New
                        ("invalid FRRAddress format. "
                         +:+ "It should be a valid IP address"))
            | Some _ => None
            end
      end.

End Main.

(** ** Sample values, continued *)

Module ReplaySample.

(** [Sample.sviUp] once prepared for a replay asked by lgm. *)
Definition sviReplayed : Svi.Svi :=
  {| Svi.Name := "//network.opiproject.org/svis/svi1";
     Svi.Spec := Svi.Spec Sample.sviUp;
     Svi.Status :=
       {| Svi.SviOperStatus := OperStatusDown;
          Svi.Components :=
            [ {| Name := "lvm"; CompStatus := ComponentStatusSuccess;
                 Details := ""; Timer := 0 |};
              pendingComponent "frr"; pendingComponent "lgm" ] |};
     Svi.Metadata := Svi.mkSviMetadata;
     Svi.ResourceVersion := "v2" |}.

(** The frr component in Success. *)
Definition frrOk : Component :=
  {| Name := "frr"; CompStatus := ComponentStatusSuccess; Details := "";
     Timer := 0 |}.

End ReplaySample.

Module PbSample.

(** A converter for the samples: the address read back big-endian, the
    length from the netmask. *)
Definition ConvertToIPPrefix (n : IPNet) : Pb.IPPrefix :=
  {| Pb.Addr := Some {| Pb.Af := 1;
                        Pb.Addr46 := Some (Pb.V4Addr (Uint32 (IP n))) |};
     Pb.Len := 32 - Z.log2 (2 ^ 32 - Uint32 (Mask n)) |}.

End PbSample.

Module VrfReadSample.

(** Validators that accept every request, and a store that forgets the row
    of a name. *)
Definition acceptGet (_ : string) : option error := None.
Definition acceptDelete (_ : string) (_ : bool) : option error := None.

Definition deleteVrf (db : VrfWorld.InfraDB) (name : string)
  : option error * VrfWorld.InfraDB :=
  (None, {| VrfWorld.vrfs := delete name (VrfWorld.vrfs db);
            VrfWorld.tasks := VrfWorld.tasks db ++ [name] |}).

(** An update of "blue" that may create it. *)
Definition upsertBlue : PbVrf.UpdateVrfRequest :=
  {| PbVrf.UVrf := VrfSample.storedBlue;
     PbVrf.UpdateMask := ["spec.vni"];
     PbVrf.AllowMissing := true |}.

End VrfReadSample.

Module SaSample.

Definition fmtOther {A : Type} (_ : A) : string := "?".

(** A parser for the samples: an IPv4 address in either of two texts, as
    its sixteen bytes. *)
Definition v4 (d : Z) : list Z :=
  [0; 0; 0; 0; 0; 0; 0; 0; 0; 0; 255; 255; 10; 0; 0; d].

Definition ParseIP (s : string) : option (list Z) :=
  if bool_decide (s = "10.0.0.1") then Some (v4 1)
  else if bool_decide (s = "::ffff:10.0.0.1") then Some (v4 1)
  else if bool_decide (s = "10.0.0.2") then Some (v4 2)
  else None.

Definition bus : EventBus := <["sa" := [Sample.lvm]]> ∅.

Definition request : PbSa.AddSAReq :=
  {| PbSa.SaId :=
       {| PbSa.Src := "10.0.0.1"; PbSa.Dst := "10.0.0.2"; PbSa.Spi := 256;
          PbSa.Proto := PbSa.IPSecProtocol_IPSecProtoESP; PbSa.IfId := 0 |};
     PbSa.SaData :=
       {| PbSa.Mode := PbSa.IPSecMode_MODE_TUNNEL;
          PbSa.Interface := "eth0";
          PbSa.Lifetime := {| PbSa.Time := None; PbSa.Bytes := None;
                              PbSa.Packets := None |};
          PbSa.EncAlg := PbSa.CryptoAlgorithm_ENCR_AES_GCM_16;
          PbSa.EncKey := [1; 2; 3; 4];
          PbSa.IntAlg := PbSa.IntegAlgorithm_NONE;
          PbSa.IntKey := [];
          PbSa.ReplayWindow := 32;
          PbSa.Encap := PbSa.Bool_FALSE;
          PbSa.Esn := PbSa.Bool_TRUE;
          PbSa.CopyDf := PbSa.Bool_FALSE;
          PbSa.CopyEcn := PbSa.Bool_FALSE;
          PbSa.CopyDscp := PbSa.DSCPCopy_DSCP_COPY_NO;
          PbSa.Inbound := PbSa.Bool_TRUE |} |}.

(** The same request with the source address in its other text. *)
Definition request' : PbSa.AddSAReq :=
  {| PbSa.SaId :=
       {| PbSa.Src := "::ffff:10.0.0.1"; PbSa.Dst := "10.0.0.2";
          PbSa.Spi := 256;
          PbSa.Proto := PbSa.IPSecProtocol_IPSecProtoESP; PbSa.IfId := 0 |};
     PbSa.SaData := PbSa.SaData request |}.

Definition NewSa :=
  NewSa fmtOther fmtOther fmtOther fmtOther fmtOther fmtOther ParseIP bus.

End SaSample.

(** * Properties *)

(** ** The component loops *)

Lemma setComponentStateLoop_length (c : Component) (comps : list Component) :
  length (setComponentStateLoop c comps) = length comps.
Proof.
  induction comps as [|comp rest IH]; simpl; [done|].
  case_decide; simpl; congruence.
Qed.

(** The loop either finds no component of that name and changes nothing, or
    overwrites the first one. *)
Lemma setComponentStateLoop_spec (c : Component) (comps : list Component) :
  ((∀ comp, comp ∈ comps → Name comp ≠ Name c)
   ∧ setComponentStateLoop c comps = comps)
  ∨ (∃ (i : nat) (old : Component),
       comps !! i = Some old ∧ Name old = Name c
       ∧ (∀ (j : nat) comp, (j < i)%nat → comps !! j = Some comp →
            Name comp ≠ Name c)
       ∧ setComponentStateLoop c comps = <[i := c]> comps).
Proof.
  induction comps as [|comp rest IH]; simpl.
  - left. split; [|done]. intros comp H. by apply elem_of_nil in H.
  - case_decide as Hn.
    + right. exists 0%nat, comp. repeat split; try done. intros j ? Hj. lia.
    + destruct IH as [[Hall Heq]|(i & old & Hi & Hold & Hbefore & Heq)].
      * left. split; [|by rewrite Heq].
        intros comp' [->|Hin]%elem_of_cons; auto.
      * right. exists (S i), old. repeat split; try done.
        -- intros [|j] comp' Hj Hl; simpl in Hl.
           ++ by simplify_eq.
           ++ apply (Hbefore j); [lia|done].
        -- by rewrite Heq.
Qed.

Lemma replayLoop_gen (c : string) (subs : list Subscriber)
  (l pre : list Component) (out : list Subscriber) :
  (length (pre ++ l) ≤ length subs)%nat →
  foldl (replayStep c subs) (Some (map (replayed c) pre ++ l, out))
        (imap (λ i comp, ((length pre + i)%nat, comp)) l)
  = Some (map (replayed c) (pre ++ l),
          out ++ (filter (λ p, needsReplay c p.1)
                    (zip l (drop (length pre) subs))).*2).
Proof.
  revert pre out. induction l as [|x l IH]; intros pre out Hlen.
  - simpl. by rewrite !app_nil_r.
  - rewrite imap_cons. cbn [foldl].
    assert (Hsub : is_Some (subs !! length pre)).
    { apply lookup_lt_is_Some. rewrite length_app in Hlen. simpl in Hlen. lia. }
    destruct Hsub as [sub Hsub].
    rewrite (drop_S _ _ _ Hsub). cbn [zip zip_with].
    rewrite filter_cons. cbn [fst].
    assert (Hext : imap ((λ (i : nat) (comp : Component),
                           ((length pre + i)%nat, comp)) ∘ S) l
                   = imap (λ (i : nat) (comp : Component),
                           ((length (pre ++ [x]) + i)%nat, comp)) l).
    { apply imap_ext. intros i y _. simpl. rewrite length_app. simpl.
      f_equal. lia. }
    rewrite Hext. clear Hext.
    assert (Hins : <[length pre := pendingComponent (Name x)]>
                     (map (replayed c) pre ++ x :: l)
                   = map (replayed c) pre ++ pendingComponent (Name x) :: l).
    { replace (length pre) with (length (map (replayed c) pre) + 0)%nat
        by (rewrite length_map; lia).
      by rewrite insert_app_r. }
    unfold replayStep at 2. cbn [fst snd]. rewrite Nat.add_0_r.
    destruct (needsReplay c x) eqn:Hx.
    + rewrite Hsub, Hins.
      rewrite decide_True by done.
      specialize (IH (pre ++ [x]) (out ++ [sub])).
      rewrite map_app in IH. simpl in IH. unfold replayed at 2 in IH.
      rewrite Hx in IH. rewrite <- !app_assoc in IH. simpl in IH.
      rewrite IH.
      * rewrite length_app. simpl. rewrite Nat.add_1_r.
        done.
      * rewrite !length_app in *. simpl in *. lia.
    + rewrite decide_False by (intros H; exact H).
      specialize (IH (pre ++ [x]) out).
      rewrite map_app in IH. simpl in IH. unfold replayed at 2 in IH.
      rewrite Hx in IH. rewrite <- !app_assoc in IH. simpl in IH.
      rewrite IH.
      * rewrite length_app. simpl. rewrite Nat.add_1_r. done.
      * rewrite !length_app in *. simpl in *. lia.
Qed.

Lemma replayLoop_spec (c : string) (subs : list Subscriber)
  (comps : list Component) :
  (length comps ≤ length subs)%nat →
  replayLoop c subs comps
  = Some (map (replayed c) comps,
          (filter (λ p, needsReplay c p.1) (zip comps subs)).*2).
Proof.
  intros Hlen. unfold replayLoop.
  pose proof (replayLoop_gen c subs comps [] [] Hlen) as H.
  simpl in H. exact H.
Qed.

Lemma needsReplay_true (c : string) (comp : Component) :
  needsReplay c comp = true
  ↔ Name comp = c ∨ CompStatus comp ≠ ComponentStatusSuccess.
Proof.
  unfold needsReplay. rewrite orb_true_iff, !bool_decide_eq_true. done.
Qed.

Lemma replayed_eq (c : string) (comp : Component) :
  replayed c comp
  = if bool_decide (Name comp = c ∨ CompStatus comp ≠ ComponentStatusSuccess)
    then {| Name := Name comp; CompStatus := ComponentStatusPending;
            Details := ""; Timer := 0 |}
    else comp.
Proof.
  unfold replayed. destruct (needsReplay c comp) eqn:H.
  - apply needsReplay_true in H. by rewrite bool_decide_eq_true_2.
  - rewrite bool_decide_eq_false_2; [done|].
    intros H'. apply needsReplay_true in H'. congruence.
Qed.

Lemma replay_filter_eq (c : string) (l : list (Component * Subscriber)) :
  filter (λ p, needsReplay c p.1) l
  = filter (λ p, Name p.1 = c ∨ CompStatus p.1 ≠ ComponentStatusSuccess) l.
Proof.
  apply list_filter_iff. intros p. rewrite <- needsReplay_true.
  by destruct (needsReplay c p.1).
Qed.

(** ** The interface methods *)

Example setComponentState_frr :
  Svi.Components
    (Svi.Status (Svi.setComponentState (FrrSample.failed 8) Sample.sviUp))
  = [ {| Name := "lvm"; CompStatus := ComponentStatusSuccess;
         Details := ""; Timer := 0 |};
      FrrSample.failed 8;
      {| Name := "lgm"; CompStatus := ComponentStatusSuccess;
         Details := ""; Timer := 0 |} ].
Proof. reflexivity. Qed.

Example setComponentState_unknown :
  Svi.setComponentState (pendingComponent "p4") Sample.sviUp = Sample.sviUp.
Proof. reflexivity. Qed.

Example prepareObjectsForReplay_lgm :
  prepareObjectsForReplay "lgm" [Sample.lvm; Sample.frr; Sample.lgm] "v2"
    (OfSvi Sample.sviUp)
  = Some (objWith
            [ {| Name := "lvm"; CompStatus := ComponentStatusSuccess;
                 Details := ""; Timer := 0 |};
              pendingComponent "frr"; pendingComponent "lgm" ]
            OperStatusDown "v2" (OfSvi Sample.sviUp),
          [Sample.frr; Sample.lgm]).
Proof. reflexivity. Qed.

(** A subscriber list shorter than the index of a component to reset: the
    index expression panics. *)
Example prepareObjectsForReplay_short :
  prepareObjectsForReplay "lvm" [Sample.lvm] "v2" (OfSvi Sample.sviUp) = None.
Proof. reflexivity. Qed.

(** C10. For every domain object and every component value [c],
    [setComponentState] changes nothing but the component list, keeps its
    length, and either finds no component named [c.Name] and leaves the whole
    object as it was, or overwrites the first such entry with [c] and leaves
    every other entry in place. *)
Theorem setComponentState_frame (o : EvpnObject) (c : Component) :
  let o' := setComponentState c o in
  o' = objWith (objComponents o') (objOperStatus o) (objResourceVersion o) o
  ∧ objName o' = objName o
  ∧ objOperStatus o' = objOperStatus o
  ∧ objResourceVersion o' = objResourceVersion o
  ∧ length (objComponents o') = length (objComponents o)
  ∧ (((∀ comp, comp ∈ objComponents o → Name comp ≠ Name c) ∧ o' = o)
     ∨ (∃ (i : nat) (old : Component),
          objComponents o !! i = Some old
          ∧ Name old = Name c
          ∧ (∀ (j : nat) comp, (j < i)%nat →
               objComponents o !! j = Some comp → Name comp ≠ Name c)
          ∧ objComponents o' !! i = Some c
          ∧ (∀ j : nat, j ≠ i →
               objComponents o' !! j = objComponents o !! j))).
Proof.
  pose proof (setComponentStateLoop_spec c (objComponents o)) as Hspec.
  pose proof (setComponentStateLoop_length c (objComponents o)) as Hlen.
  destruct o as [o|o|o|o]; cbn in *;
    (split; [done|]); (split; [done|]); (split; [done|]);
    (split; [done|]); (split; [done|]);
    (destruct Hspec as [[Hall Heq]|(i & old & Hi & Hold & Hbefore & Heq)];
     [left; split; [done|]; f_equal;
      autounfold with kinds;
      rewrite Heq; by destruct o as [? ? [] ?]
     |right; exists i, old; rewrite Heq; repeat split; try done;
      [apply list_lookup_insert_eq; by eapply lookup_lt_Some
      |intros j Hj; by apply list_lookup_insert_ne]]).
Qed.

(** C3. For every domain object, every component name [c] and every
    subscriber list aligned with the object's components,
    [prepareObjectsForReplay] returns; it resets to Pending, with empty
    details, exactly the components named [c] or not in Success and leaves
    the others as they were; it turns the operational status Up into Down
    and leaves any other status; it stores the version [generateVersion()]
    returned; it returns the subscribers at the indices of the reset
    components, in order; and it changes no other field. *)
Theorem prepareObjectsForReplay_spec (o : EvpnObject) (c : string)
  (subs : list Subscriber) (newVersion : string) :
  length subs = length (objComponents o) →
  ∃ (o' : EvpnObject) (out : list Subscriber),
    prepareObjectsForReplay c subs newVersion o = Some (o', out)
    ∧ length (objComponents o') = length (objComponents o)
    ∧ (∀ (i : nat) (comp : Component),
         objComponents o !! i = Some comp →
         objComponents o' !! i
         = Some (if bool_decide (Name comp = c
                                 ∨ CompStatus comp ≠ ComponentStatusSuccess)
                 then {| Name := Name comp;
                         CompStatus := ComponentStatusPending;
                         Details := ""; Timer := 0 |}
                 else comp))
    ∧ objOperStatus o'
      = (if bool_decide (objOperStatus o = OperStatusUp)
         then OperStatusDown else objOperStatus o)
    ∧ objResourceVersion o' = newVersion
    ∧ out = (filter (λ p, Name p.1 = c
                          ∨ CompStatus p.1 ≠ ComponentStatusSuccess)
               (zip (objComponents o) subs)).*2
    ∧ o' = objWith (objComponents o') (objOperStatus o') newVersion o.
Proof.
  intros Hlen.
  assert (Hle : (length (objComponents o) ≤ length subs)%nat) by lia.
  pose proof (replayLoop_spec c subs (objComponents o) Hle) as Hloop.
  assert (Hop : ∀ s, replayOperStatus s
                     = if bool_decide (s = OperStatusUp)
                       then OperStatusDown else s)
    by (by intros []).
  assert (Hcomps : ∀ (i : nat) (comp : Component),
            objComponents o !! i = Some comp →
            map (replayed c) (objComponents o) !! i
            = Some (if bool_decide (Name comp = c
                                    ∨ CompStatus comp ≠ ComponentStatusSuccess)
                    then {| Name := Name comp;
                            CompStatus := ComponentStatusPending;
                            Details := ""; Timer := 0 |}
                    else comp)).
  { intros i comp Hi. rewrite list_lookup_fmap, Hi. simpl.
    by rewrite replayed_eq. }
  rewrite replay_filter_eq in Hloop.
  destruct o as [o|o|o|o];
    cbn [objComponents objOperStatus objResourceVersion
         prepareObjectsForReplay] in *;
    autounfold with kinds;
    rewrite Hloop; cbn;
    (eexists _, _; split; [reflexivity|]); cbn;
    rewrite length_map, Hop; repeat split; done.
Qed.

(** ** The constructors *)

Example NewSvi_gateway :
  Svi.GatewayIPs
    (Svi.Spec (Svi.NewSvi Sample.bus "v1" (Sample.sviBgp 65000)).1)
  = [ {| IP := [10; 0; 0; 2]; Mask := [255; 255; 255; 0] |} ].
Proof. reflexivity. Qed.

Example NewBridgePort_access :
  (BridgePort.NewBridgePort Sample.bus "v1" Sample.pbPort).2 = None
  ∧ BridgePort.Ptype
      (BridgePort.Spec
         (BridgePort.NewBridgePort Sample.bus "v1" Sample.pbPort).1)
    = BridgePort.Access
  ∧ BridgePort.TransparentTrunk
      (BridgePort.NewBridgePort Sample.bus "v1" Sample.pbPort).1
    = false.
Proof. repeat split. Qed.

(** The component list the constructors build: one Pending component per
    subscriber, in the order of the subscriber list. *)
Lemma pending_components_length (subs : list Subscriber) :
  length (map (λ sub, {| Name := SubName sub;
                         CompStatus := ComponentStatusPending;
                         Details := ""; Timer := 0 |}) subs)
  = length subs.
Proof. apply length_map. Qed.

(** C5. Every object [NewSvi], [NewLogicalBridge] or [NewBridgePort] returns
    without an error has operational status Down and one component per
    subscriber registered for its kind, in the order of the subscriber list,
    each Pending with empty details. *)
Theorem constructors_initial_status (EBus : EventBus) (defaultVtep : IPNet)
  (newVersion : string) :
  (∀ (i : Pb.Svi) (o : Svi.Svi),
     Svi.NewSvi EBus newVersion i = (o, None) →
     Svi.SviOperStatus (Svi.Status o) = OperStatusDown
     ∧ Svi.Components (Svi.Status o)
       = map (λ sub, {| Name := SubName sub;
                        CompStatus := ComponentStatusPending;
                        Details := ""; Timer := 0 |})
             (GetSubscribers EBus "svi"))
  ∧ (∀ (i : Pb.LogicalBridge) (o : LogicalBridge.LogicalBridge),
       LogicalBridge.NewLogicalBridge EBus defaultVtep newVersion i
       = (o, None) →
       LogicalBridge.LBOperStatus (LogicalBridge.Status o) = OperStatusDown
       ∧ LogicalBridge.Components (LogicalBridge.Status o)
         = map (λ sub, {| Name := SubName sub;
                          CompStatus := ComponentStatusPending;
                          Details := ""; Timer := 0 |})
               (GetSubscribers EBus "logical-bridge"))
  ∧ (∀ (i : Pb.BridgePort) (o : BridgePort.BridgePort),
       BridgePort.NewBridgePort EBus newVersion i = (o, None) →
       BridgePort.BPOperStatus (BridgePort.Status o) = OperStatusDown
       ∧ BridgePort.Components (BridgePort.Status o)
         = map (λ sub, {| Name := SubName sub;
                          CompStatus := ComponentStatusPending;
                          Details := ""; Timer := 0 |})
               (GetSubscribers EBus "bridge-port")).
Proof.
  split; [|split]; intros i o H;
    cbv [Svi.NewSvi LogicalBridge.NewLogicalBridge BridgePort.NewBridgePort]
      in H;
    case_bool_decide; simplify_eq; done.
Qed.

(** C9. With no subscriber registered for the kind, each of the three
    constructors returns the empty object and an error, whatever the input
    message; so an object a constructor returns without an error never has
    an empty component list. *)
Theorem constructors_need_subscribers (EBus : EventBus)
  (defaultVtep : IPNet) (newVersion : string) :
  (GetSubscribers EBus "svi" = [] →
   ∀ i : Pb.Svi,
     ∃ err, Svi.NewSvi EBus newVersion i = (Svi.empty, Some err))
  ∧ (GetSubscribers EBus "logical-bridge" = [] →
     ∀ i : Pb.LogicalBridge,
       ∃ err, LogicalBridge.NewLogicalBridge EBus defaultVtep newVersion i
              = (LogicalBridge.empty, Some err))
  ∧ (GetSubscribers EBus "bridge-port" = [] →
     ∀ i : Pb.BridgePort,
       ∃ err, BridgePort.NewBridgePort EBus newVersion i
              = (BridgePort.empty, Some err))
  ∧ (∀ (i : Pb.Svi) (o : Svi.Svi),
       Svi.NewSvi EBus newVersion i = (o, None) →
       Svi.Components (Svi.Status o) ≠ [])
  ∧ (∀ (i : Pb.LogicalBridge) (o : LogicalBridge.LogicalBridge),
       LogicalBridge.NewLogicalBridge EBus defaultVtep newVersion i
       = (o, None) →
       LogicalBridge.Components (LogicalBridge.Status o) ≠ [])
  ∧ (∀ (i : Pb.BridgePort) (o : BridgePort.BridgePort),
       BridgePort.NewBridgePort EBus newVersion i = (o, None) →
       BridgePort.Components (BridgePort.Status o) ≠ []).
Proof.
  split; [|split; [|split; [|split; [|split]]]].
  - intros H i. unfold Svi.NewSvi. rewrite H. simpl. eauto.
  - intros H i. unfold LogicalBridge.NewLogicalBridge. rewrite H. simpl.
    eauto.
  - intros H i. unfold BridgePort.NewBridgePort. rewrite H. simpl. eauto.
  - intros i o H. unfold Svi.NewSvi in H.
    case_bool_decide as Hn; simplify_eq. simpl.
    intros Hnil. apply Hn. apply (f_equal length) in Hnil.
    by rewrite length_map in Hnil.
  - intros i o H. unfold LogicalBridge.NewLogicalBridge in H.
    case_bool_decide as Hn; simplify_eq. simpl.
    intros Hnil. apply Hn. apply (f_equal length) in Hnil.
    by rewrite length_map in Hnil.
  - intros i o H. unfold BridgePort.NewBridgePort in H.
    case_bool_decide as Hn; simplify_eq. simpl.
    intros Hnil. apply Hn. apply (f_equal length) in Hnil.
    by rewrite length_map in Hnil.
Qed.

(** ** The references of a logical bridge *)

Example AddBridgePort_twice :
  (LogicalBridge.AddBridgePort "p1" "aa:bb:cc:dd:ee:01"
     LogicalBridge.empty).2 = None
  ∧ (LogicalBridge.AddBridgePort "p2" "aa:bb:cc:dd:ee:01"
       (LogicalBridge.AddBridgePort "p1" "aa:bb:cc:dd:ee:01"
          LogicalBridge.empty).1).2
    = Some (errors_New
              "AddBridgePort(): the logical bridge  is already associated with the bridge port mac: aa:bb:cc:dd:ee:01").
Proof. split; reflexivity. Qed.

Example AddSvi_twice :
  (LogicalBridge.AddSvi "svi2"
     (LogicalBridge.AddSvi "svi1" LogicalBridge.empty).1).1
  = (LogicalBridge.AddSvi "svi1" LogicalBridge.empty).1
  ∧ LogicalBridge.Svi (LogicalBridge.AddSvi "svi1" LogicalBridge.empty).1
    = "svi1".
Proof. split; reflexivity. Qed.

Lemma referencesUnique_always (lb : LogicalBridge.LogicalBridge) :
  referencesUnique lb.
Proof.
  unfold referencesUnique, sviRefs, portNames, macAddresses.
  split; [case_bool_decide; simpl; lia|].
  split; apply NoDup_fst_map_to_list.
Qed.

(** C7. [AddSvi] fails exactly when the bridge already holds an SVI, and
    otherwise stores the name; [AddBridgePort] fails exactly when the port
    name or the MAC address is already stored, and otherwise stores both;
    a failing call changes nothing and a successful one keeps every entry
    stored before, so no stored reference is ever overwritten; and a bridge
    holds at most one SVI, each port name once and each MAC address once,
    before and after each of the four methods. *)
Theorem LogicalBridge_references (lb : LogicalBridge.LogicalBridge) :
  (∀ s : string,
     ((LogicalBridge.AddSvi s lb).2 ≠ None ↔ LogicalBridge.Svi lb ≠ "")
     ∧ ((LogicalBridge.AddSvi s lb).2 = None →
        (LogicalBridge.AddSvi s lb).1 = LogicalBridge.withSvi s lb)
     ∧ ((LogicalBridge.AddSvi s lb).2 ≠ None →
        (LogicalBridge.AddSvi s lb).1 = lb))
  ∧ (∀ name mac : string,
       ((LogicalBridge.AddBridgePort name mac lb).2 ≠ None
        ↔ is_Some (LogicalBridge.BridgePorts lb !! name)
          ∨ is_Some (LogicalBridge.MacTable lb !! mac))
       ∧ ((LogicalBridge.AddBridgePort name mac lb).2 = None →
          (LogicalBridge.AddBridgePort name mac lb).1
          = LogicalBridge.withPorts
              (<[name := false]> (LogicalBridge.BridgePorts lb))
              (<[mac := name]> (LogicalBridge.MacTable lb)) lb)
       ∧ ((LogicalBridge.AddBridgePort name mac lb).2 ≠ None →
          (LogicalBridge.AddBridgePort name mac lb).1 = lb)
       ∧ LogicalBridge.BridgePorts lb
         ⊆ LogicalBridge.BridgePorts
             (LogicalBridge.AddBridgePort name mac lb).1
       ∧ LogicalBridge.MacTable lb
         ⊆ LogicalBridge.MacTable
             (LogicalBridge.AddBridgePort name mac lb).1)
  ∧ referencesUnique lb
  ∧ (∀ s, referencesUnique (LogicalBridge.AddSvi s lb).1)
  ∧ (∀ s, referencesUnique (LogicalBridge.DeleteSvi s lb).1)
  ∧ (∀ name mac, referencesUnique (LogicalBridge.AddBridgePort name mac lb).1)
  ∧ (∀ name mac,
       referencesUnique (LogicalBridge.DeleteBridgePort name mac lb).1).
Proof.
  split; [|split; [|split; [|split; [|split; [|split]]]]];
    try (intros; apply referencesUnique_always).
  - intros s. unfold LogicalBridge.AddSvi.
    case_bool_decide as H; simpl; naive_solver.
  - intros name mac. unfold LogicalBridge.AddBridgePort.
    destruct (LogicalBridge.BridgePorts lb !! name) as [b|] eqn:Hn; simpl.
    { split; [|split; [|split]]; try done. split; [eauto|done]. }
    destruct (LogicalBridge.MacTable lb !! mac) as [p|] eqn:Hm; simpl.
    { split; [|split; [|split]]; try done. split; [eauto|done]. }
    split; [|split; [|split; [|split]]]; try done.
    + split; [done|]. intros [[? ?]|[? ?]]; congruence.
    + by apply insert_subseteq.
    + by apply insert_subseteq.
Qed.

(** ** The validation of an SVI spec *)

Example validateSviSpec_rejects_65536 :
  validateSviSpec Sample.acceptName Sample.acceptMac (Sample.sviBgp 65536)
  = Some (status_Errorf InvalidArgument "RemoteAs must be in range 1-65535").
Proof. reflexivity. Qed.

Example validateSviSpec_accepts_65000 :
  validateSviSpec Sample.acceptName Sample.acceptMac (Sample.sviBgp 65000)
  = None.
Proof. reflexivity. Qed.

(** C8, as stated, fails: whatever validators accept the names and the MAC
    address of the sample request, [validateSviSpec] accepts it, and its
    [RemoteAs] is 0, outside 1..65535. *)
Lemma validateSviSpec_accepts_zero :
  (∀ (resourcename_Validate : string → option error)
     (ValidateMacAddress : list Z → option error),
     resourcename_Validate "//network.opiproject.org/bridges/br1" = None →
     resourcename_Validate "//network.opiproject.org/vrfs/blue" = None →
     ValidateMacAddress [170; 187; 204; 221; 238; 255] = None →
     validateSviSpec resourcename_Validate ValidateMacAddress
       Sample.sviNoBgp = None)
  ∧ validateSviSpec Sample.acceptName Sample.acceptMac Sample.sviNoBgp = None
  ∧ ¬ (1 ≤ Pb.SviRemoteAs (Pb.SviSpec_ Sample.sviNoBgp) ≤ 65535).
Proof.
  split; [|split].
  - intros rv mv Hlb Hvrf Hmac. unfold validateSviSpec. simpl.
    by rewrite Hlb, Hvrf, Hmac.
  - reflexivity.
  - simpl. lia.
Qed.

(** C8, amended. With the resource names and the MAC address valid,
    [validateSviSpec] returns an InvalidArgument error for every spec whose
    [RemoteAs] is above 65535, accepts every spec whose [RemoteAs] lies in
    1..65535, and accepts a [RemoteAs] of 0 when [EnableBgp] is false. *)
Theorem validateSviSpec_RemoteAs
  (resourcename_Validate : string → option error)
  (ValidateMacAddress : list Z → option error) (svi : Pb.Svi) :
  resourcename_Validate (Pb.SviLogicalBridge (Pb.SviSpec_ svi)) = None →
  resourcename_Validate (Pb.SviVrf (Pb.SviSpec_ svi)) = None →
  ValidateMacAddress (Pb.SviMacAddress (Pb.SviSpec_ svi)) = None →
  (Pb.SviRemoteAs (Pb.SviSpec_ svi) > 65535 →
   ∃ err, validateSviSpec resourcename_Validate ValidateMacAddress svi
          = Some err
          ∧ errCode err = InvalidArgument)
  ∧ (1 ≤ Pb.SviRemoteAs (Pb.SviSpec_ svi) ≤ 65535 →
     validateSviSpec resourcename_Validate ValidateMacAddress svi = None)
  ∧ (Pb.SviRemoteAs (Pb.SviSpec_ svi) = 0 →
     Pb.SviEnableBgp (Pb.SviSpec_ svi) = false →
     validateSviSpec resourcename_Validate ValidateMacAddress svi = None).
Proof.
  intros Hlb Hvrf Hmac. unfold validateSviSpec. rewrite Hlb, Hvrf, Hmac.
  split; [|split].
  - intros H. rewrite bool_decide_eq_true_2 by done. eauto.
  - intros H. rewrite bool_decide_eq_false_2 by lia. done.
  - intros H _. rewrite bool_decide_eq_false_2 by lia. done.
Qed.

(** ** The VRF front end *)

Example CreateVrf_first :
  VrfSample.CreateVrf "sys" VrfWorld.emptyDB VrfSample.createBlue
  = (inr VrfSample.storedBlue, VrfSample.dbBlue).
Proof. reflexivity. Qed.

Example CreateVrf_again :
  VrfSample.CreateVrf "sys" VrfSample.dbBlue VrfSample.createBlueAgain
  = (inr VrfSample.storedBlue, VrfSample.dbBlue).
Proof. reflexivity. Qed.

(** C1. For a request that passes validation and whose derived name is in
    the store, [CreateVrf] returns the stored object and leaves the world
    (store, task queue) as it was; hence, when creating makes the object
    readable under its name, a second [CreateVrf] with the same id returns
    the object the first one returned and changes nothing. *)
Theorem CreateVrf_idempotent (World : Type)
  (validateCreateVrfRequest : PbVrf.CreateVrfRequest → option error)
  (resourceIDToFullName : string → string)
  (getVrf : World → string → error + PbVrf.Vrf)
  (createVrf : World → PbVrf.Vrf → (error + PbVrf.Vrf) * World)
  (sysID : string) (w : World) (i : PbVrf.CreateVrfRequest) :
  validateCreateVrfRequest i = None →
  (∀ stored : PbVrf.Vrf,
     getVrf w (resourceIDToFullName
                 (if bool_decide (PbVrf.VrfId i ≠ "")
                  then PbVrf.VrfId i else sysID))
     = inr stored →
     CreateVrf World validateCreateVrfRequest resourceIDToFullName getVrf
       createVrf sysID w i
     = (inr stored, w))
  ∧ ((∀ w0 v r w1, createVrf w0 v = (inr r, w1) →
        getVrf w1 (PbVrf.Name v) = inr r) →
     PbVrf.VrfId i ≠ "" →
     ∀ (r1 : PbVrf.Vrf) (w1 : World),
       CreateVrf World validateCreateVrfRequest resourceIDToFullName getVrf
         createVrf sysID w i
       = (inr r1, w1) →
       ∀ (sysID2 : string) (i2 : PbVrf.CreateVrfRequest),
         PbVrf.VrfId i2 = PbVrf.VrfId i →
         validateCreateVrfRequest i2 = None →
         CreateVrf World validateCreateVrfRequest resourceIDToFullName getVrf
           createVrf sysID2 w1 i2
         = (inr r1, w1)).
Proof.
  intros Hval. split.
  - intros stored Hget. unfold CreateVrf. rewrite Hval. simpl.
    by rewrite Hget.
  - intros Hcreate Hid r1 w1 Hfirst sysID2 i2 Hid2 Hval2.
    assert (Hstored : getVrf w1 (resourceIDToFullName (PbVrf.VrfId i))
                      = inr r1).
    { unfold CreateVrf in Hfirst. rewrite Hval in Hfirst. simpl in Hfirst.
      rewrite bool_decide_eq_true_2 in Hfirst by done.
      destruct (getVrf w (resourceIDToFullName (PbVrf.VrfId i)))
        as [err|stored] eqn:Hget.
      - case_bool_decide; [by simplify_eq|].
        destruct (createVrf w _) as [[err'|r] w'] eqn:Hc; simplify_eq.
        by apply Hcreate in Hc.
      - by simplify_eq. }
    unfold CreateVrf. rewrite Hval2. simpl. rewrite Hid2.
    rewrite bool_decide_eq_true_2 by done. by rewrite Hstored.
Qed.

Example UpdateVrf_same :
  VrfSample.UpdateVrf VrfSample.dbBlue VrfSample.updateBlueSame
  = (inr VrfSample.storedBlue, VrfSample.dbBlue).
Proof. reflexivity. Qed.

(** C6. For a request that passes validation, names a stored object, and
    whose mask applied to the stored object yields an object equal to it,
    [UpdateVrf] returns the stored object and leaves the world as it was:
    [updateVrf] is not called, so no version is bumped and no task is
    enqueued. *)
Theorem UpdateVrf_noop (World : Type)
  (validateUpdateVrfRequest : PbVrf.UpdateVrfRequest → option error)
  (getVrf : World → string → error + PbVrf.Vrf)
  (createVrf updateVrf : World → PbVrf.Vrf → (error + PbVrf.Vrf) * World)
  (ApplyMaskToStoredPbObject :
     list string → PbVrf.Vrf → PbVrf.Vrf → PbVrf.Vrf)
  (w : World) (i : PbVrf.UpdateVrfRequest) (stored : PbVrf.Vrf) :
  validateUpdateVrfRequest i = None →
  getVrf w (PbVrf.Name (PbVrf.UVrf i)) = inr stored →
  ApplyMaskToStoredPbObject (PbVrf.UpdateMask i) stored (PbVrf.UVrf i)
  = stored →
  UpdateVrf World validateUpdateVrfRequest getVrf createVrf updateVrf
    ApplyMaskToStoredPbObject w i
  = (inr stored, w).
Proof.
  intros Hval Hget Hmask. unfold UpdateVrf, ProtoClone.
  rewrite Hval, Hget, Hmask. by rewrite bool_decide_eq_true_2.
Qed.

(** ** The FRR subscriber *)

Lemma wrap64_small (z : Z) : - 2 ^ 63 ≤ z < 2 ^ 63 → Frr.wrap64 z = z.
Proof.
  intros H. unfold Frr.wrap64. rewrite Z.mod_small; lia.
Qed.

Lemma pow2_seconds_small (n : nat) :
  (n ≤ 33)%nat →
  0 < 2 ^ Z.of_nat n * Frr.Second ∧ 2 ^ Z.of_nat n * Frr.Second < 2 ^ 63.
Proof.
  intros Hn. unfold Frr.Second.
  assert (H1 : 0 < 2 ^ Z.of_nat n) by (apply Z.pow_pos_nonneg; lia).
  assert (H2 : 2 ^ Z.of_nat n ≤ 2 ^ 33) by (apply Z.pow_le_mono_r; lia).
  change (2 ^ 33) with 8589934592 in H2.
  change (2 ^ 63) with 9223372036854775808. lia.
Qed.

(** [handlevrf] once the object is found and the versions agree: the work,
    the replay check with the threshold, and the status update, both on the
    stored frr component with this run's name, details and status and with
    the timer reset or backed off. *)
Lemma handlevrf_main (GetVrf : string → error + Vrf.Vrf)
  (setUpVrf tearDownVrf : Vrf.Vrf → string * bool)
  (od : ObjectData) (vrf : Vrf.Vrf) (details : string) (ok : bool) :
  GetVrf (ODName od) = inr vrf →
  ODResourceVersion od = Vrf.ResourceVersion vrf →
  (if bool_decide (Vrf.VrfOperStatus (Vrf.Status vrf) ≠ OperStatusToBeDeleted)
   then setUpVrf vrf else tearDownVrf vrf) = (details, ok) →
  ∃ comp,
    Frr.handlevrf GetVrf setUpVrf tearDownVrf od
    = [ (if bool_decide (Vrf.VrfOperStatus (Vrf.Status vrf)
                         ≠ OperStatusToBeDeleted)
         then Frr.CallSetUpVrf vrf else Frr.CallTearDownVrf vrf);
        Frr.CallCheckReplayThreshold comp (64 * Frr.Second);
        Frr.CallUpdateVrfStatus (ODName od) (ODResourceVersion od)
          (NotificationID od) None comp ]
    ∧ comp
      = {| Name := "frr";
           CompStatus := if ok then ComponentStatusSuccess
                         else ComponentStatusError;
           Details := details;
           Timer :=
             if ok then 0
             else if bool_decide
                       (Timer (Frr.frrComponent
                                 (Vrf.Components (Vrf.Status vrf))
                                 zeroComponent) = 0)
                  then 2 * Frr.Second
                  else Frr.wrap64
                         (Timer (Frr.frrComponent
                                   (Vrf.Components (Vrf.Status vrf))
                                   zeroComponent) * 2) |}.
Proof.
  intros Hget Hver Hwork. unfold Frr.handlevrf. rewrite Hget.
  rewrite bool_decide_eq_false_2 by (intros H; by apply H).
  unfold Vrf.VrfOperStatusToBeDeleted.
  case_bool_decide; rewrite Hwork; eexists; (split; [reflexivity|]);
    destruct (Frr.frrComponent _ zeroComponent) as [cn cs cd ct];
    destruct ok; unfold Frr.backoff; cbn; try case_bool_decide; done.
Qed.

Lemma handlesvi_main (GetSvi : string → error + Svi.Svi)
  (setUpSvi tearDownSvi : Svi.Svi → string * bool)
  (od : ObjectData) (svi : Svi.Svi) (details : string) (ok : bool) :
  GetSvi (ODName od) = inr svi →
  ODResourceVersion od = Svi.ResourceVersion svi →
  (if bool_decide (Svi.SviOperStatus (Svi.Status svi) ≠ OperStatusToBeDeleted)
   then setUpSvi svi else tearDownSvi svi) = (details, ok) →
  ∃ comp,
    Frr.handlesvi GetSvi setUpSvi tearDownSvi od
    = [ (if bool_decide (Svi.SviOperStatus (Svi.Status svi)
                         ≠ OperStatusToBeDeleted)
         then Frr.CallSetUpSvi svi else Frr.CallTearDownSvi svi);
        Frr.CallCheckReplayThreshold comp (64 * Frr.Second);
        Frr.CallUpdateSviStatus (ODName od) (ODResourceVersion od)
          (NotificationID od) None comp ]
    ∧ comp
      = {| Name := "frr";
           CompStatus := if ok then ComponentStatusSuccess
                         else ComponentStatusError;
           Details := details;
           Timer :=
             if ok then 0
             else if bool_decide
                       (Timer (Frr.frrComponent
                                 (Svi.Components (Svi.Status svi))
                                 zeroComponent) = 0)
                  then 2 * Frr.Second
                  else Frr.wrap64
                         (Timer (Frr.frrComponent
                                   (Svi.Components (Svi.Status svi))
                                   zeroComponent) * 2) |}.
Proof.
  intros Hget Hver Hwork. unfold Frr.handlesvi. rewrite Hget.
  rewrite bool_decide_eq_false_2 by (intros H; by apply H).
  unfold Svi.SviOperStatusToBeDeleted.
  case_bool_decide; rewrite Hwork; eexists; (split; [reflexivity|]);
    destruct (Frr.frrComponent _ zeroComponent) as [cn cs cd ct];
    destruct ok; unfold Frr.backoff; cbn; try case_bool_decide; done.
Qed.

(** After [n] errors in a row, [n] from 1 to 33, the timer is 2^n seconds. *)
Lemma vrfErrorRun_timer (n : nat) (c : Component) :
  vrfErrorRun n c →
  (n ≤ 33)%nat →
  Timer c = if bool_decide (n = 0%nat) then 0
            else 2 ^ Z.of_nat n * Frr.Second.
Proof.
  induction 1 as [c Hc|n c c' GetVrf setUpVrf tearDownVrf od vrf
                    Hrun IH Hget Hver Hstored Hrep Herr]; intros Hn.
  - by rewrite bool_decide_eq_true_2.
  - rewrite bool_decide_eq_false_2 by done.
    specialize (IH ltac:(lia)).
    destruct (if bool_decide (Vrf.VrfOperStatus (Vrf.Status vrf)
                              ≠ OperStatusToBeDeleted)
              then setUpVrf vrf else tearDownVrf vrf)
      as [details ok] eqn:Hwork.
    destruct (handlevrf_main GetVrf setUpVrf tearDownVrf od vrf details ok
                Hget Hver Hwork) as (comp & Htrace & Hcomp).
    rewrite Htrace in Hrep. cbn in Hrep. simplify_eq.
    destruct ok; [done|]. cbn. clear Herr Htrace Hwork.
    destruct (decide (n = 0%nat)) as [->|Hn0].
    + rewrite bool_decide_eq_true_2 in IH by done.
      rewrite IH. by rewrite bool_decide_eq_true_2.
    + rewrite bool_decide_eq_false_2 in IH by done. rewrite IH.
      pose proof (pow2_seconds_small n ltac:(lia)) as [Hpos _].
      pose proof (pow2_seconds_small (S n) Hn) as [_ Hlt].
      rewrite bool_decide_eq_false_2 by lia.
      rewrite Nat2Z.inj_succ, Z.pow_succ_r in * by lia.
      rewrite wrap64_small; lia.
Qed.

(** A timer of 2^62 ns doubles to the smallest [int64]. *)
Example backoff_wraps :
  Timer (Frr.backoff (Frr.setTimer (2 ^ 62) zeroComponent)) = - 2 ^ 63.
Proof. reflexivity. Qed.

Example handlevrf_success :
  Frr.handlevrf (λ _, inr (FrrSample.vrfOf [FrrSample.failed 8]))
    FrrSample.fine FrrSample.fine FrrSample.notification
  = [ Frr.CallSetUpVrf (FrrSample.vrfOf [FrrSample.failed 8]);
      Frr.CallCheckReplayThreshold
        {| Name := "frr"; CompStatus := ComponentStatusSuccess;
           Details := ""; Timer := 0 |} 64000000000;
      Frr.CallUpdateVrfStatus "//network.opiproject.org/vrfs/blue" "v1" "n1"
        None
        {| Name := "frr"; CompStatus := ComponentStatusSuccess;
           Details := ""; Timer := 0 |} ].
Proof. reflexivity. Qed.

Example handlevrf_third_error :
  Frr.handlevrf (λ _, inr (FrrSample.vrfOf [FrrSample.failed 4]))
    FrrSample.down FrrSample.down FrrSample.notification
  = [ Frr.CallSetUpVrf (FrrSample.vrfOf [FrrSample.failed 4]);
      Frr.CallCheckReplayThreshold (FrrSample.failed 8) 64000000000;
      Frr.CallUpdateVrfStatus "//network.opiproject.org/vrfs/blue" "v1" "n1"
        None (FrrSample.failed 8) ].
Proof. reflexivity. Qed.

(** C2. A run of [handlevrf] or [handlesvi] on an object it finds at the
    notification's version reports the frr component with: after failed
    work, status Error and the timer at 2 seconds when the stored timer was
    0 and at twice the stored timer otherwise (in [int64], which is the
    double below 2^62 ns); after successful work, status Success and the
    timer at 0. The run calls [CheckReplayThreshold] on that component with
    a threshold of 64 seconds. So [n] errors in a row, from a timer of 0,
    leave the timer at 2^n seconds (2, 4, 8, ...), and the check asks for a
    replay from the sixth on, when the timer has reached 64 seconds. *)
Theorem frr_backoff :
  (∀ (GetVrf : string → error + Vrf.Vrf)
     (setUpVrf tearDownVrf : Vrf.Vrf → string * bool)
     (od : ObjectData) (vrf : Vrf.Vrf) (details : string) (ok : bool),
     GetVrf (ODName od) = inr vrf →
     ODResourceVersion od = Vrf.ResourceVersion vrf →
     (if bool_decide (Vrf.VrfOperStatus (Vrf.Status vrf)
                      ≠ OperStatusToBeDeleted)
      then setUpVrf vrf else tearDownVrf vrf) = (details, ok) →
     ∃ comp,
       Frr.handlevrf GetVrf setUpVrf tearDownVrf od
       = [ (if bool_decide (Vrf.VrfOperStatus (Vrf.Status vrf)
                            ≠ OperStatusToBeDeleted)
            then Frr.CallSetUpVrf vrf else Frr.CallTearDownVrf vrf);
           Frr.CallCheckReplayThreshold comp (64 * Frr.Second);
           Frr.CallUpdateVrfStatus (ODName od) (ODResourceVersion od)
             (NotificationID od) None comp ]
       ∧ comp
         = {| Name := "frr";
              CompStatus := if ok then ComponentStatusSuccess
                            else ComponentStatusError;
              Details := details;
              Timer :=
                if ok then 0
                else if bool_decide
                          (Timer (Frr.frrComponent
                                    (Vrf.Components (Vrf.Status vrf))
                                    zeroComponent) = 0)
                     then 2 * Frr.Second
                     else Frr.wrap64
                            (Timer (Frr.frrComponent
                                      (Vrf.Components (Vrf.Status vrf))
                                      zeroComponent) * 2) |})
  ∧ (∀ (GetSvi : string → error + Svi.Svi)
       (setUpSvi tearDownSvi : Svi.Svi → string * bool)
       (od : ObjectData) (svi : Svi.Svi) (details : string) (ok : bool),
       GetSvi (ODName od) = inr svi →
       ODResourceVersion od = Svi.ResourceVersion svi →
       (if bool_decide (Svi.SviOperStatus (Svi.Status svi)
                        ≠ OperStatusToBeDeleted)
        then setUpSvi svi else tearDownSvi svi) = (details, ok) →
       ∃ comp,
         Frr.handlesvi GetSvi setUpSvi tearDownSvi od
         = [ (if bool_decide (Svi.SviOperStatus (Svi.Status svi)
                              ≠ OperStatusToBeDeleted)
              then Frr.CallSetUpSvi svi else Frr.CallTearDownSvi svi);
             Frr.CallCheckReplayThreshold comp (64 * Frr.Second);
             Frr.CallUpdateSviStatus (ODName od) (ODResourceVersion od)
               (NotificationID od) None comp ]
         ∧ comp
           = {| Name := "frr";
                CompStatus := if ok then ComponentStatusSuccess
                              else ComponentStatusError;
                Details := details;
                Timer :=
                  if ok then 0
                  else if bool_decide
                            (Timer (Frr.frrComponent
                                      (Svi.Components (Svi.Status svi))
                                      zeroComponent) = 0)
                       then 2 * Frr.Second
                       else Frr.wrap64
                              (Timer (Frr.frrComponent
                                        (Svi.Components (Svi.Status svi))
                                        zeroComponent) * 2) |})
  ∧ Frr.Second = 1000000000
  ∧ (∀ t : Z, - 2 ^ 62 ≤ t < 2 ^ 62 → Frr.wrap64 (t * 2) = 2 * t)
  ∧ (∀ (n : nat) (c : Component),
       vrfErrorRun n c →
       (1 ≤ n ≤ 33)%nat →
       CompStatus c = ComponentStatusError
       ∧ Timer c = 2 ^ Z.of_nat n * Frr.Second
       ∧ (Frr.CheckReplayThreshold c (64 * Frr.Second) = true
          ↔ (6 ≤ n)%nat)).
Proof.
  split; [|split; [|split; [|split]]].
  - apply handlevrf_main.
  - apply handlesvi_main.
  - reflexivity.
  - intros t Ht. rewrite wrap64_small; [lia|].
    change (2 ^ 63) with (2 * 2 ^ 62). lia.
  - intros n c Hrun [Hn1 Hn33].
    pose proof (vrfErrorRun_timer n c Hrun Hn33) as Ht.
    rewrite bool_decide_eq_false_2 in Ht by lia.
    split; [|split; [done|]].
    + inversion Hrun; subst; [lia|done].
    + unfold Frr.CheckReplayThreshold. rewrite bool_decide_eq_true, Ht.
      unfold Frr.Second. split.
      * intros H. destruct (decide (6 ≤ n)%nat) as [|Hlt]; [done|].
        assert (2 ^ Z.of_nat n ≤ 2 ^ 5) by (apply Z.pow_le_mono_r; lia).
        change (2 ^ 5) with 32 in *. lia.
      * intros H.
        assert (2 ^ 6 ≤ 2 ^ Z.of_nat n) by (apply Z.pow_le_mono_r; lia).
        change (2 ^ 6) with 64 in *. lia.
Qed.

(** The chain of six errors of the sample VRF, each run finding in the
    object the component the run before reported. *)
Lemma vrfErrorRun_six : vrfErrorRun 6 (FrrSample.failed 64).
Proof.
  assert (Hstep : ∀ (n : nat) (comps : list Component) (c' : Component),
            vrfErrorRun n (Frr.frrComponent comps zeroComponent) →
            Frr.reported
              (Frr.handlevrf (λ _, inr (FrrSample.vrfOf comps))
                 FrrSample.down FrrSample.down FrrSample.notification)
            = Some c' →
            CompStatus c' = ComponentStatusError →
            vrfErrorRun (S n) c').
  { intros n comps c' Hrun Hrep Herr.
    by eapply (vrfErrorRun_S n _ c' (λ _, inr (FrrSample.vrfOf comps))
                 FrrSample.down FrrSample.down FrrSample.notification
                 (FrrSample.vrfOf comps)). }
  apply (Hstep 5%nat [FrrSample.failed 32]); [|reflexivity|reflexivity].
  apply (Hstep 4%nat [FrrSample.failed 16]); [|reflexivity|reflexivity].
  apply (Hstep 3%nat [FrrSample.failed 8]); [|reflexivity|reflexivity].
  apply (Hstep 2%nat [FrrSample.failed 4]); [|reflexivity|reflexivity].
  apply (Hstep 1%nat [FrrSample.failed 2]); [|reflexivity|reflexivity].
  apply (Hstep 0%nat []); [|reflexivity|reflexivity].
  by apply vrfErrorRun_O.
Qed.

Lemma frr_backoff_witness :
  Timer (FrrSample.failed 64) = 2 ^ 6 * Frr.Second
  ∧ Frr.CheckReplayThreshold (FrrSample.failed 64) (64 * Frr.Second) = true.
Proof.
  destruct frr_backoff as (_ & _ & _ & _ & Hrun).
  destruct (Hrun 6%nat (FrrSample.failed 64) vrfErrorRun_six
              ltac:(lia)) as (_ & Ht & Hreplay).
  split; [exact Ht|]. apply Hreplay. lia.
Defined.

(** C4. When the object the handler re-fetches has another version than the
    notification, the FRR handler calls nothing but the status update of the
    kind, with the notification's name, version and id and a component in
    Error: its trace holds no set-up and no tear-down. *)
Theorem version_mismatch_replies_error
  (GetVrf : string → error + Vrf.Vrf)
  (GetSvi : string → error + Svi.Svi)
  (GetTunRep : string → error + TunRep.TunRep)
  (setUpVrf tearDownVrf : Vrf.Vrf → string * bool)
  (setUpSvi tearDownSvi : Svi.Svi → string * bool)
  (setUpTunRep UpdateTunRep tearDownTunRep : TunRep.TunRep → bool)
  (od : ObjectData) :
  (∀ vrf : Vrf.Vrf,
     GetVrf (ODName od) = inr vrf →
     ODResourceVersion od ≠ Vrf.ResourceVersion vrf →
     ∃ comp,
       Frr.HandleEvent GetVrf GetSvi GetTunRep setUpVrf tearDownVrf setUpSvi
         tearDownSvi setUpTunRep UpdateTunRep tearDownTunRep "vrf" od
       = [Frr.CallUpdateVrfStatus (ODName od) (ODResourceVersion od)
            (NotificationID od) None comp]
       ∧ Name comp = "frr"
       ∧ CompStatus comp = ComponentStatusError
       ∧ filter Frr.isWork
           (Frr.HandleEvent GetVrf GetSvi GetTunRep setUpVrf tearDownVrf
              setUpSvi tearDownSvi setUpTunRep UpdateTunRep tearDownTunRep
              "vrf" od) = [])
  ∧ (∀ svi : Svi.Svi,
       GetSvi (ODName od) = inr svi →
       ODResourceVersion od ≠ Svi.ResourceVersion svi →
       ∃ comp,
         Frr.HandleEvent GetVrf GetSvi GetTunRep setUpVrf tearDownVrf
           setUpSvi tearDownSvi setUpTunRep UpdateTunRep tearDownTunRep
           "svi" od
         = [Frr.CallUpdateSviStatus (ODName od) (ODResourceVersion od)
              (NotificationID od) None comp]
         ∧ Name comp = "frr"
         ∧ CompStatus comp = ComponentStatusError
         ∧ filter Frr.isWork
             (Frr.HandleEvent GetVrf GetSvi GetTunRep setUpVrf tearDownVrf
                setUpSvi tearDownSvi setUpTunRep UpdateTunRep tearDownTunRep
                "svi" od) = [])
  ∧ (∀ tr : TunRep.TunRep,
       GetTunRep (ODName od) = inr tr →
       ODResourceVersion od ≠ TunRep.ResourceVersion tr →
       ∃ comp,
         Frr.HandleEvent GetVrf GetSvi GetTunRep setUpVrf tearDownVrf
           setUpSvi tearDownSvi setUpTunRep UpdateTunRep tearDownTunRep
           "tun-rep" od
         = [Frr.CallUpdateTunRepStatus (ODName od) (ODResourceVersion od)
              (NotificationID od) None comp]
         ∧ Name comp = "frr"
         ∧ CompStatus comp = ComponentStatusError
         ∧ filter Frr.isWork
             (Frr.HandleEvent GetVrf GetSvi GetTunRep setUpVrf tearDownVrf
                setUpSvi tearDownSvi setUpTunRep UpdateTunRep tearDownTunRep
                "tun-rep" od) = []).
Proof.
  split; [|split].
  - intros vrf Hget Hver. unfold Frr.HandleEvent. simpl.
    unfold Frr.handlevrf. rewrite Hget.
    rewrite bool_decide_eq_true_2 by done. eexists. by repeat split.
  - intros svi Hget Hver. unfold Frr.HandleEvent. simpl.
    unfold Frr.handlesvi. rewrite Hget.
    rewrite bool_decide_eq_true_2 by done. eexists. by repeat split.
  - intros tr Hget Hver. unfold Frr.HandleEvent. simpl.
    unfold Frr.handleTunRep. rewrite Hget.
    rewrite bool_decide_eq_true_2 by done. eexists. by repeat split.
Qed.

Lemma version_mismatch_replies_error_witness :
  (∃ comp,
     Frr.HandleEvent (λ _, inr (FrrSample.vrfOf [FrrSample.failed 8]))
       (λ _, inr FrrSample.sviV1) (λ _, inr FrrSample.tunRep)
       FrrSample.fine FrrSample.fine (λ _, ("", true)) (λ _, ("", true))
       (λ _, true) (λ _, true) (λ _, true) "vrf" FrrSample.stale
     = [Frr.CallUpdateVrfStatus "//network.opiproject.org/vrfs/blue" "v0"
          "n7" None comp]
     ∧ CompStatus comp = ComponentStatusError)
  ∧ (∃ comp,
       Frr.HandleEvent (λ _, inr (FrrSample.vrfOf [FrrSample.failed 8]))
         (λ _, inr FrrSample.sviV1) (λ _, inr FrrSample.tunRep)
         FrrSample.fine FrrSample.fine (λ _, ("", true)) (λ _, ("", true))
         (λ _, true) (λ _, true) (λ _, true) "svi" FrrSample.stale
       = [Frr.CallUpdateSviStatus "//network.opiproject.org/vrfs/blue" "v0"
            "n7" None comp]
       ∧ CompStatus comp = ComponentStatusError)
  ∧ (∃ comp,
       Frr.HandleEvent (λ _, inr (FrrSample.vrfOf [FrrSample.failed 8]))
         (λ _, inr FrrSample.sviV1) (λ _, inr FrrSample.tunRep)
         FrrSample.fine FrrSample.fine (λ _, ("", true)) (λ _, ("", true))
         (λ _, true) (λ _, true) (λ _, true) "tun-rep" FrrSample.stale
       = [Frr.CallUpdateTunRepStatus "//network.opiproject.org/vrfs/blue"
            "v0" "n7" None comp]
       ∧ CompStatus comp = ComponentStatusError).
Proof.
  destruct (version_mismatch_replies_error
              (λ _, inr (FrrSample.vrfOf [FrrSample.failed 8]))
              (λ _, inr FrrSample.sviV1) (λ _, inr FrrSample.tunRep)
              FrrSample.fine FrrSample.fine
              (λ _, ("", true)) (λ _, ("", true))
              (λ _, true) (λ _, true) (λ _, true) FrrSample.stale)
    as (Hvrf & Hsvi & Htun).
  split; [|split].
  - destruct (Hvrf (FrrSample.vrfOf [FrrSample.failed 8]) eq_refl)
      as (comp & Htrace & _ & Herr & _); [simpl; discriminate|].
    exists comp. by split.
  - destruct (Hsvi FrrSample.sviV1 eq_refl)
      as (comp & Htrace & _ & Herr & _); [simpl; discriminate|].
    exists comp. by split.
  - destruct (Htun FrrSample.tunRep eq_refl)
      as (comp & Htrace & _ & Herr & _); [simpl; discriminate|].
    exists comp. by split.
Defined.

(** ** The statements above at sample values *)

Lemma prepareObjectsForReplay_spec_witness :
  ∃ o' : EvpnObject,
    prepareObjectsForReplay "lgm" [Sample.lvm; Sample.frr; Sample.lgm] "v2"
      (OfSvi Sample.sviUp)
    = Some (o', [Sample.frr; Sample.lgm])
    ∧ objOperStatus o' = OperStatusDown
    ∧ objResourceVersion o' = "v2".
Proof.
  destruct (prepareObjectsForReplay_spec (OfSvi Sample.sviUp) "lgm"
              [Sample.lvm; Sample.frr; Sample.lgm] "v2" eq_refl)
    as (o' & out & Heq & _ & _ & Hst & Hver & Hout & _).
  exists o'. split; [|split].
  - rewrite Heq, Hout. reflexivity.
  - rewrite Hst. reflexivity.
  - exact Hver.
Defined.

Lemma constructors_initial_status_witness :
  Svi.Components (Svi.Status (Svi.NewSvi Sample.bus "v1" Sample.sviNoBgp).1)
  = [pendingComponent "lvm"; pendingComponent "frr"; pendingComponent "lgm"]
  ∧ LogicalBridge.Components
      (LogicalBridge.Status
         (LogicalBridge.NewLogicalBridge Sample.bus Sample.vtep "v1"
            Sample.pbBridge).1)
    = [pendingComponent "lvm"; pendingComponent "lgm"]
  ∧ BridgePort.Components
      (BridgePort.Status
         (BridgePort.NewBridgePort Sample.bus "v1" Sample.pbPort).1)
    = [pendingComponent "lvm"].
Proof.
  destruct (constructors_initial_status Sample.bus Sample.vtep "v1")
    as (Hsvi & Hlb & Hbp).
  split; [|split].
  - destruct (Hsvi Sample.sviNoBgp
                (Svi.NewSvi Sample.bus "v1" Sample.sviNoBgp).1 eq_refl)
      as [_ H].
    rewrite H. reflexivity.
  - destruct (Hlb Sample.pbBridge
                (LogicalBridge.NewLogicalBridge Sample.bus Sample.vtep "v1"
                   Sample.pbBridge).1 eq_refl) as [_ H].
    rewrite H. reflexivity.
  - destruct (Hbp Sample.pbPort
                (BridgePort.NewBridgePort Sample.bus "v1" Sample.pbPort).1
                eq_refl) as [_ H].
    rewrite H. reflexivity.
Defined.

Lemma constructors_need_subscribers_witness :
  (∃ err, Svi.NewSvi ∅ "v1" Sample.sviNoBgp = (Svi.empty, Some err))
  ∧ (∃ err, LogicalBridge.NewLogicalBridge ∅ Sample.vtep "v1" Sample.pbBridge
            = (LogicalBridge.empty, Some err))
  ∧ (∃ err, BridgePort.NewBridgePort ∅ "v1" Sample.pbPort
            = (BridgePort.empty, Some err))
  ∧ Svi.Components
      (Svi.Status (Svi.NewSvi Sample.bus "v1" Sample.sviNoBgp).1) ≠ [].
Proof.
  destruct (constructors_need_subscribers ∅ Sample.vtep "v1")
    as (Hsvi & Hlb & Hbp & _).
  destruct (constructors_need_subscribers Sample.bus Sample.vtep "v1")
    as (_ & _ & _ & Hnonempty & _).
  split; [|split; [|split]].
  - apply (Hsvi eq_refl).
  - apply (Hlb eq_refl).
  - apply (Hbp eq_refl).
  - apply (Hnonempty Sample.sviNoBgp
             (Svi.NewSvi Sample.bus "v1" Sample.sviNoBgp).1 eq_refl).
Defined.

Lemma validateSviSpec_RemoteAs_witness :
  (∃ err, validateSviSpec Sample.acceptName Sample.acceptMac
            (Sample.sviBgp 70000) = Some err
          ∧ errCode err = InvalidArgument)
  ∧ validateSviSpec Sample.acceptName Sample.acceptMac (Sample.sviBgp 65000)
    = None
  ∧ validateSviSpec Sample.acceptName Sample.acceptMac Sample.sviNoBgp = None.
Proof.
  split; [|split].
  - destruct (validateSviSpec_RemoteAs Sample.acceptName Sample.acceptMac
                (Sample.sviBgp 70000) eq_refl eq_refl eq_refl) as (H & _ & _).
    apply H. simpl. lia.
  - destruct (validateSviSpec_RemoteAs Sample.acceptName Sample.acceptMac
                (Sample.sviBgp 65000) eq_refl eq_refl eq_refl) as (_ & H & _).
    apply H. simpl. lia.
  - destruct (validateSviSpec_RemoteAs Sample.acceptName Sample.acceptMac
                Sample.sviNoBgp eq_refl eq_refl eq_refl) as (_ & _ & H).
    apply H; reflexivity.
Defined.

Lemma VrfWorld_create_then_get (w0 : VrfWorld.InfraDB) (v r : PbVrf.Vrf)
  (w1 : VrfWorld.InfraDB) :
  VrfWorld.createVrf w0 v = (inr r, w1) →
  VrfWorld.getVrf w1 (PbVrf.Name v) = inr r.
Proof.
  intros H. unfold VrfWorld.createVrf in H. unfold VrfWorld.getVrf.
  simplify_eq. simpl. by rewrite lookup_insert_eq.
Qed.

Lemma CreateVrf_idempotent_witness :
  VrfSample.CreateVrf "sys" VrfSample.dbBlue VrfSample.createBlueAgain
  = (inr VrfSample.storedBlue, VrfSample.dbBlue)
  ∧ (VrfSample.CreateVrf "sys" VrfWorld.emptyDB VrfSample.createBlue
     = (inr VrfSample.storedBlue, VrfSample.dbBlue)
     ∧ VrfSample.CreateVrf "sys2" VrfSample.dbBlue VrfSample.createBlueAgain
       = (inr VrfSample.storedBlue, VrfSample.dbBlue)).
Proof.
  split; [|split].
  - apply (proj1 (CreateVrf_idempotent VrfWorld.InfraDB
                    VrfWorld.acceptCreate VrfWorld.resourceIDToFullName
                    VrfWorld.getVrf VrfWorld.createVrf
                    "sys" VrfSample.dbBlue VrfSample.createBlueAgain
                    eq_refl)).
    reflexivity.
  - reflexivity.
  - refine (proj2 (CreateVrf_idempotent VrfWorld.InfraDB
                     VrfWorld.acceptCreate VrfWorld.resourceIDToFullName
                     VrfWorld.getVrf VrfWorld.createVrf
                     "sys" VrfWorld.emptyDB VrfSample.createBlue eq_refl)
              VrfWorld_create_then_get _ VrfSample.storedBlue
              VrfSample.dbBlue eq_refl "sys2" VrfSample.createBlueAgain
              eq_refl eq_refl).
    simpl. discriminate.
Defined.

Lemma UpdateVrf_noop_witness :
  VrfSample.UpdateVrf VrfSample.dbBlue VrfSample.updateBlueSame
  = (inr VrfSample.storedBlue, VrfSample.dbBlue).
Proof.
  apply (UpdateVrf_noop VrfWorld.InfraDB VrfWorld.acceptUpdate
           VrfWorld.getVrf VrfWorld.createVrf VrfWorld.updateVrf
           VrfWorld.ApplyMaskToStoredPbObject VrfSample.dbBlue
           VrfSample.updateBlueSame VrfSample.storedBlue
           eq_refl eq_refl eq_refl).
Defined.

(** * Further properties *)

(** ** Components: success, replay and updates *)

Lemma checkForAllSuccessLoop_spec (comps : list Component) :
  checkForAllSuccessLoop comps = true
  ↔ ∀ comp, comp ∈ comps → CompStatus comp = ComponentStatusSuccess.
Proof.
  induction comps as [|comp rest IH]; simpl.
  - split; [|done]. intros _ comp H. by apply elem_of_nil in H.
  - case_decide as Hc.
    + split; [done|]. intros H. destruct Hc. apply H. by left.
    + rewrite IH. split.
      * intros H comp' [->|Hin]%elem_of_cons; [|by apply H].
        by destruct (decide (CompStatus comp = ComponentStatusSuccess)).
      * intros H comp' Hin. apply H. by right.
Qed.

(** X1. [checkForAllSuccess] answers true exactly when every component of
    the object is in Success; in particular for an object without
    components. *)
Theorem checkForAllSuccess_spec (o : EvpnObject) :
  (checkForAllSuccess o = true
   ↔ ∀ comp, comp ∈ objComponents o → CompStatus comp = ComponentStatusSuccess)
  ∧ (objComponents o = [] → checkForAllSuccess o = true).
Proof.
  assert (H : checkForAllSuccess o
              = checkForAllSuccessLoop (objComponents o)) by by destruct o.
  rewrite H. split; [apply checkForAllSuccessLoop_spec|].
  intros ->. reflexivity.
Qed.

Lemma foldl_replayStep_None (c : string) (subs : list Subscriber)
  (l : list (nat * Component)) :
  foldl (replayStep c subs) None l = None.
Proof. by induction l. Qed.

(** The replay loop in full: it panics when a component to reset sits at an
    index the subscriber list does not have, and otherwise resets and
    collects as the aligned case does. *)
Lemma replayLoop_safe_gen (c : string) (subs : list Subscriber)
  (l pre : list Component) (out : list Subscriber) :
  (∀ (i : nat) comp, l !! i = Some comp → needsReplay c comp = true →
     (length pre + i < length subs)%nat) →
  foldl (replayStep c subs) (Some (map (replayed c) pre ++ l, out))
        (imap (λ i comp, ((length pre + i)%nat, comp)) l)
  = Some (map (replayed c) (pre ++ l),
          out ++ (filter (λ p, needsReplay c p.1)
                    (zip l (drop (length pre) subs))).*2).
Proof.
  revert pre out. induction l as [|x l IH]; intros pre out Hsafe.
  - simpl. by rewrite !app_nil_r.
  - rewrite imap_cons. cbn [foldl].
    assert (Hext : imap ((λ (i : nat) (comp : Component),
                           ((length pre + i)%nat, comp)) ∘ S) l
                   = imap (λ (i : nat) (comp : Component),
                           ((length (pre ++ [x]) + i)%nat, comp)) l).
    { apply imap_ext. intros i y _. simpl. rewrite length_app. simpl.
      f_equal. lia. }
    rewrite Hext. clear Hext.
    assert (Hins : <[length pre := pendingComponent (Name x)]>
                     (map (replayed c) pre ++ x :: l)
                   = map (replayed c) pre ++ pendingComponent (Name x) :: l).
    { replace (length pre) with (length (map (replayed c) pre) + 0)%nat
        by (rewrite length_map; lia).
      by rewrite insert_app_r. }
    assert (Hrest : ∀ (i : nat) comp, l !! i = Some comp →
              needsReplay c comp = true →
              (length (pre ++ [x]) + i < length subs)%nat).
    { intros i comp Hi Hn. rewrite length_app. simpl.
      specialize (Hsafe (S i) comp Hi Hn). lia. }
    unfold replayStep at 2. cbn [fst snd]. rewrite Nat.add_0_r.
    destruct (needsReplay c x) eqn:Hx.
    + specialize (Hsafe 0%nat x eq_refl Hx). rewrite Nat.add_0_r in Hsafe.
      destruct (lookup_lt_is_Some_2 subs (length pre) Hsafe) as [sub Hsub].
      rewrite Hsub, Hins. rewrite (drop_S _ _ _ Hsub). cbn [zip zip_with].
      rewrite filter_cons. cbn [fst]. rewrite Hx.
      rewrite decide_True by done.
      specialize (IH (pre ++ [x]) (out ++ [sub]) Hrest).
      rewrite map_app in IH. simpl in IH. unfold replayed at 2 in IH.
      rewrite Hx in IH. rewrite <- !app_assoc in IH. simpl in IH.
      rewrite IH. rewrite length_app. simpl. rewrite Nat.add_1_r. done.
    + specialize (IH (pre ++ [x]) out Hrest).
      rewrite map_app in IH. simpl in IH. unfold replayed at 2 in IH.
      rewrite Hx in IH. rewrite <- !app_assoc in IH. simpl in IH.
      rewrite IH. rewrite length_app. simpl. rewrite Nat.add_1_r.
      f_equal. f_equal. f_equal.
      destruct (subs !! length pre) as [sub|] eqn:Hsub.
      * rewrite (drop_S _ _ _ Hsub). cbn [zip zip_with].
        rewrite filter_cons. cbn [fst]. rewrite Hx.
        by rewrite decide_False by (intros H; exact H).
      * apply lookup_ge_None in Hsub.
        rewrite !drop_ge by lia. by destruct l.
Qed.

Lemma replayLoop_panic_gen (c : string) (subs : list Subscriber)
  (l : list Component) (k : nat)
  (st : list Component * list Subscriber) :
  (∃ (i : nat) comp, l !! i = Some comp ∧ needsReplay c comp = true
                     ∧ (length subs ≤ k + i)%nat) →
  foldl (replayStep c subs) (Some st)
        (imap (λ i comp, ((k + i)%nat, comp)) l) = None.
Proof.
  revert k st. induction l as [|x l IH]; intros k st (i & comp & Hi & Hn & Hge).
  - done.
  - rewrite imap_cons. cbn [foldl].
    assert (Hext : imap ((λ (i : nat) (comp : Component),
                           ((k + i)%nat, comp)) ∘ S) l
                   = imap (λ (i : nat) (comp : Component),
                           ((S k + i)%nat, comp)) l).
    { apply imap_ext. intros j y _. simpl. f_equal. lia. }
    rewrite Hext. clear Hext.
    destruct st as [comps tempSubs]. unfold replayStep at 2. cbn [fst snd].
    rewrite Nat.add_0_r.
    destruct i as [|i]; simpl in Hi.
    + simplify_eq. rewrite Hn. rewrite Nat.add_0_r in Hge.
      rewrite (proj2 (lookup_ge_None subs k) Hge).
      apply foldl_replayStep_None.
    + destruct (needsReplay c x); [destruct (subs !! k)|].
      * apply IH. exists i, comp. repeat split; [done..|lia].
      * apply foldl_replayStep_None.
      * apply IH. exists i, comp. repeat split; [done..|lia].
Qed.

Lemma replayLoop_total (c : string) (subs : list Subscriber)
  (comps : list Component) :
  ((∀ (i : nat) comp, comps !! i = Some comp → needsReplay c comp = true →
      (i < length subs)%nat)
   ∧ replayLoop c subs comps
     = Some (map (replayed c) comps,
             (filter (λ p, needsReplay c p.1) (zip comps subs)).*2))
  ∨ ((∃ (i : nat) comp, comps !! i = Some comp ∧ needsReplay c comp = true
                        ∧ (length subs ≤ i)%nat)
     ∧ replayLoop c subs comps = None).
Proof.
  assert (Hdec : (∀ (i : nat) comp, comps !! i = Some comp →
                    needsReplay c comp = true → (i < length subs)%nat)
                 ∨ (∃ (i : nat) comp, comps !! i = Some comp
                      ∧ needsReplay c comp = true
                      ∧ (length subs ≤ i)%nat)).
  { induction comps as [|x l IH] using rev_ind.
    - left. intros i comp Hi. by rewrite lookup_nil in Hi.
    - destruct IH as [IH|(i & comp & Hi & Hn & Hge)].
      + destruct (needsReplay c x) eqn:Hx;
          [destruct (decide (length l < length subs)%nat) as [Hlt|Hge]|].
        * left. intros i comp Hi Hn.
          destruct (decide (i < length l)%nat) as [Hil|Hil].
          -- rewrite lookup_app_l in Hi by done. by eapply IH.
          -- apply lookup_lt_Some in Hi. rewrite length_app in Hi.
             simpl in Hi. lia.
        * right. exists (length l), x. repeat split; [|done|lia].
          by rewrite list_lookup_middle.
        * left. intros i comp Hi Hn.
          destruct (decide (i < length l)%nat) as [Hil|Hil].
          -- rewrite lookup_app_l in Hi by done. by eapply IH.
          -- rewrite lookup_app_r in Hi by lia.
             destruct (i - length l)%nat; simpl in Hi; [|done].
             simplify_eq. congruence.
      + right. exists i, comp. repeat split; [|done..].
        rewrite lookup_app_l; [done|]. by eapply lookup_lt_Some. }
  destruct Hdec as [Hsafe|Hpanic].
  - left. split; [done|]. unfold replayLoop.
    pose proof (replayLoop_safe_gen c subs comps [] [] Hsafe) as H.
    simpl in H. exact H.
  - right. split; [done|]. unfold replayLoop.
    apply (replayLoop_panic_gen c subs comps 0%nat). exact Hpanic.
Qed.

Lemma prepareObjectsForReplay_loop (c : string) (subs : list Subscriber)
  (v : string) (o : EvpnObject) :
  prepareObjectsForReplay c subs v o
  = match replayLoop c subs (objComponents o) with
    | None => None
    | Some (comps, out) =>
        Some (objWith comps (replayOperStatus (objOperStatus o)) v o, out)
    end.
Proof.
  destruct o as [o|o|o|o]; cbn [prepareObjectsForReplay objComponents];
    autounfold with kinds;
    by destruct (replayLoop c subs _) as [[comps out]|].
Qed.

Lemma objWith_components (comps : list Component) (st : OperStatus)
  (v : string) (o : EvpnObject) :
  objComponents (objWith comps st v o) = comps
  ∧ objOperStatus (objWith comps st v o) = st
  ∧ objResourceVersion (objWith comps st v o) = v.
Proof. by destruct o. Qed.

Lemma objWith_objWith (comps comps' : list Component) (st st' : OperStatus)
  (v v' : string) (o : EvpnObject) :
  objWith comps' st' v' (objWith comps st v o) = objWith comps' st' v' o.
Proof. by destruct o. Qed.

(** X2. [prepareObjectsForReplay] panics, on the index expression
    [subs[i]], exactly when a component it has to reset (named as asked, or
    not in Success) sits at an index the subscriber list does not have; a
    list shorter than the components is fine as long as no such component
    lies beyond it. *)
Theorem prepareObjectsForReplay_panics (o : EvpnObject) (c : string)
  (subs : list Subscriber) (newVersion : string) :
  prepareObjectsForReplay c subs newVersion o = None
  ↔ ∃ (i : nat) (comp : Component),
      objComponents o !! i = Some comp
      ∧ (Name comp = c ∨ CompStatus comp ≠ ComponentStatusSuccess)
      ∧ (length subs ≤ i)%nat.
Proof.
  rewrite prepareObjectsForReplay_loop.
  destruct (replayLoop_total c subs (objComponents o))
    as [[Hsafe ->]|[(i & comp & Hi & Hn & Hge) ->]].
  - split; [done|]. intros (i & comp & Hi & Hn & Hge).
    apply needsReplay_true in Hn. specialize (Hsafe i comp Hi Hn). lia.
  - split; [|done]. intros _. exists i, comp.
    by rewrite <- needsReplay_true.
Qed.

Lemma needsReplay_replayed (c : string) (comp : Component) :
  needsReplay c (replayed c comp) = needsReplay c comp.
Proof.
  unfold replayed. destruct (needsReplay c comp) eqn:H; [|done].
  unfold needsReplay. simpl. apply orb_true_r.
Qed.

Lemma replayed_replayed (c : string) (comp : Component) :
  replayed c (replayed c comp) = replayed c comp.
Proof.
  unfold replayed at 1. rewrite needsReplay_replayed.
  unfold replayed. by destruct (needsReplay c comp).
Qed.

Lemma replay_filter_replayed (c : string) (comps : list Component)
  (subs : list Subscriber) :
  (filter (λ p, needsReplay c p.1) (zip (map (replayed c) comps) subs)).*2
  = (filter (λ p, needsReplay c p.1) (zip comps subs)).*2.
Proof.
  revert subs. induction comps as [|x l IH]; intros [|s subs]; try done.
  simpl. rewrite !filter_cons. simpl. rewrite needsReplay_replayed.
  destruct (decide (needsReplay c x)); simpl; by rewrite IH.
Qed.

(** X3. Preparing an object for replay twice for the same component is the
    same as preparing it once, but for the version: the second call resets
    the same components to the same values, leaves the status it finds and
    returns the same subscribers. *)
Theorem prepareObjectsForReplay_twice (o o1 : EvpnObject) (c : string)
  (subs out1 : list Subscriber) (v1 v2 : string) :
  prepareObjectsForReplay c subs v1 o = Some (o1, out1) →
  prepareObjectsForReplay c subs v2 o1
  = Some (objWith (objComponents o1) (objOperStatus o1) v2 o1, out1)
    ∧ objWith (objComponents o1) (objOperStatus o1) v2 o1
      = objWith (objComponents o1) (objOperStatus o1) v2 o.
Proof.
  rewrite !prepareObjectsForReplay_loop. intros H1.
  destruct (replayLoop_total c subs (objComponents o))
    as [[Hsafe Heq]|[_ Heq]]; rewrite Heq in H1; [|done].
  simplify_eq.
  destruct (objWith_components (map (replayed c) (objComponents o))
              (replayOperStatus (objOperStatus o)) v1 o) as (Hc & Hs & _).
  rewrite Hc, Hs.
  destruct (replayLoop_total c subs (map (replayed c) (objComponents o)))
    as [[_ Heq2]|[(i & comp & Hi & Hn & Hge) _]].
  - rewrite Heq2. rewrite replay_filter_replayed.
    rewrite <- list_fmap_compose.
    rewrite (list_fmap_ext (replayed c ∘ replayed c) (replayed c))
      by (intros; apply replayed_replayed).
    assert (Hop : replayOperStatus (replayOperStatus (objOperStatus o))
                  = replayOperStatus (objOperStatus o))
      by (by destruct (objOperStatus o)).
    rewrite Hop. by rewrite !objWith_objWith.
  - rewrite list_lookup_fmap in Hi.
    destruct (objComponents o !! i) as [comp0|] eqn:Hi0; simplify_eq.
    simpl in Hi. simplify_eq. rewrite needsReplay_replayed in Hn.
    specialize (Hsafe i comp0 Hi0 Hn). lia.
Qed.

(** X4. After [prepareObjectsForReplay] the object is all-success exactly
    when no subscriber is returned, and that is exactly when it was
    all-success before and has no component of the name asked for. *)
Theorem prepareObjectsForReplay_success (o o1 : EvpnObject) (c : string)
  (subs out1 : list Subscriber) (v1 : string) :
  prepareObjectsForReplay c subs v1 o = Some (o1, out1) →
  (checkForAllSuccess o1 = true ↔ out1 = [])
  ∧ (out1 = []
     ↔ checkForAllSuccess o = true
       ∧ ∀ comp, comp ∈ objComponents o → Name comp ≠ c).
Proof.
  rewrite prepareObjectsForReplay_loop. intros H1.
  destruct (replayLoop_total c subs (objComponents o))
    as [[Hsafe Heq]|[_ Heq]]; rewrite Heq in H1; [|done].
  simplify_eq.
  assert (Hc1 : checkForAllSuccess
                  (objWith (map (replayed c) (objComponents o))
                     (replayOperStatus (objOperStatus o)) v1 o)
                = checkForAllSuccessLoop
                    (map (replayed c) (objComponents o)))
    by by destruct o.
  assert (Hc0 : checkForAllSuccess o
                = checkForAllSuccessLoop (objComponents o))
    by by destruct o.
  rewrite Hc1, Hc0, !checkForAllSuccessLoop_spec. clear Hc1 Hc0 Heq.
  assert (Hnone : (filter (λ p, needsReplay c p.1)
                     (zip (objComponents o) subs)).*2 = []
                  ↔ ∀ comp, comp ∈ objComponents o →
                      needsReplay c comp = false).
  { revert subs Hsafe. induction (objComponents o) as [|x l IH];
      intros subs Hsafe.
    - split; [|done]. intros _ comp H. by apply elem_of_nil in H.
    - destruct subs as [|s subs].
      + split; [|done]. intros _ comp [i Hi]%list_elem_of_lookup.
        destruct (needsReplay c comp) eqn:Hn; [|done].
        specialize (Hsafe i comp Hi Hn). simpl in Hsafe. lia.
      + simpl. rewrite filter_cons. simpl.
        assert (Hsafe' : ∀ (i : nat) comp, l !! i = Some comp →
                  needsReplay c comp = true → (i < length subs)%nat).
        { intros i comp Hi Hn. specialize (Hsafe (S i) comp Hi Hn).
          simpl in Hsafe. lia. }
        destruct (needsReplay c x) eqn:Hx.
        * rewrite decide_True by done. split; [done|].
          intros H. specialize (H x ltac:(by left)). congruence.
        * rewrite decide_False by (intros H; exact H).
          rewrite (IH subs Hsafe'). split.
          -- intros H comp [->|Hin]%elem_of_cons; [done|by apply H].
          -- intros H comp Hin. apply H. by right. }
  split.
  - rewrite Hnone. split.
    + intros H comp Hin.
      destruct (needsReplay c comp) eqn:Hn; [|done].
      specialize (H (replayed c comp)
                    ltac:(by apply list_elem_of_fmap_2)).
      unfold replayed in H. rewrite Hn in H. done.
    + intros H comp' (comp & -> & Hin)%list_elem_of_fmap.
      specialize (H comp Hin). unfold replayed. rewrite H.
      destruct (decide (CompStatus comp = ComponentStatusSuccess)) as [|Hne];
        [done|].
      assert (needsReplay c comp = true)
        by (apply needsReplay_true; by right).
      congruence.
  - rewrite Hnone. split.
    + intros H. split; intros comp Hin; specialize (H comp Hin).
      * destruct (decide (CompStatus comp = ComponentStatusSuccess))
          as [|Hne]; [done|].
        assert (needsReplay c comp = true)
          by (apply needsReplay_true; by right).
        congruence.
      * intros Hname.
        assert (needsReplay c comp = true)
          by (apply needsReplay_true; by left).
        congruence.
    + intros [Hall Hname] comp Hin.
      destruct (needsReplay c comp) eqn:Hn; [|done].
      apply needsReplay_true in Hn as [Hn|Hn].
      * by destruct (Hname comp Hin).
      * by destruct Hn; apply Hall.
Qed.

Lemma setComponentStateLoop_same (c1 c2 : Component)
  (comps : list Component) :
  Name c1 = Name c2 →
  setComponentStateLoop c1 (setComponentStateLoop c2 comps)
  = setComponentStateLoop c1 comps.
Proof.
  intros Hn. induction comps as [|x l IH]; simpl; [done|].
  destruct (decide (Name x = Name c2)) as [Hx|Hx]; simpl.
  - rewrite decide_True by congruence. by rewrite decide_True by congruence.
  - rewrite decide_False by congruence. rewrite decide_False by congruence.
    by rewrite IH.
Qed.

Lemma setComponentStateLoop_comm (c1 c2 : Component)
  (comps : list Component) :
  Name c1 ≠ Name c2 →
  setComponentStateLoop c1 (setComponentStateLoop c2 comps)
  = setComponentStateLoop c2 (setComponentStateLoop c1 comps).
Proof.
  intros Hn. induction comps as [|x l IH]; simpl; [done|].
  destruct (decide (Name x = Name c2)) as [Hx2|Hx2];
    destruct (decide (Name x = Name c1)) as [Hx1|Hx1]; simpl.
  - congruence.
  - rewrite decide_False by congruence. by rewrite decide_True.
  - rewrite decide_True by done. by rewrite decide_False by congruence.
  - rewrite decide_False by done. rewrite decide_False by done.
    by rewrite IH.
Qed.

Lemma setComponentState_loop (c : Component) (o : EvpnObject) :
  setComponentState c o
  = objWith (setComponentStateLoop c (objComponents o)) (objOperStatus o)
      (objResourceVersion o) o.
Proof.
  destruct o as [o|o|o|o]; cbn; autounfold with kinds; done.
Qed.

(** X5. Status updates compose: an update applied twice is the update
    applied once, of two updates of the same component the later one wins,
    and updates of components with different names commute. *)
Theorem setComponentState_compose (o : EvpnObject) (c1 c2 : Component) :
  setComponentState c1 (setComponentState c1 o) = setComponentState c1 o
  ∧ (Name c1 = Name c2 →
     setComponentState c1 (setComponentState c2 o) = setComponentState c1 o)
  ∧ (Name c1 ≠ Name c2 →
     setComponentState c1 (setComponentState c2 o)
     = setComponentState c2 (setComponentState c1 o)).
Proof.
  rewrite !setComponentState_loop.
  pose proof (objWith_components (setComponentStateLoop c1 (objComponents o))
                (objOperStatus o) (objResourceVersion o) o) as (H1 & H1s & H1v).
  pose proof (objWith_components (setComponentStateLoop c2 (objComponents o))
                (objOperStatus o) (objResourceVersion o) o) as (H2 & H2s & H2v).
  rewrite H1, H1s, H1v, H2, H2s, H2v, !objWith_objWith.
  split; [|split].
  - by rewrite setComponentStateLoop_same.
  - intros Hn. by rewrite setComponentStateLoop_same.
  - intros Hn. by rewrite setComponentStateLoop_comm.
Qed.

Lemma setComponentStateLoop_elem (c : Component) (comps : list Component) :
  NoDup (map Name comps) →
  (∃ comp, comp ∈ comps ∧ Name comp = Name c) →
  ∀ x, x ∈ setComponentStateLoop c comps
       ↔ x = c ∨ (x ∈ comps ∧ Name x ≠ Name c).
Proof.
  induction comps as [|y l IH]; intros Hnd (comp & Hin & Hname) x.
  { by apply elem_of_nil in Hin. }
  simpl in *. apply NoDup_cons in Hnd as [Hy Hnd].
  destruct (decide (Name y = Name c)) as [Hyc|Hyc].
  - rewrite !elem_of_cons. split.
    + intros [->|Hx]; [by left|]. right. split; [by right|].
      intros Hxc. apply Hy. rewrite Hyc, <- Hxc.
      by apply (list_elem_of_fmap_2 Name).
    + intros [->|[[->|Hx] Hne]]; [by left|done|by right].
  - apply elem_of_cons in Hin as [->|Hin]; [done|].
    rewrite !elem_of_cons, (IH Hnd (ex_intro _ comp (conj Hin Hname))).
    split.
    + intros [->|[->|[Hx Hne]]]; [|by left|].
      * right. split; [by left|done].
      * right. split; [by right|done].
    + intros [->|[[->|Hx] Hne]]; [right; by left|by left|].
      right. right. done.
Qed.

(** X6. With distinct component names and a component of the updated name
    in the object, the object is all-success after [setComponentState]
    exactly when the new component is in Success and so is every component
    of another name. *)
Theorem setComponentState_all_success (o : EvpnObject) (c : Component) :
  NoDup (map Name (objComponents o)) →
  (∃ comp, comp ∈ objComponents o ∧ Name comp = Name c) →
  (checkForAllSuccess (setComponentState c o) = true
   ↔ CompStatus c = ComponentStatusSuccess
     ∧ ∀ comp, comp ∈ objComponents o → Name comp ≠ Name c →
         CompStatus comp = ComponentStatusSuccess).
Proof.
  intros Hnd Hex.
  assert (Hc : checkForAllSuccess (setComponentState c o)
               = checkForAllSuccessLoop
                   (setComponentStateLoop c (objComponents o))).
  { rewrite setComponentState_loop. by destruct o. }
  rewrite Hc, checkForAllSuccessLoop_spec.
  pose proof (setComponentStateLoop_elem c (objComponents o) Hnd Hex) as Hel.
  split.
  - intros H. split.
    + apply H. apply Hel. by left.
    + intros comp Hin Hne. apply H. apply Hel. by right.
  - intros [Hcs Hall] x [->|[Hin Hne]]%Hel; [done|by apply Hall].
Qed.

(** ** Constructors and [ToPb] *)


(** X8. An SVI built by [NewSvi] and turned back by [ToPb] gives the name,
    VRF, logical bridge, MAC address, BGP flag and remote AS of the message
    it was built from, each gateway prefix parsed and converted back, status
    DOWN and one PENDING component per subscriber. *)
Theorem Svi_roundtrip (ConvertToIPPrefix : IPNet → Pb.IPPrefix)
  (EBus : EventBus) (newVersion : string) (i : Pb.Svi) (o : Svi.Svi) :
  Svi.NewSvi EBus newVersion i = (o, None) →
  SviToPb ConvertToIPPrefix o
  = ({| Pb.SviName := Pb.SviName i;
        Pb.SviSpec_ :=
          {| Pb.SviVrf := Pb.SviVrf (Pb.SviSpec_ i);
             Pb.SviLogicalBridge := Pb.SviLogicalBridge (Pb.SviSpec_ i);
             Pb.SviMacAddress := Pb.SviMacAddress (Pb.SviSpec_ i);
             Pb.GwIpPrefix :=
               map (λ p, ConvertToIPPrefix (Svi.parseGatewayIP p))
                   (Pb.GwIpPrefix (Pb.SviSpec_ i));
             Pb.SviEnableBgp := Pb.SviEnableBgp (Pb.SviSpec_ i);
             Pb.SviRemoteAs := Pb.SviRemoteAs (Pb.SviSpec_ i) |} |},
     {| PbStatus.SOperStatus := PbStatus.OPER_STATUS_DOWN;
        PbStatus.SComponents :=
          map (λ sub, {| PbStatus.CName := SubName sub;
                         PbStatus.CStatus := PbStatus.COMP_STATUS_PENDING;
                         PbStatus.CDetails := "" |})
              (GetSubscribers EBus "svi") |})
  ∧ ((∀ p, p ∈ Pb.GwIpPrefix (Pb.SviSpec_ i) →
        ConvertToIPPrefix (Svi.parseGatewayIP p) = p) →
     (SviToPb ConvertToIPPrefix o).1 = i).
Proof.
  intros H. unfold Svi.NewSvi in H.
  case_bool_decide as Hsubs; simplify_eq.
  unfold SviToPb. simpl. rewrite !map_map. split; [done|].
  intros Hinv. destruct i as [name [vrf lb mac gws bgp ras]]. simpl in *.
  f_equal. f_equal.
  induction gws as [|p gws IH]; [done|]. simpl. f_equal.
  - apply Hinv. by left.
  - apply IH. intros q Hq. apply Hinv. by right.
Qed.

(** X9. A logical bridge built by [NewLogicalBridge] holds no SVI, no port
    and no MAC address; turned back by [ToPb] it gives the name, VLAN and
    VNI of the message it was built from and always a VTEP prefix: the one
    of the message, parsed and converted back, or the configured default
    when the message has none. *)
Theorem LogicalBridge_roundtrip (ConvertToIPPrefix : IPNet → Pb.IPPrefix)
  (EBus : EventBus) (defaultVtep : IPNet) (newVersion : string)
  (i : Pb.LogicalBridge) (o : LogicalBridge.LogicalBridge) :
  LogicalBridge.NewLogicalBridge EBus defaultVtep newVersion i = (o, None) →
  LogicalBridgeToPb ConvertToIPPrefix o
  = ({| Pb.LbName := Pb.LbName i;
        Pb.LbSpec :=
          {| Pb.VlanId := Pb.VlanId (Pb.LbSpec i);
             Pb.LbVni := Pb.LbVni (Pb.LbSpec i);
             Pb.VtepIpPrefix :=
               Some (ConvertToIPPrefix
                       match Pb.VtepIpPrefix (Pb.LbSpec i) with
                       | Some p =>
                           {| IP := PutUint32 (Pb.GetV4Addr (Pb.Addr p));
                              Mask := CIDRMask (Pb.Len p) 32 |}
                       | None => defaultVtep
                       end) |} |},
     {| PbStatus.SOperStatus := PbStatus.OPER_STATUS_DOWN;
        PbStatus.SComponents :=
          map (λ sub, {| PbStatus.CName := SubName sub;
                         PbStatus.CStatus := PbStatus.COMP_STATUS_PENDING;
                         PbStatus.CDetails := "" |})
              (GetSubscribers EBus "logical-bridge") |})
  ∧ LogicalBridge.Svi o = ""
  ∧ LogicalBridge.BridgePorts o = ∅
  ∧ LogicalBridge.MacTable o = ∅.
Proof.
  intros H. unfold LogicalBridge.NewLogicalBridge in H.
  case_bool_decide as Hsubs; simplify_eq.
  unfold LogicalBridgeToPb. simpl. by rewrite !map_map.
Qed.

Lemma maskBytes_length (l : nat) (n : Z) : length (maskBytes l n) = l.
Proof.
  revert n. induction l as [|l IH]; intros n; simpl; [done|].
  destruct (8 <=? n); simpl; by rewrite IH.
Qed.

Lemma land_255 (x : Z) : Z.land x 255 = x mod 256.
Proof. change 255 with (Z.ones 8). by rewrite Z.land_ones. Qed.

(** X10. The gateway address [NewSvi] parses from a prefix whose address is
    a [uint32] and whose length is in 0..32 is four bytes that read back,
    big-endian, as the address, with a four-byte mask that reads back as
    the netmask of that many leading ones; a length outside 0..32 leaves
    the mask nil. *)
Theorem parseGatewayIP_bytes (a len : Z) (af : Z) :
  0 ≤ a < 2 ^ 32 →
  (0 ≤ len ≤ 32 →
   length (IP (Svi.parseGatewayIP
                 {| Pb.Addr := Some {| Pb.Af := af;
                                       Pb.Addr46 := Some (Pb.V4Addr a) |};
                    Pb.Len := len |})) = 4%nat
   ∧ Uint32 (IP (Svi.parseGatewayIP
                   {| Pb.Addr := Some {| Pb.Af := af;
                                         Pb.Addr46 := Some (Pb.V4Addr a) |};
                      Pb.Len := len |})) = a
   ∧ length (Mask (Svi.parseGatewayIP
                     {| Pb.Addr := Some {| Pb.Af := af;
                                           Pb.Addr46 := Some (Pb.V4Addr a) |};
                        Pb.Len := len |})) = 4%nat
   ∧ Uint32 (Mask (Svi.parseGatewayIP
                     {| Pb.Addr := Some {| Pb.Af := af;
                                           Pb.Addr46 := Some (Pb.V4Addr a) |};
                        Pb.Len := len |})) = 2 ^ 32 - 2 ^ (32 - len))
  ∧ (len < 0 ∨ 32 < len →
     Mask (Svi.parseGatewayIP
             {| Pb.Addr := Some {| Pb.Af := af;
                                   Pb.Addr46 := Some (Pb.V4Addr a) |};
                Pb.Len := len |}) = []).
Proof.
  intros Ha. unfold Svi.parseGatewayIP. simpl. split.
  - intros Hlen. split; [done|]. split; [|split].
    + unfold Uint32, PutUint32. simpl.
      rewrite !land_255, !Z.shiftr_div_pow2 by lia.
      change (2 ^ 24) with 16777216. change (2 ^ 16) with 65536.
      change (2 ^ 8) with 256. change (2 ^ 32) with 4294967296 in Ha.
      pose proof (Z.div_mod a 16777216 ltac:(lia)).
      pose proof (Z.mod_pos_bound a 16777216 ltac:(lia)).
      pose proof (Z.div_mod a 65536 ltac:(lia)).
      pose proof (Z.mod_pos_bound a 65536 ltac:(lia)).
      pose proof (Z.div_mod a 256 ltac:(lia)).
      pose proof (Z.mod_pos_bound a 256 ltac:(lia)).
      pose proof (Z.div_mod (a / 65536) 256 ltac:(lia)).
      pose proof (Z.div_mod (a / 256) 256 ltac:(lia)).
      pose proof (Z.div_mod (a / 16777216) 256 ltac:(lia)).
      assert (a / 65536 / 256 = a / 16777216)
        by (rewrite Z.div_div by lia; done).
      assert (a / 256 / 256 = a / 65536)
        by (rewrite Z.div_div by lia; done).
      assert (0 ≤ a / 16777216 < 256)
        by (split; [apply Z.div_pos; lia
                   |apply Z.div_lt_upper_bound; lia]).
      rewrite (Z.mod_small (a / 16777216) 256) by done.
      lia.
    + unfold CIDRMask.
      rewrite bool_decide_eq_false_2 by lia.
      rewrite bool_decide_eq_false_2 by lia.
      apply maskBytes_length.
    + unfold CIDRMask.
      rewrite bool_decide_eq_false_2 by lia.
      rewrite bool_decide_eq_false_2 by lia.
      assert (Hk : ∃ k : nat, (k ≤ 32)%nat ∧ len = Z.of_nat k).
      { exists (Z.to_nat len). lia. }
      destruct Hk as (k & Hk & ->).
      do 33 (destruct k as [|k]; [vm_compute; reflexivity|]). lia.
  - intros Hlen. unfold CIDRMask.
    rewrite bool_decide_eq_false_2 by lia.
    by rewrite bool_decide_eq_true_2 by lia.
Qed.

(** ** The references of a logical bridge, continued *)

Lemma LogicalBridge_withPorts_id (lb : LogicalBridge.LogicalBridge) :
  LogicalBridge.withPorts (LogicalBridge.BridgePorts lb)
    (LogicalBridge.MacTable lb) lb = lb.
Proof. by destruct lb. Qed.

(** X11. Adding a reference and deleting it again gives back the bridge:
    for the SVI of a bridge that had none, for a port and a MAC address the
    bridge did not hold; and deleting a port bound to its MAC address and
    adding it again gives back the bridge as well. *)
Theorem LogicalBridge_add_delete (lb : LogicalBridge.LogicalBridge) :
  (∀ s : string,
     LogicalBridge.Svi lb = "" →
     LogicalBridge.DeleteSvi s (LogicalBridge.AddSvi s lb).1 = (lb, None))
  ∧ (∀ name mac : string,
       LogicalBridge.BridgePorts lb !! name = None →
       LogicalBridge.MacTable lb !! mac = None →
       LogicalBridge.DeleteBridgePort name mac
         (LogicalBridge.AddBridgePort name mac lb).1 = (lb, None))
  ∧ (∀ name mac : string,
       LogicalBridge.BridgePorts lb !! name = Some false →
       LogicalBridge.MacTable lb !! mac = Some name →
       LogicalBridge.AddBridgePort name mac
         (LogicalBridge.DeleteBridgePort name mac lb).1 = (lb, None)).
Proof.
  split; [|split].
  - intros s Hs. unfold LogicalBridge.AddSvi.
    rewrite bool_decide_eq_false_2 by (intros H; by apply H). simpl.
    unfold LogicalBridge.DeleteSvi. simpl.
    rewrite bool_decide_eq_false_2 by (intros H; by apply H).
    f_equal. destruct lb. simpl in *. by subst.
  - intros name mac Hn Hm. unfold LogicalBridge.AddBridgePort.
    rewrite Hn, Hm. simpl. unfold LogicalBridge.DeleteBridgePort. simpl.
    rewrite !lookup_insert_eq. f_equal. unfold LogicalBridge.withPorts.
    simpl. rewrite !delete_insert_id by done. by destruct lb.
  - intros name mac Hn Hm. unfold LogicalBridge.DeleteBridgePort.
    rewrite Hn, Hm. simpl. unfold LogicalBridge.AddBridgePort. simpl.
    rewrite !lookup_delete_eq. f_equal. unfold LogicalBridge.withPorts.
    simpl. rewrite !insert_delete_id by done. by destruct lb.
Qed.

(** X12. [DeleteSvi] fails exactly when the bridge's SVI is not the one
    named (so deleting the empty name from a bridge without SVI succeeds);
    [DeleteBridgePort] fails exactly when the port or the MAC address is
    not stored, and a failing call changes nothing. A successful
    [DeleteBridgePort] removes the two keys whatever port the MAC address
    is bound to. *)
Theorem LogicalBridge_delete (lb : LogicalBridge.LogicalBridge) :
  (∀ s : string,
     ((LogicalBridge.DeleteSvi s lb).2 ≠ None ↔ LogicalBridge.Svi lb ≠ s)
     ∧ ((LogicalBridge.DeleteSvi s lb).2 ≠ None →
        (LogicalBridge.DeleteSvi s lb).1 = lb)
     ∧ ((LogicalBridge.DeleteSvi s lb).2 = None →
        LogicalBridge.Svi (LogicalBridge.DeleteSvi s lb).1 = ""))
  ∧ (∀ name mac : string,
       ((LogicalBridge.DeleteBridgePort name mac lb).2 ≠ None
        ↔ LogicalBridge.BridgePorts lb !! name = None
          ∨ LogicalBridge.MacTable lb !! mac = None)
       ∧ ((LogicalBridge.DeleteBridgePort name mac lb).2 ≠ None →
          (LogicalBridge.DeleteBridgePort name mac lb).1 = lb)
       ∧ ((LogicalBridge.DeleteBridgePort name mac lb).2 = None →
          (LogicalBridge.DeleteBridgePort name mac lb).1
          = LogicalBridge.withPorts
              (delete name (LogicalBridge.BridgePorts lb))
              (delete mac (LogicalBridge.MacTable lb)) lb)).
Proof.
  split.
  - intros s. unfold LogicalBridge.DeleteSvi.
    case_bool_decide as Hs; simpl.
    + split; [done|]. split; [done|]. by intros.
    + split; [split; [done|]; intros Hne; by destruct Hs|].
      split; [done|]. by intros.
  - intros name mac. unfold LogicalBridge.DeleteBridgePort.
    destruct (LogicalBridge.BridgePorts lb !! name) as [b|] eqn:Hn; simpl.
    2: { split; [split; [by left|done]|]. split; [done|]. by intros. }
    destruct (LogicalBridge.MacTable lb !! mac) as [p|] eqn:Hm; simpl.
    2: { split; [split; [by right|done]|]. split; [done|]. by intros. }
    split; [split; [done|by intros [?|?]]|]. split; [done|]. by intros.
Qed.

(** X13. A bridge fresh from [NewLogicalBridge] has a consistent table
    (every MAC address bound to a port of the bridge, no port with two MAC
    addresses); [AddBridgePort] keeps the table consistent, and so does
    [DeleteBridgePort] when it is given the MAC address bound to the port
    it deletes. *)
Theorem LogicalBridge_table_consistent :
  (∀ (EBus : EventBus) (defaultVtep : IPNet) (newVersion : string)
     (i : Pb.LogicalBridge),
     tableConsistent
       (LogicalBridge.NewLogicalBridge EBus defaultVtep newVersion i).1)
  ∧ (∀ (lb : LogicalBridge.LogicalBridge) (name mac : string),
       tableConsistent lb →
       tableConsistent (LogicalBridge.AddBridgePort name mac lb).1)
  ∧ (∀ (lb : LogicalBridge.LogicalBridge) (name mac : string),
       tableConsistent lb →
       LogicalBridge.MacTable lb !! mac = Some name →
       tableConsistent (LogicalBridge.DeleteBridgePort name mac lb).1).
Proof.
  split; [|split].
  - intros EBus defaultVtep v i. unfold LogicalBridge.NewLogicalBridge.
    case_bool_decide; simpl; split; intros *; simpl;
      by rewrite lookup_empty.
  - intros lb name mac [Hports Hinj]. unfold LogicalBridge.AddBridgePort.
    destruct (LogicalBridge.BridgePorts lb !! name) as [b|] eqn:Hn; simpl;
      [done|].
    destruct (LogicalBridge.MacTable lb !! mac) as [p|] eqn:Hm; simpl;
      [done|].
    assert (Hfresh : ∀ mac', LogicalBridge.MacTable lb !! mac' ≠ Some name).
    { intros mac' H. apply Hports in H as [? ?]. congruence. }
    split; simpl.
    + intros mac' port H.
      destruct (decide (name = port)) as [<-|Hne];
        [rewrite lookup_insert_eq; eauto|].
      rewrite lookup_insert_ne by done.
      destruct (decide (mac = mac')) as [<-|Hm'].
      * rewrite lookup_insert_eq in H. congruence.
      * rewrite lookup_insert_ne in H by done. eauto.
    + intros mac1 mac2 port H1 H2.
      destruct (decide (mac = mac1)) as [<-|Hm1];
        destruct (decide (mac = mac2)) as [<-|Hm2]; [done|..].
      * rewrite lookup_insert_eq in H1.
        rewrite lookup_insert_ne in H2 by done. simplify_eq.
        by destruct (Hfresh mac2).
      * rewrite lookup_insert_eq in H2.
        rewrite lookup_insert_ne in H1 by done. simplify_eq.
        by destruct (Hfresh mac1).
      * rewrite lookup_insert_ne in H1, H2 by done. eauto.
  - intros lb name mac [Hports Hinj] Hbound.
    unfold LogicalBridge.DeleteBridgePort.
    destruct (LogicalBridge.BridgePorts lb !! name) as [b|] eqn:Hn; simpl;
      [|done].
    rewrite Hbound. simpl. split; simpl.
    + intros mac' port H.
      destruct (decide (mac = mac')) as [<-|Hm'];
        [by rewrite lookup_delete_eq in H|].
      rewrite lookup_delete_ne in H by done.
      destruct (decide (name = port)) as [<-|Hne].
      * by destruct Hm'; eapply Hinj.
      * rewrite lookup_delete_ne by done. eauto.
    + intros mac1 mac2 port H1 H2.
      destruct (decide (mac = mac1)) as [<-|Hm1];
        [by rewrite lookup_delete_eq in H1|].
      destruct (decide (mac = mac2)) as [<-|Hm2];
        [by rewrite lookup_delete_eq in H2|].
      rewrite lookup_delete_ne in H1, H2 by done. eauto.
Qed.

(** ** The validation of an SVI spec, continued *)

(** X14. [validateSviSpec] accepts exactly when both resource names and the
    MAC address validate and [RemoteAs] is at most 65535. A name that fails
    is reported with the validator's own error, the logical bridge before
    the VRF; a MAC address that fails is reported as InvalidArgument. *)
Theorem validateSviSpec_accepts
  (resourcename_Validate : string → option error)
  (ValidateMacAddress : list Z → option error) (svi : Pb.Svi) :
  (validateSviSpec resourcename_Validate ValidateMacAddress svi = None
   ↔ resourcename_Validate (Pb.SviLogicalBridge (Pb.SviSpec_ svi)) = None
     ∧ resourcename_Validate (Pb.SviVrf (Pb.SviSpec_ svi)) = None
     ∧ ValidateMacAddress (Pb.SviMacAddress (Pb.SviSpec_ svi)) = None
     ∧ Pb.SviRemoteAs (Pb.SviSpec_ svi) ≤ 65535)
  ∧ (∀ err,
       resourcename_Validate (Pb.SviLogicalBridge (Pb.SviSpec_ svi))
       = Some err →
       validateSviSpec resourcename_Validate ValidateMacAddress svi
       = Some err)
  ∧ (∀ err,
       resourcename_Validate (Pb.SviLogicalBridge (Pb.SviSpec_ svi)) = None →
       resourcename_Validate (Pb.SviVrf (Pb.SviSpec_ svi)) = Some err →
       validateSviSpec resourcename_Validate ValidateMacAddress svi
       = Some err)
  ∧ (∀ err,
       resourcename_Validate (Pb.SviLogicalBridge (Pb.SviSpec_ svi)) = None →
       resourcename_Validate (Pb.SviVrf (Pb.SviSpec_ svi)) = None →
       ValidateMacAddress (Pb.SviMacAddress (Pb.SviSpec_ svi)) = Some err →
       ∃ err', validateSviSpec resourcename_Validate ValidateMacAddress svi
               = Some err'
               ∧ errCode err' = InvalidArgument).
Proof.
  unfold validateSviSpec.
  destruct (resourcename_Validate (Pb.SviLogicalBridge (Pb.SviSpec_ svi)))
    as [e1|].
  { split; [split; [done|by intros (? & _)]|].
    split; [by intros ? [= ->]|]. split; by intros. }
  destruct (resourcename_Validate (Pb.SviVrf (Pb.SviSpec_ svi))) as [e2|].
  { split; [split; [done|by intros (_ & ? & _)]|].
    split; [by intros|]. split; [by intros ? _ [= ->]|by intros]. }
  destruct (ValidateMacAddress (Pb.SviMacAddress (Pb.SviSpec_ svi)))
    as [e3|].
  { split; [split; [done|by intros (_ & _ & ? & _)]|].
    split; [by intros|]. split; [by intros|].
    intros err _ _ _. eauto. }
  split; [|split; [by intros|split; by intros]].
  case_bool_decide as Hr.
  - split; [done|]. intros (_ & _ & _ & ?). lia.
  - split; [|done]. intros _. repeat split. lia.
Qed.

(** ** The VRF front end, continued *)


(** X16. [UpdateVrf] on an object the store does not hold: without
    [AllowMissing] it answers NotFound and changes nothing; with
    [AllowMissing] it does what [createVrf] does on the request's object,
    under the request's own name and without looking at the mask. Another
    store error is returned as it is, and nothing changes. *)
Theorem UpdateVrf_missing (World : Type)
  (validateUpdateVrfRequest : PbVrf.UpdateVrfRequest → option error)
  (getVrf : World → string → error + PbVrf.Vrf)
  (createVrf updateVrf : World → PbVrf.Vrf → (error + PbVrf.Vrf) * World)
  (ApplyMaskToStoredPbObject :
     list string → PbVrf.Vrf → PbVrf.Vrf → PbVrf.Vrf)
  (w : World) (i : PbVrf.UpdateVrfRequest) (err : error) :
  validateUpdateVrfRequest i = None →
  getVrf w (PbVrf.Name (PbVrf.UVrf i)) = inl err →
  (err ≠ ErrKeyNotFound →
   UpdateVrf World validateUpdateVrfRequest getVrf createVrf updateVrf
     ApplyMaskToStoredPbObject w i = (inl err, w))
  ∧ (err = ErrKeyNotFound → PbVrf.AllowMissing i = false →
     ∃ e, UpdateVrf World validateUpdateVrfRequest getVrf createVrf
            updateVrf ApplyMaskToStoredPbObject w i = (inl e, w)
          ∧ errCode e = NotFound)
  ∧ (err = ErrKeyNotFound → PbVrf.AllowMissing i = true →
     UpdateVrf World validateUpdateVrfRequest getVrf createVrf updateVrf
       ApplyMaskToStoredPbObject w i = createVrf w (PbVrf.UVrf i)).
Proof.
  intros Hval Hget. unfold UpdateVrf. rewrite Hval, Hget.
  split; [|split].
  - intros Hne. by rewrite bool_decide_eq_true_2.
  - intros -> Ha. rewrite bool_decide_eq_false_2 by (intros H; by apply H).
    rewrite Ha. simpl. eauto.
  - intros -> Ha. rewrite bool_decide_eq_false_2 by (intros H; by apply H).
    rewrite Ha. simpl. by destruct (createVrf w _) as [[e|r] w'].
Qed.

(** X17. For an object the store does not hold, [DeleteVrf] answers success
    exactly when [AllowMissing] is set and the store's error is
    [badger.ErrKeyNotFound], the error this method compares with; it
    answers NotFound when the error is that one and [AllowMissing] is not
    set, and any other error as it is. [deleteVrf] is not called, so the
    world is left as it was. [GetVrf] compares with
    [infradb.ErrKeyNotFound] instead and turns that error into NotFound. *)
Theorem DeleteVrf_missing (World : Type)
  (validateGetVrfRequest : string → option error)
  (validateDeleteVrfRequest : string → bool → option error)
  (getVrf : World → string → error + PbVrf.Vrf)
  (deleteVrf : World → string → option error * World)
  (badger_ErrKeyNotFound : error)
  (w : World) (name : string) (allowMissing : bool) (err : error) :
  validateDeleteVrfRequest name allowMissing = None →
  validateGetVrfRequest name = None →
  getVrf w name = inl err →
  (DeleteVrf World validateDeleteVrfRequest getVrf deleteVrf
     badger_ErrKeyNotFound w name allowMissing).2 = w
  ∧ ((DeleteVrf World validateDeleteVrfRequest getVrf deleteVrf
        badger_ErrKeyNotFound w name allowMissing).1 = None
     ↔ allowMissing = true ∧ err = badger_ErrKeyNotFound)
  ∧ (err ≠ badger_ErrKeyNotFound →
     (DeleteVrf World validateDeleteVrfRequest getVrf deleteVrf
        badger_ErrKeyNotFound w name allowMissing).1 = Some err)
  ∧ (err = badger_ErrKeyNotFound → allowMissing = false →
     ∃ e, (DeleteVrf World validateDeleteVrfRequest getVrf deleteVrf
             badger_ErrKeyNotFound w name allowMissing).1 = Some e
          ∧ errCode e = NotFound)
  ∧ (∃ e, GetVrf World validateGetVrfRequest getVrf w name = inl e
          ∧ (err = ErrKeyNotFound → errCode e = NotFound)
          ∧ (err ≠ ErrKeyNotFound → e = err)).
Proof.
  intros Hvd Hvg Hget. unfold DeleteVrf, GetVrf. rewrite Hvd, Hvg, Hget.
  split; [|split; [|split; [|split]]].
  - case_bool_decide; [done|]. by destruct allowMissing.
  - case_bool_decide as Hb; simpl.
    + split; [done|]. by intros [_ ?].
    + assert (err = badger_ErrKeyNotFound)
        by (destruct (decide (err = badger_ErrKeyNotFound));
            [done|by destruct Hb]).
      destruct allowMissing; simpl; [done|]. split; [done|by intros [? _]].
  - intros Hne. by rewrite bool_decide_eq_true_2.
  - intros -> ->. rewrite bool_decide_eq_false_2 by (intros H; by apply H).
    simpl. eauto.
  - case_bool_decide as Hb.
    + exists err. by repeat split.
    + eexists. split; [done|]. split; [done|]. intros Hne. by destruct Hb.
Qed.

(** ** The bridge-port front end *)


(** ** Package frr: the handlers, whatever InfraDB and the daemon answer *)

Section HandlerFacts.

Variable GetVrf : string → error + Vrf.Vrf.
Variable GetSvi : string → error + Svi.Svi.
Variable GetTunRep : string → error + TunRep.TunRep.
Variable setUpVrf : Vrf.Vrf → string * bool.
Variable tearDownVrf : Vrf.Vrf → string * bool.
Variable setUpSvi : Svi.Svi → string * bool.
Variable tearDownSvi : Svi.Svi → string * bool.
Variable setUpTunRep : TunRep.TunRep → bool.
Variable UpdateTunRep : TunRep.TunRep → bool.
Variable tearDownTunRep : TunRep.TunRep → bool.

Lemma backoff_Name (c : Component) : Name (Frr.backoff c) = Name c.
Proof. unfold Frr.backoff. by case_bool_decide. Qed.

Lemma backoff_CompStatus (c : Component) :
  CompStatus (Frr.backoff c) = CompStatus c.
Proof. unfold Frr.backoff. by case_bool_decide. Qed.

Local Ltac comp_name := simpl; rewrite ?backoff_Name; reflexivity.

Local Ltac comp_status :=
  first [ left; split; reflexivity
        | right; simpl; rewrite ?backoff_CompStatus; reflexivity ].

Local Ltac trace_early :=
  eexists _, _;
  (split; [left; reflexivity|]);
  (split; [reflexivity|]);
  (split; [comp_name|]);
  (split; [intros _; split; reflexivity|comp_status]).

Local Ltac trace_main :=
  eexists _, _;
  (split; [right; eexists; split;
           [reflexivity|try case_bool_decide; reflexivity]|]);
  (split; [reflexivity|]);
  (split; [comp_name|]);
  (split; [intros ?; discriminate|comp_status]).

(** The two shapes of a handler's trace: the status update alone, after a
    failed read or a version mismatch, or the work, the replay check and
    the status update, the check being made on the component reported. *)
Lemma handler_trace_shape (eventType : string) (od : ObjectData) :
  eventType ∈ ["vrf"; "svi"; "tun-rep"] →
  ∃ upd comp,
    ((Frr.HandleEvent GetVrf GetSvi GetTunRep setUpVrf tearDownVrf setUpSvi
       tearDownSvi setUpTunRep UpdateTunRep tearDownTunRep eventType od) = [upd]
     ∨ ∃ work,
         (Frr.HandleEvent GetVrf GetSvi GetTunRep setUpVrf tearDownVrf setUpSvi
       tearDownSvi setUpTunRep UpdateTunRep tearDownTunRep eventType od) = [work; Frr.CallCheckReplayThreshold comp Frr.replayThreshold;
                upd]
         ∧ Frr.isWork work = true)
    ∧ statusUpdate upd = Some (eventType, od, false, comp)
    ∧ Name comp = Frr.frrComp
    ∧ ((Frr.HandleEvent GetVrf GetSvi GetTunRep setUpVrf tearDownVrf setUpSvi
       tearDownSvi setUpTunRep UpdateTunRep tearDownTunRep eventType od) = [upd]
       → CompStatus comp = ComponentStatusError
         ∧ Timer comp = 2 * Frr.Second)
    ∧ (CompStatus comp = ComponentStatusSuccess ∧ Timer comp = 0
       ∨ CompStatus comp = ComponentStatusError).
Proof.
  intros Hin. destruct od as [n v i].
  rewrite !elem_of_cons, elem_of_nil in Hin.
  destruct Hin as [->|[->|[->|[]]]]; unfold Frr.HandleEvent; simpl.
  - unfold Frr.handlevrf; simpl. destruct (GetVrf n) as [err|vrf].
    { trace_early. }
    case_bool_decide.
    { trace_early. }
    case_bool_decide.
    + destruct (setUpVrf vrf) as [d []]; trace_main.
    + destruct (tearDownVrf vrf) as [d []]; trace_main.
  - unfold Frr.handlesvi; simpl. destruct (GetSvi n) as [err|svi].
    { trace_early. }
    case_bool_decide.
    { trace_early. }
    case_bool_decide.
    + destruct (setUpSvi svi) as [d []]; trace_main.
    + destruct (tearDownSvi svi) as [d []]; trace_main.
  - unfold Frr.handleTunRep; simpl. destruct (GetTunRep n) as [err|tr].
    { trace_early. }
    case_bool_decide.
    { trace_early. }
    case_bool_decide.
    + case_bool_decide.
      * destruct (UpdateTunRep tr); trace_main.
      * destruct (setUpTunRep tr); trace_main.
    + destruct (tearDownTunRep tr); trace_main.
Qed.


(** X20. The component [HandleEvent] reports is named frr and is in status
    Success with a zero timer or in status Error. Without set-up or
    tear-down work (the object could not be read, or its version is not
    the notification's) it is in Error with a timer of 2 s and no replay
    check is made; otherwise the work is the first call and is followed by
    one replay check, made with the threshold of 64 s on the very
    component that is then reported. *)
Theorem HandleEvent_reported (eventType : string) (od : ObjectData)
  (comp : Component) :
  let calls := (Frr.HandleEvent GetVrf GetSvi GetTunRep setUpVrf tearDownVrf setUpSvi
       tearDownSvi setUpTunRep UpdateTunRep tearDownTunRep eventType od) in
  Frr.reported calls = Some comp →
  Name comp = Frr.frrComp
  ∧ (CompStatus comp = ComponentStatusSuccess ∧ Timer comp = 0
     ∨ CompStatus comp = ComponentStatusError)
  ∧ (if bool_decide (List.filter Frr.isWork calls = [])
     then length calls = 1%nat
          ∧ CompStatus comp = ComponentStatusError
          ∧ Timer comp = 2 * Frr.Second
     else ∃ work upd,
          Frr.isWork work = true
          ∧ calls
            = [work; Frr.CallCheckReplayThreshold comp Frr.replayThreshold;
               upd]).
Proof.
  intros calls Hrep. subst calls.
  destruct (decide (eventType ∈ ["vrf"; "svi"; "tun-rep"])) as [Hin|Hin].
  - destruct (handler_trace_shape eventType od Hin)
      as (upd & comp' & Htr & Hupd & Hname & Hearly & Hstatus).
    assert (comp' = comp) as ->.
    { destruct Htr as [Htr|(work & Htr & _)]; rewrite Htr in Hrep;
        unfold Frr.reported in Hrep; simpl in Hrep;
        destruct upd; simplify_eq/=; done. }
    split; [done|]. split; [done|].
    destruct Htr as [Htr|(work & Htr & Hwork)].
    + rewrite Htr. rewrite bool_decide_eq_true_2.
      * split; [done|]. by apply Hearly.
      * destruct upd; simplify_eq/=; done.
    + rewrite Htr. rewrite bool_decide_eq_false_2.
      * by exists work, upd.
      * simpl. rewrite Hwork. done.
  - exfalso. revert Hrep. unfold Frr.HandleEvent.
    rewrite !elem_of_cons, elem_of_nil in Hin.
    repeat case_bool_decide; try done; exfalso; apply Hin; auto.
Qed.

End HandlerFacts.

(** ** Package frr: the pre-replay action *)

Section PreReplayFacts.

Variable OS : Type.
Variable os_Rename : string → string → OS → option error * OS.
Variable os_ReadFile : string → OS → (string * option error) * OS.
Variable os_WriteFile : string → string → Z → OS → option error * OS.
Variable user_Lookup : string → OS → (error + string * string) * OS.
Variable strconv_Atoi : string → error + Z.
Variable os_Chown : string → Z → Z → OS → option error * OS.
Variable utils_Run : list string → bool → OS → (string * Z) * OS.

Lemma handlePreReplay_once (h : PreReplay.ModuleFrrActionHandler) (os : OS) :
  length (PreReplay.handlePreReplay OS os_Rename os_ReadFile os_WriteFile
            user_Lookup strconv_Atoi os_Chown utils_Run h os).1.1 = 1%nat.
Proof. unfold PreReplay.handlePreReplay. repeat case_match; reflexivity. Qed.

(** X21. [handlePreReplay] writes exactly one value to the error channel,
    whatever the operating system answers. Its calls are a non-empty prefix
    of: rename the running configuration to the backup, read the basic
    configuration, write what was read to the running configuration with
    mode 0600, look up the user frr, give the running configuration to the
    ids found, restart the daemon; so a step is made only after all the
    steps before it, and the value written is nil only when all six were
    made. *)
Theorem handlePreReplay_steps (h : PreReplay.ModuleFrrActionHandler)
  (os : OS) :
  let r := PreReplay.handlePreReplay OS os_Rename os_ReadFile os_WriteFile
             user_Lookup strconv_Atoi os_Chown utils_Run h os in
  length r.1.1 = 1%nat
  ∧ r.1.2 ≠ []
  ∧ (∃ input uid gid,
       r.1.2 `prefix_of`
         [PreReplay.Rename (PreReplay.runningFrrConfFile h)
            (PreReplay.backupFrrConfFile h);
          PreReplay.ReadFile (PreReplay.basicFrrConfFile h);
          PreReplay.WriteFile (PreReplay.runningFrrConfFile h) input 384;
          PreReplay.Lookup "frr";
          PreReplay.Chown (PreReplay.runningFrrConfFile h) uid gid;
          PreReplay.Run ["systemctl"; "restart"; "frr"] false])
  ∧ (r.1.1 = [None]
     → map PreReplay.stepOf r.1.2
       = [PreReplay.StepRename; PreReplay.StepReadFile;
          PreReplay.StepWriteFile; PreReplay.StepLookup;
          PreReplay.StepChown; PreReplay.StepRun]).
Proof.
  intros r. subst r. unfold PreReplay.handlePreReplay.
  repeat case_match; simpl;
    (split; [reflexivity|]); (split; [discriminate|]);
    (split; [|first [discriminate | reflexivity]]).
  all: try (exists "", 0, 0; eexists; simpl; reflexivity).
  all: try (eexists _, 0, 0; eexists; simpl; reflexivity).
  all: try (eexists _, _, _; eexists; simpl; reflexivity).
Qed.

(** X22. [HandleAction] answers on the error channel exactly once for the
    action preReplay and never for another action type, for which it makes
    no call and leaves the operating system as it was. *)
Theorem HandleAction_answers (h : PreReplay.ModuleFrrActionHandler)
  (actionType : string) (os : OS) :
  let r := PreReplay.HandleAction OS os_Rename os_ReadFile os_WriteFile
             user_Lookup strconv_Atoi os_Chown utils_Run h actionType os in
  length r.1.1
  = (if bool_decide (actionType = "preReplay") then 1 else 0)%nat
  ∧ (r.1.1 = [] → actionType ≠ "preReplay" ∧ r.1.2 = [] ∧ r.2 = os).
Proof.
  intros r. subst r. unfold PreReplay.HandleAction. case_bool_decide.
  - pose proof (handlePreReplay_once h os) as Hlen.
    split; [exact Hlen|].
    intros Hnil. rewrite Hnil in Hlen. discriminate.
  - simpl. done.
Qed.

End PreReplayFacts.

(** ** Package frr: set-up and tear-down on the daemon *)

Section FrrWorkFacts.

Variable FrrWorld : Type.
Variable FrrZebraCmd :
  string → bool → FrrWorld → (string * option error) * FrrWorld.
Variable FrrBgpCmd :
  string → bool → FrrWorld → (string * option error) * FrrWorld.
Variable FrrSave : FrrWorld → option error * FrrWorld.
Variable GetLB : string → error + LogicalBridge.LogicalBridge.
Variable hname : string.
Variable localas : Z.
Variable path_Base : string → string.
Variable Itoa : Z → string.
Variable fmtStrings : list string → string.
Variable fmtIPNet : IPNet → string.
Variable To4String : list Z → string.
Variable strings_Split : string → string → list string.
Variable Unmarshal_bgpl2Vpn : string → error + FrrWork.bgpl2VpnCmd.
Variable Unmarshal_bgpVrf : string → error + FrrWork.bgpVrfCmd.

Local Ltac frr_unfold :=
  unfold FrrWork.setUpVrf, FrrWork.tearDownVrf, FrrWork.setUpSvi,
    FrrWork.tearDownSvi, FrrWork.jsonPart, FrrWork.zebraCmd, FrrWork.bgpCmd,
    FrrWork.save, FrrWork.panic, mbind, FrrWork.FrrM_bind, mret,
    FrrWork.FrrM_ret.

Local Ltac frr_cases := frr_unfold; repeat case_match; simplify_eq/=.

(** X23. Whatever the daemon answers, each of [setUpVrf], [tearDownVrf],
    [setUpSvi] and [tearDownSvi] saves the configuration after every command
    it sends, but possibly the last one, and at no other time; and a run
    that sends nothing leaves the daemon as it was. *)
Theorem work_saves_after_each_command (vrf : Vrf.Vrf) (svi : Svi.Svi)
  (w : FrrWorld) :
  Forall (λ r : FrrWork.Outcome (string * bool) * list FrrWork.FrrCall
                * FrrWorld,
            savedAfterEach r.1.2 = true ∧ (r.1.2 = [] → r.2 = w))
    [FrrWork.setUpVrf FrrWorld FrrZebraCmd FrrBgpCmd FrrSave hname localas
       path_Base Itoa fmtStrings strings_Split Unmarshal_bgpl2Vpn
       Unmarshal_bgpVrf vrf w;
     FrrWork.tearDownVrf FrrWorld FrrZebraCmd FrrBgpCmd FrrSave localas
       path_Base Itoa vrf w;
     FrrWork.setUpSvi FrrWorld FrrBgpCmd FrrSave GetLB localas path_Base Itoa
       fmtIPNet To4String svi w;
     FrrWork.tearDownSvi FrrWorld FrrBgpCmd FrrSave GetLB localas path_Base
       Itoa svi w].
Proof.
  repeat apply Forall_cons_2; [| | | |apply Forall_nil_2].
  all: frr_cases; split; done.
Qed.

(** X24. [setUpVrf] and the loopback address. On a VRF without one it
    never reaches BGP: it returns success only without having sent anything
    (the VRF is the GRD or has no VNI), it returns failure only after a
    failed zebra command, and after a successful zebra command and its save
    it panics on the nil address. On a VRF with one it never uses it: with
    any two addresses it sends the same commands and returns the same, the
    BGP router id being the constant 0.0.0.0. *)
Theorem setUpVrf_loopback (vrf : Vrf.Vrf) (w : FrrWorld) :
  let setUpVrf :=
    FrrWork.setUpVrf FrrWorld FrrZebraCmd FrrBgpCmd FrrSave hname localas
      path_Base Itoa fmtStrings strings_Split Unmarshal_bgpl2Vpn
      Unmarshal_bgpVrf in
  let r := setUpVrf (withLoopbackIP None vrf) w in
  List.filter isBgpCmd r.1.2 = []
  ∧ match r.1.1 with
    | FrrWork.Returned (details, true) => details = "" ∧ r.1.2 = []
    | FrrWork.Returned (_, false) =>
        ∃ cmd, r.1.2 = [FrrWork.ZebraCmd cmd false]
    | FrrWork.Panicked =>
        ∃ cmd, r.1.2 = [FrrWork.ZebraCmd cmd false; FrrWork.SaveCmd]
    end
  ∧ ∀ ip1 ip2,
      setUpVrf (withLoopbackIP (Some ip1) vrf) w
      = setUpVrf (withLoopbackIP (Some ip2) vrf) w.
Proof.
  intros setUpVrf r. subst r setUpVrf. split; [|split; [|reflexivity]].
  - frr_unfold. simpl. repeat case_match; simplify_eq/=; done.
  - frr_unfold. simpl. repeat case_match; simplify_eq/=; eauto.
Qed.

(** X25. The outcomes of [tearDownVrf]. It returns success with empty
    details after sending nothing (the GRD), the show command alone (which
    failed), the show command and its save (the VNI is 0), or all of: show,
    delete the BGP instance, delete the VRF, each saved. It returns failure
    only when the last command it sent is one of the two deletions. It
    panics when the VNI is nil, after the show command and its save. *)
Theorem tearDownVrf_outcomes (vrf : Vrf.Vrf) (w : FrrWorld) :
  let r := FrrWork.tearDownVrf FrrWorld FrrZebraCmd FrrBgpCmd FrrSave
             localas path_Base Itoa vrf w in
  match r.1.1 with
  | FrrWork.Returned (details, true) =>
      details = ""
      ∧ (r.1.2 = []
         ∨ (∃ show, r.1.2 = [FrrWork.ZebraCmd show true])
         ∨ (∃ show, r.1.2 = [FrrWork.ZebraCmd show true; FrrWork.SaveCmd]
                    ∧ Vrf.Vni (Vrf.Spec vrf) = Some 0)
         ∨ (∃ show del1 del2,
              r.1.2 = [FrrWork.ZebraCmd show true; FrrWork.SaveCmd;
                       FrrWork.BgpCmd del1 false; FrrWork.SaveCmd;
                       FrrWork.ZebraCmd del2 false; FrrWork.SaveCmd]))
  | FrrWork.Returned (_, false) =>
      ∃ calls del, r.1.2 = calls ++ [del]
                   ∧ (∃ cmd, del = FrrWork.BgpCmd cmd false
                             ∨ del = FrrWork.ZebraCmd cmd false)
  | FrrWork.Panicked =>
      Vrf.Vni (Vrf.Spec vrf) = None
      ∧ ∃ show, r.1.2 = [FrrWork.ZebraCmd show true; FrrWork.SaveCmd]
  end.
Proof.
  intros r. subst r. frr_unfold.
  repeat case_match; simplify_eq/=.
  all: try (split; [done|]).
  all: try (left; done).
  all: try (right; left; eexists; done).
  all: try (right; right; left; eexists; split; [done|]; f_equal;
            match goal with
            | H : bool_decide (_ ≠ 0) = false |- _ =>
                apply bool_decide_eq_false in H; lia
            end).
  all: try (right; right; right; eexists _, _, _; done).
  all: try (eexists [_; _], _; split; [reflexivity|]; eexists; left; done).
  all: try (eexists [_; _; _; _], _; split; [reflexivity|];
            eexists; right; done).
  all: try (eexists; done).
Qed.

(** X26. [setUpSvi] and [tearDownSvi] send a command under the same
    condition: the logical bridge of the SVI is found, BGP is enabled and
    there is a gateway address. Then each sends one BGP command, saved when
    it succeeded; otherwise neither sends anything, and both fail exactly
    when the logical bridge is not found. *)
Theorem svi_work_same_condition (svi : Svi.Svi) (w w' : FrrWorld) :
  let up := FrrWork.setUpSvi FrrWorld FrrBgpCmd FrrSave GetLB localas
              path_Base Itoa fmtIPNet To4String svi w in
  let down := FrrWork.tearDownSvi FrrWorld FrrBgpCmd FrrSave GetLB localas
                path_Base Itoa svi w' in
  let found :=
    match GetLB (Svi.LogicalBridge (Svi.Spec svi)) with
    | inr _ => true
    | inl _ => false
    end in
  if found && Svi.EnableBgp (Svi.Spec svi)
     && bool_decide (Svi.GatewayIPs (Svi.Spec svi) ≠ [])
  then
    (∃ cmd, up.1.2 = [FrrWork.BgpCmd cmd false]
            ∨ up.1.2 = [FrrWork.BgpCmd cmd false; FrrWork.SaveCmd])
    ∧ (∃ cmd, down.1.2 = [FrrWork.BgpCmd cmd false]
              ∨ down.1.2 = [FrrWork.BgpCmd cmd false; FrrWork.SaveCmd])
  else
    up.1.2 = [] ∧ down.1.2 = []
    ∧ (∃ d, up.1.1 = FrrWork.Returned (d, found))
    ∧ (∃ d, down.1.1 = FrrWork.Returned (d, found)).
Proof.
  intros up down found. subst up down found. frr_unfold.
  destruct (GetLB (Svi.LogicalBridge (Svi.Spec svi))) as [err|brObj]; simpl.
  { repeat first [done | split | eexists]. }
  destruct (Svi.EnableBgp (Svi.Spec svi)); simpl;
    [|repeat first [done | split | eexists]].
  destruct (Svi.GatewayIPs (Svi.Spec svi)) as [|gw0 gws]; simpl.
  { repeat first [done | split | eexists]. }
  split; repeat case_match; simplify_eq/=; eauto.
Qed.

End FrrWorkFacts.

(** ** Security associations *)

Section SaFacts.

Variable fmtProtocol : PbSa.IPSecProtocol → string.
Variable fmtMode : PbSa.IPSecMode → string.
Variable fmtCryptoAlgorithm : PbSa.CryptoAlgorithm → string.
Variable fmtIntegAlgorithm : PbSa.IntegAlgorithm → string.
Variable fmtDSCPCopy : PbSa.DSCPCopy → string.
Variable fmtBool : PbSa.Bool → string.
Variable net_ParseIP : string → option (list Z).

Lemma convertPbToProtocol_inj (a b : PbSa.IPSecProtocol) :
  (convertPbToProtocol fmtProtocol a).2 = None → (convertPbToProtocol fmtProtocol b).2 = None →
  (convertPbToProtocol fmtProtocol a).1 = (convertPbToProtocol fmtProtocol b).1 → a = b.
Proof. destruct a, b; cbv; congruence. Qed.

Lemma convertPbToMode_inj (a b : PbSa.IPSecMode) :
  (convertPbToMode fmtMode a).2 = None → (convertPbToMode fmtMode b).2 = None →
  (convertPbToMode fmtMode a).1 = (convertPbToMode fmtMode b).1 → a = b.
Proof. destruct a, b; cbv; congruence. Qed.

Lemma convertPbToCryptoAlg_inj (a b : PbSa.CryptoAlgorithm) :
  (convertPbToCryptoAlg fmtCryptoAlgorithm a).2 = None → (convertPbToCryptoAlg fmtCryptoAlgorithm b).2 = None →
  (convertPbToCryptoAlg fmtCryptoAlgorithm a).1 = (convertPbToCryptoAlg fmtCryptoAlgorithm b).1 → a = b.
Proof. destruct a, b; cbv; congruence. Qed.

Lemma convertPbToIntegAlg_inj (a b : PbSa.IntegAlgorithm) :
  (convertPbToIntegAlg fmtIntegAlgorithm a).2 = None → (convertPbToIntegAlg fmtIntegAlgorithm b).2 = None →
  (convertPbToIntegAlg fmtIntegAlgorithm a).1 = (convertPbToIntegAlg fmtIntegAlgorithm b).1 → a = b.
Proof. destruct a, b; cbv; congruence. Qed.

Lemma convertPbToDscpCopy_inj (a b : PbSa.DSCPCopy) :
  (convertPbToDscpCopy fmtDSCPCopy a).2 = None → (convertPbToDscpCopy fmtDSCPCopy b).2 = None →
  (convertPbToDscpCopy fmtDSCPCopy a).1 = (convertPbToDscpCopy fmtDSCPCopy b).1 → a = b.
Proof. destruct a, b; cbv; congruence. Qed.

Lemma convertPbToBoolean_inj (a b : PbSa.Bool) :
  (convertPbToBoolean fmtBool a).2 = None → (convertPbToBoolean fmtBool b).2 = None →
  (convertPbToBoolean fmtBool a).1 = (convertPbToBoolean fmtBool b).1 → a = b.
Proof. destruct a, b; cbv; congruence. Qed.

Lemma NewLifetime_inj (a b : option PbSa.LifeTime) :
  NewLifetime a = NewLifetime b → a = b.
Proof.
  destruct a as [[]|], b as [[]|]; cbn; intros H; by simplify_eq.
Qed.

Lemma NewLifetimeCfg_inj (t1 b1 p1 t2 b2 p2 : option Sa.Lifetime) :
  NewLifetimeCfg t1 b1 p1 = NewLifetimeCfg t2 b2 p2 →
  t1 = t2 ∧ b1 = b2 ∧ p1 = p2.
Proof.
  destruct t1, b1, p1, t2, b2, p2; cbn; intros H; by simplify_eq.
Qed.

Lemma convertPbToProtocol_known (p : PbSa.IPSecProtocol) :
  (convertPbToProtocol fmtProtocol p).2 = None
  ↔ match p with PbSa.IPSecProtocol_other _ => false | _ => true end = true.
Proof. destruct p; cbn; split; done. Qed.

Lemma convertPbToMode_known (p : PbSa.IPSecMode) :
  (convertPbToMode fmtMode p).2 = None
  ↔ match p with PbSa.IPSecMode_other _ => false | _ => true end = true.
Proof. destruct p; cbn; split; done. Qed.

Lemma convertPbToCryptoAlg_known (p : PbSa.CryptoAlgorithm) :
  (convertPbToCryptoAlg fmtCryptoAlgorithm p).2 = None
  ↔ match p with PbSa.CryptoAlgorithm_other _ => false | _ => true end
    = true.
Proof. destruct p; cbn; split; done. Qed.

Lemma convertPbToIntegAlg_known (p : PbSa.IntegAlgorithm) :
  (convertPbToIntegAlg fmtIntegAlgorithm p).2 = None
  ↔ match p with PbSa.IntegAlgorithm_other _ => false | _ => true end = true.
Proof. destruct p; cbn; split; done. Qed.

Lemma convertPbToDscpCopy_known (p : PbSa.DSCPCopy) :
  (convertPbToDscpCopy fmtDSCPCopy p).2 = None
  ↔ match p with PbSa.DSCPCopy_other _ => false | _ => true end = true.
Proof. destruct p; cbn; split; done. Qed.

Lemma convertPbToBoolean_known (p : PbSa.Bool) :
  (convertPbToBoolean fmtBool p).2 = None
  ↔ match p with PbSa.Bool_other _ => false | _ => true end = true.
Proof. destruct p; cbn; split; done. Qed.

Lemma knownRequest_converts (sa : PbSa.AddSAReq) :
  knownRequest sa = true
  ↔ (convertPbToProtocol fmtProtocol (PbSa.Proto (PbSa.SaId sa))).2 = None
    ∧ (convertPbToMode fmtMode (PbSa.Mode (PbSa.SaData sa))).2 = None
    ∧ (convertPbToCryptoAlg fmtCryptoAlgorithm
         (PbSa.EncAlg (PbSa.SaData sa))).2 = None
    ∧ (convertPbToIntegAlg fmtIntegAlgorithm
         (PbSa.IntAlg (PbSa.SaData sa))).2 = None
    ∧ (convertPbToBoolean fmtBool (PbSa.Encap (PbSa.SaData sa))).2 = None
    ∧ (convertPbToBoolean fmtBool (PbSa.Esn (PbSa.SaData sa))).2 = None
    ∧ (convertPbToBoolean fmtBool (PbSa.CopyDf (PbSa.SaData sa))).2 = None
    ∧ (convertPbToBoolean fmtBool (PbSa.CopyEcn (PbSa.SaData sa))).2 = None
    ∧ (convertPbToDscpCopy fmtDSCPCopy
         (PbSa.CopyDscp (PbSa.SaData sa))).2 = None
    ∧ (convertPbToBoolean fmtBool (PbSa.Inbound (PbSa.SaData sa))).2 = None.
Proof.
  unfold knownRequest. cbn [forallb].
  rewrite !andb_true_iff.
  rewrite convertPbToProtocol_known, convertPbToMode_known,
    convertPbToCryptoAlg_known, convertPbToIntegAlg_known,
    convertPbToDscpCopy_known, !convertPbToBoolean_known.
  tauto.
Qed.

(** What a call of [NewSa] that gives an object went through. *)
Lemma NewSa_inv (EBus : EventBus) (newVersion name : string)
  (sa : PbSa.AddSAReq) (s : Sa.Sa) :
  (NewSa fmtProtocol fmtMode fmtCryptoAlgorithm fmtIntegAlgorithm
     fmtDSCPCopy fmtBool net_ParseIP EBus newVersion name sa).1 = Some s →
  ∃ srcIP dstIP,
    net_ParseIP (PbSa.Src (PbSa.SaId sa)) = Some srcIP
    ∧ net_ParseIP (PbSa.Dst (PbSa.SaId sa)) = Some dstIP
    ∧ knownRequest sa = true
    ∧ GetSubscribers EBus "sa" ≠ []
    ∧ s = {| Sa.Name := name;
             Sa.Spec :=
               {| Sa.SrcIP := srcIP;
                  Sa.DstIP := dstIP;
                  Sa.Spi := PbSa.Spi (PbSa.SaId sa);
                  Sa.Protocol :=
                    (convertPbToProtocol fmtProtocol
                       (PbSa.Proto (PbSa.SaId sa))).1;
                  Sa.IfId := PbSa.IfId (PbSa.SaId sa);
                  Sa.Mode :=
                    (convertPbToMode fmtMode
                       (PbSa.Mode (PbSa.SaData sa))).1;
                  Sa.Interface := PbSa.Interface (PbSa.SaData sa);
                  Sa.LifetimeCfg_ :=
                    NewLifetimeCfg
                      (NewLifetime
                         (PbSa.Time (PbSa.Lifetime (PbSa.SaData sa))))
                      (NewLifetime
                         (PbSa.Bytes (PbSa.Lifetime (PbSa.SaData sa))))
                      (NewLifetime
                         (PbSa.Packets (PbSa.Lifetime (PbSa.SaData sa))));
                  Sa.EncAlg :=
                    (convertPbToCryptoAlg fmtCryptoAlgorithm
                       (PbSa.EncAlg (PbSa.SaData sa))).1;
                  Sa.EncKey := PbSa.EncKey (PbSa.SaData sa);
                  Sa.IntAlg :=
                    (convertPbToIntegAlg fmtIntegAlgorithm
                       (PbSa.IntAlg (PbSa.SaData sa))).1;
                  Sa.IntKey := PbSa.IntKey (PbSa.SaData sa);
                  Sa.ReplayWindow := PbSa.ReplayWindow (PbSa.SaData sa);
                  Sa.UdpEncap :=
                    (convertPbToBoolean fmtBool
                       (PbSa.Encap (PbSa.SaData sa))).1;
                  Sa.Esn :=
                    (convertPbToBoolean fmtBool
                       (PbSa.Esn (PbSa.SaData sa))).1;
                  Sa.CopyDf :=
                    (convertPbToBoolean fmtBool
                       (PbSa.CopyDf (PbSa.SaData sa))).1;
                  Sa.CopyEcn :=
                    (convertPbToBoolean fmtBool
                       (PbSa.CopyEcn (PbSa.SaData sa))).1;
                  Sa.CopyDscp :=
                    (convertPbToDscpCopy fmtDSCPCopy
                       (PbSa.CopyDscp (PbSa.SaData sa))).1;
                  Sa.Inbound :=
                    (convertPbToBoolean fmtBool
                       (PbSa.Inbound (PbSa.SaData sa))).1;
                  Sa.SpecVrf := "" |};
             Sa.Status :=
               {| Sa.SaOperStatus := Sa.SaOperStatusDown;
                  Sa.Components :=
                    map (λ sub, {| Common.Name := SubName sub;
                                   CompStatus := ComponentStatusPending;
                                   Details := ""; Timer := 0 |})
                      (GetSubscribers EBus "sa") |};
             Sa.Metadata := Sa.mkSaMetadata;
             Sa.Vrf := "";
             Sa.Index := 0;
             Sa.OldVersions := [];
             Sa.ResourceVersion := newVersion |}.
Proof.
  setoid_rewrite knownRequest_converts. unfold NewSa.
  destruct (net_ParseIP (PbSa.Src (PbSa.SaId sa))) as [srcIP|]; [|done].
  destruct (net_ParseIP (PbSa.Dst (PbSa.SaId sa))) as [dstIP|]; [|done].
  destruct (convertPbToProtocol _ _) as [? [?|]]; [done|].
  destruct (convertPbToMode _ _) as [? [?|]]; [done|].
  destruct (convertPbToCryptoAlg _ _) as [? [?|]]; [done|].
  destruct (convertPbToIntegAlg _ _) as [? [?|]]; [done|].
  destruct (convertPbToBoolean _ (PbSa.Encap _)) as [? [?|]]; [done|].
  destruct (convertPbToBoolean _ (PbSa.Esn _)) as [? [?|]]; [done|].
  destruct (convertPbToBoolean _ (PbSa.CopyDf _)) as [? [?|]]; [done|].
  destruct (convertPbToBoolean _ (PbSa.CopyEcn _)) as [? [?|]]; [done|].
  destruct (convertPbToDscpCopy _ _) as [? [?|]]; [done|].
  destruct (convertPbToBoolean _ (PbSa.Inbound _)) as [? [?|]]; [done|].
  case_bool_decide as Hsubs; [done|].
  cbn. intros [= <-]. exists srcIP, dstIP.
  repeat (split; [done|]). split; [|done].
  intros Hnil. apply Hsubs. by rewrite Hnil.
Qed.

(** X27. [NewSa] returns an object exactly when it returns no error, and
    that is exactly when both addresses parse, every enumeration of the
    request has a value the converters know, and the event bus has a
    subscriber for SAs. *)
Theorem NewSa_succeeds_iff (EBus : EventBus) (newVersion name : string)
  (sa : PbSa.AddSAReq) :
  let r := NewSa fmtProtocol fmtMode fmtCryptoAlgorithm fmtIntegAlgorithm
             fmtDSCPCopy fmtBool net_ParseIP EBus newVersion name sa in
  (is_Some r.1 ↔ r.2 = None)
  ∧ (r.2 = None
     ↔ is_Some (net_ParseIP (PbSa.Src (PbSa.SaId sa)))
       ∧ is_Some (net_ParseIP (PbSa.Dst (PbSa.SaId sa)))
       ∧ knownRequest sa = true
       ∧ GetSubscribers EBus "sa" ≠ []).
Proof.
  intros r. subst r. rewrite knownRequest_converts. unfold NewSa.
  destruct (net_ParseIP (PbSa.Src (PbSa.SaId sa))) as [srcIP|];
    [|cbn; rewrite <-!not_eq_None_Some; intuition congruence].
  destruct (net_ParseIP (PbSa.Dst (PbSa.SaId sa))) as [dstIP|];
    [|cbn; rewrite <-!not_eq_None_Some; intuition congruence].
  destruct (convertPbToProtocol _ _) as [? [?|]];
    [cbn; rewrite <-!not_eq_None_Some; intuition congruence|].
  destruct (convertPbToMode _ _) as [? [?|]];
    [cbn; rewrite <-!not_eq_None_Some; intuition congruence|].
  destruct (convertPbToCryptoAlg _ _) as [? [?|]];
    [cbn; rewrite <-!not_eq_None_Some; intuition congruence|].
  destruct (convertPbToIntegAlg _ _) as [? [?|]];
    [cbn; rewrite <-!not_eq_None_Some; intuition congruence|].
  destruct (convertPbToBoolean _ (PbSa.Encap _)) as [? [?|]];
    [cbn; rewrite <-!not_eq_None_Some; intuition congruence|].
  destruct (convertPbToBoolean _ (PbSa.Esn _)) as [? [?|]];
    [cbn; rewrite <-!not_eq_None_Some; intuition congruence|].
  destruct (convertPbToBoolean _ (PbSa.CopyDf _)) as [? [?|]];
    [cbn; rewrite <-!not_eq_None_Some; intuition congruence|].
  destruct (convertPbToBoolean _ (PbSa.CopyEcn _)) as [? [?|]];
    [cbn; rewrite <-!not_eq_None_Some; intuition congruence|].
  destruct (convertPbToDscpCopy _ _) as [? [?|]];
    [cbn; rewrite <-!not_eq_None_Some; intuition congruence|].
  destruct (convertPbToBoolean _ (PbSa.Inbound _)) as [? [?|]];
    [cbn; rewrite <-!not_eq_None_Some; intuition congruence|].
  case_bool_decide as Hsubs; cbn; rewrite <-!not_eq_None_Some.
  - destruct (GetSubscribers EBus "sa"); [intuition congruence|done].
  - destruct (GetSubscribers EBus "sa"); [done|intuition congruence].
Qed.

(** X28. An object [NewSa] returns has the name given and the version
    generated, is Down, and has one Pending component without details per
    subscriber of SAs, in the order of the bus: at least one, so the new
    object never passes [checkForAllSuccess]. Its Vrf, the Vrf of its spec,
    its Index and its OldVersions are left at their zero values. Its
    LifetimeCfg is nil exactly when the request has none of the three life
    times. *)
Theorem NewSa_result (EBus : EventBus) (newVersion name : string)
  (sa : PbSa.AddSAReq) (s : Sa.Sa) :
  (NewSa fmtProtocol fmtMode fmtCryptoAlgorithm fmtIntegAlgorithm
     fmtDSCPCopy fmtBool net_ParseIP EBus newVersion name sa).1 = Some s →
  Sa.Name s = name
  ∧ Sa.ResourceVersion s = newVersion
  ∧ Sa.SaOperStatus (Sa.Status s) = Sa.SaOperStatusDown
  ∧ Sa.Components (Sa.Status s)
    = map (λ sub, {| Common.Name := SubName sub;
                     CompStatus := ComponentStatusPending;
                     Details := ""; Timer := 0 |})
        (GetSubscribers EBus "sa")
  ∧ checkForAllSuccess (OfSa s) = false
  ∧ Sa.Vrf s = "" ∧ Sa.SpecVrf (Sa.Spec s) = ""
  ∧ Sa.Index s = 0 ∧ Sa.OldVersions s = []
  ∧ (Sa.LifetimeCfg_ (Sa.Spec s) = None
     ↔ PbSa.Lifetime (PbSa.SaData sa)
       = {| PbSa.Time := None; PbSa.Bytes := None; PbSa.Packets := None |}).
Proof.
  intros Hnew.
  destruct (NewSa_inv _ _ _ _ _ Hnew)
    as (srcIP & dstIP & _ & _ & _ & Hsubs & ->).
  cbn. repeat (split; [done|]). split; [|repeat (split; [done|])].
  - destruct (GetSubscribers EBus "sa"); done.
  - destruct (PbSa.Lifetime (PbSa.SaData sa)) as [[t|] [b|] [p|]]; cbn;
      split; intros H; by simplify_eq.
Qed.

(** X29. [NewSa] loses nothing of the request but the text of the two
    addresses: two requests whose objects have the same spec have the same
    SPI, protocol and interface id, and the same data (mode, interface,
    life times, algorithms and keys, replay window, flags). *)
Theorem NewSa_injective (EBus1 EBus2 : EventBus)
  (version1 version2 name1 name2 : string) (sa1 sa2 : PbSa.AddSAReq)
  (s1 s2 : Sa.Sa) :
  (NewSa fmtProtocol fmtMode fmtCryptoAlgorithm fmtIntegAlgorithm
     fmtDSCPCopy fmtBool net_ParseIP EBus1 version1 name1 sa1).1 = Some s1 →
  (NewSa fmtProtocol fmtMode fmtCryptoAlgorithm fmtIntegAlgorithm
     fmtDSCPCopy fmtBool net_ParseIP EBus2 version2 name2 sa2).1 = Some s2 →
  Sa.Spec s1 = Sa.Spec s2 →
  PbSa.Spi (PbSa.SaId sa1) = PbSa.Spi (PbSa.SaId sa2)
  ∧ PbSa.Proto (PbSa.SaId sa1) = PbSa.Proto (PbSa.SaId sa2)
  ∧ PbSa.IfId (PbSa.SaId sa1) = PbSa.IfId (PbSa.SaId sa2)
  ∧ PbSa.SaData sa1 = PbSa.SaData sa2.
Proof.
  intros Hnew1 Hnew2.
  destruct (NewSa_inv _ _ _ _ _ Hnew1)
    as (src1 & dst1 & _ & _ & Hk1 & _ & ->).
  destruct (NewSa_inv _ _ _ _ _ Hnew2)
    as (src2 & dst2 & _ & _ & Hk2 & _ & ->).
  apply knownRequest_converts in Hk1, Hk2.
  destruct Hk1 as (P1 & M1 & E1 & I1 & U1 & S1 & D1 & C1 & Y1 & B1).
  destruct Hk2 as (P2 & M2 & E2 & I2 & U2 & S2 & D2 & C2 & Y2 & B2).
  cbn. intros Hspec. injection Hspec as
    _ _ Hspi Hproto Hifid Hmode Hif Hlt Henc Hek Hint Hik Hrw Hudp Hesn Hdf
    Hecn Hdscp Hinb.
  apply (convertPbToProtocol_inj _ _ P1 P2) in Hproto.
  apply (convertPbToMode_inj _ _ M1 M2) in Hmode.
  apply (convertPbToCryptoAlg_inj _ _ E1 E2) in Henc.
  apply (convertPbToIntegAlg_inj _ _ I1 I2) in Hint.
  apply (convertPbToBoolean_inj _ _ U1 U2) in Hudp.
  apply (convertPbToBoolean_inj _ _ S1 S2) in Hesn.
  apply (convertPbToBoolean_inj _ _ D1 D2) in Hdf.
  apply (convertPbToBoolean_inj _ _ C1 C2) in Hecn.
  apply (convertPbToDscpCopy_inj _ _ Y1 Y2) in Hdscp.
  apply (convertPbToBoolean_inj _ _ B1 B2) in Hinb.
  apply NewLifetimeCfg_inj in Hlt as (Ht & Hb & Hp).
  apply NewLifetime_inj in Ht, Hb, Hp.
  repeat (split; [done|]).
  destruct (PbSa.SaData sa1) as [? ? [? ? ?] ? ? ? ? ? ? ? ? ? ? ?],
    (PbSa.SaData sa2) as [? ? [? ? ?] ? ? ? ? ? ? ? ? ? ? ?].
  cbn in *. by simplify_eq.
Qed.

End SaFacts.

(** ** Package main *)

Local Ltac own_message :=
  cbn; rewrite !elem_of_cons;
  first [ left; reflexivity
        | right; left; reflexivity
        | right; right; left; reflexivity
        | right; right; right; left; reflexivity
        | right; right; right; right; left; reflexivity ].

(** X30. [validateConfigs] accepts exactly the configurations whose gRPC
    and HTTP ports lie in 1..65535, whose database address splits into
    host and port with the port a number in 1..65535, and whose FRR
    address parses as an IP address. An error it returns is one of its own
    five messages, never the error of a library function. *)
Theorem validateConfigs_accepts_iff (viper_GetInt : string → Z)
  (viper_GetString : string → string)
  (net_SplitHostPort : string → (string * string) * option error)
  (strconv_Atoi : string → Z * option error)
  (net_ParseIP : string → option (list Z)) :
  let err := validateConfigs viper_GetInt viper_GetString net_SplitHostPort
               strconv_Atoi net_ParseIP in
  let split := net_SplitHostPort (viper_GetString "dbaddress") in
  let dbPort := strconv_Atoi split.1.2 in
  (err = None
   ↔ 1 ≤ viper_GetInt "grpcport" ≤ 65535
     ∧ 1 ≤ viper_GetInt "httpport" ≤ 65535
     ∧ split.2 = None
     ∧ dbPort.2 = None ∧ 1 ≤ dbPort.1 ≤ 65535
     ∧ is_Some (net_ParseIP (viper_GetString "frraddress")))
  ∧ ∀ e, err = Some e →
      e ∈ map errors_New
            ["grpcPort must be a positive integer between 1 and 65535";
             "httpPort must be a positive integer between 1 and 65535";
             "invalid DBAddress format. It should be in ip_address:port format";
             "invalid db port. It must be a positive integer between 1 and 65535";
             "invalid FRRAddress format. It should be a valid IP address"].
Proof.
  intros err split dbPort. subst err dbPort split. unfold validateConfigs.
  case_bool_decide as Hg.
  { split; [split; [done|lia]|].
    intros e [= <-]. own_message. }
  case_bool_decide as Hh.
  { split; [split; [done|lia]|].
    intros e [= <-]. own_message. }
  destruct (net_SplitHostPort _) as [[host port] [e1|]]; cbn.
  { split; [split; [done|intros (_ & _ & [=] & _)]|].
    intros e [= <-]. own_message. }
  destruct (strconv_Atoi port) as [dbPort e2]; cbn.
  case_bool_decide as Hd.
  { split; [split; [done|]|].
    - intros (_ & _ & _ & -> & Hp & _). destruct Hd as [?|?]; [done|lia].
    - intros e [= <-]. own_message. }
  destruct (net_ParseIP _) as [ip|].
  - split; [|done]. split; [|done]. intros _.
    destruct e2 as [e2|]; [exfalso; apply Hd; by left|].
    repeat split; try lia; eauto.
  - split; [split; [done|]|].
    + intros (_ & _ & _ & _ & _ & [? [=]]).
    + intros e [= <-]. own_message.
Qed.

(** ** The statements of this part at sample values *)

Lemma prepareObjectsForReplay_twice_witness :
  prepareObjectsForReplay "lgm" [Sample.lvm; Sample.frr; Sample.lgm] "v3"
    (OfSvi ReplaySample.sviReplayed)
  = Some (objWith (Svi.Components (Svi.Status ReplaySample.sviReplayed))
            OperStatusDown "v3" (OfSvi ReplaySample.sviReplayed),
          [Sample.frr; Sample.lgm]).
Proof.
  exact (proj1 (prepareObjectsForReplay_twice (OfSvi Sample.sviUp)
                  (OfSvi ReplaySample.sviReplayed) "lgm"
                  [Sample.lvm; Sample.frr; Sample.lgm]
                  [Sample.frr; Sample.lgm] "v2" "v3" eq_refl)).
Defined.

Lemma prepareObjectsForReplay_success_witness :
  checkForAllSuccess (OfSvi ReplaySample.sviReplayed) = true
  ↔ [Sample.frr; Sample.lgm] = [].
Proof.
  exact (proj1 (prepareObjectsForReplay_success (OfSvi Sample.sviUp)
                  (OfSvi ReplaySample.sviReplayed) "lgm"
                  [Sample.lvm; Sample.frr; Sample.lgm]
                  [Sample.frr; Sample.lgm] "v2" eq_refl)).
Defined.

Lemma setComponentState_all_success_witness :
  checkForAllSuccess
    (setComponentState ReplaySample.frrOk (OfSvi Sample.sviUp)) = true.
Proof.
  apply (setComponentState_all_success (OfSvi Sample.sviUp)
           ReplaySample.frrOk).
  - apply (bool_decide_unpack _). reflexivity.
  - exists {| Name := "frr"; CompStatus := ComponentStatusError;
              Details := "failed"; Timer := 4000000000 |}.
    split; [|reflexivity]. apply (bool_decide_unpack _). reflexivity.
  - split; [reflexivity|]. intros comp Hin Hname.
    cbn in Hin. rewrite !elem_of_cons, elem_of_nil in Hin.
    destruct Hin as [->|[->|[->|[]]]]; [reflexivity| |reflexivity].
    exfalso. apply Hname. reflexivity.
Defined.


Lemma Svi_roundtrip_witness :
  (SviToPb PbSample.ConvertToIPPrefix
     (Svi.NewSvi Sample.bus "v1" (Sample.sviBgp 65000)).1).1
  = Sample.sviBgp 65000.
Proof.
  destruct (Svi_roundtrip PbSample.ConvertToIPPrefix Sample.bus "v1"
              (Sample.sviBgp 65000)
              (Svi.NewSvi Sample.bus "v1" (Sample.sviBgp 65000)).1 eq_refl)
    as (_ & Hback).
  apply Hback. intros p Hin. cbn in Hin.
  rewrite elem_of_cons, elem_of_nil in Hin. destruct Hin as [->|[]].
  vm_compute. reflexivity.
Defined.

Lemma LogicalBridge_roundtrip_witness :
  LogicalBridge.BridgePorts
    (LogicalBridge.NewLogicalBridge Sample.bus Sample.vtep "v1"
       Sample.pbBridge).1 = ∅
  ∧ LogicalBridge.MacTable
      (LogicalBridge.NewLogicalBridge Sample.bus Sample.vtep "v1"
         Sample.pbBridge).1 = ∅.
Proof.
  destruct (LogicalBridge_roundtrip PbSample.ConvertToIPPrefix Sample.bus
              Sample.vtep "v1" Sample.pbBridge
              (LogicalBridge.NewLogicalBridge Sample.bus Sample.vtep "v1"
                 Sample.pbBridge).1 eq_refl) as (_ & _ & Hports & Hmacs).
  split; assumption.
Defined.

Lemma parseGatewayIP_bytes_witness :
  Uint32 (IP (Svi.parseGatewayIP
                {| Pb.Addr := Some {| Pb.Af := 1;
                                      Pb.Addr46 := Some (Pb.V4Addr 167772162) |};
                   Pb.Len := 24 |})) = 167772162
  ∧ Uint32 (Mask (Svi.parseGatewayIP
                    {| Pb.Addr := Some {| Pb.Af := 1;
                                          Pb.Addr46 := Some (Pb.V4Addr 167772162) |};
                       Pb.Len := 24 |})) = 2 ^ 32 - 2 ^ (32 - 24).
Proof.
  destruct (parseGatewayIP_bytes 167772162 24 1) as (Hin & _); [lia|].
  destruct Hin as (_ & Hip & _ & Hmask); [lia|].
  split; assumption.
Defined.

Lemma UpdateVrf_missing_witness :
  (∃ e, VrfSample.UpdateVrf VrfWorld.emptyDB VrfSample.updateBlueSame
        = (inl e, VrfWorld.emptyDB)
        ∧ errCode e = NotFound)
  ∧ VrfSample.UpdateVrf VrfWorld.emptyDB VrfReadSample.upsertBlue
    = VrfWorld.createVrf VrfWorld.emptyDB VrfSample.storedBlue.
Proof.
  split.
  - destruct (UpdateVrf_missing VrfWorld.InfraDB VrfWorld.acceptUpdate
                VrfWorld.getVrf VrfWorld.createVrf VrfWorld.updateVrf
                VrfWorld.ApplyMaskToStoredPbObject VrfWorld.emptyDB
                VrfSample.updateBlueSame ErrKeyNotFound eq_refl eq_refl)
      as (_ & Hnot & _).
    exact (Hnot eq_refl eq_refl).
  - destruct (UpdateVrf_missing VrfWorld.InfraDB VrfWorld.acceptUpdate
                VrfWorld.getVrf VrfWorld.createVrf VrfWorld.updateVrf
                VrfWorld.ApplyMaskToStoredPbObject VrfWorld.emptyDB
                VrfReadSample.upsertBlue ErrKeyNotFound eq_refl eq_refl)
      as (_ & _ & Hcreate).
    exact (Hcreate eq_refl eq_refl).
Defined.

Lemma DeleteVrf_missing_witness :
  DeleteVrf VrfWorld.InfraDB VrfReadSample.acceptDelete VrfWorld.getVrf
    VrfReadSample.deleteVrf ErrKeyNotFound VrfWorld.emptyDB
    "//network.opiproject.org/vrfs/blue" true
  = (None, VrfWorld.emptyDB).
Proof.
  destruct (DeleteVrf_missing VrfWorld.InfraDB VrfReadSample.acceptGet
              VrfReadSample.acceptDelete VrfWorld.getVrf
              VrfReadSample.deleteVrf ErrKeyNotFound VrfWorld.emptyDB
              "//network.opiproject.org/vrfs/blue" true ErrKeyNotFound
              eq_refl eq_refl eq_refl) as (Hw & Hnone & _).
  apply injective_projections; [|exact Hw].
  apply Hnone. split; reflexivity.
Defined.

Lemma HandleEvent_reported_witness :
  ∃ work upd,
    Frr.isWork work = true
    ∧ Frr.HandleEvent (λ _, inr (FrrSample.vrfOf [FrrSample.failed 2]))
        (λ _, inr FrrSample.sviV1) (λ _, inr FrrSample.tunRep)
        FrrSample.down FrrSample.fine (λ _, ("", true)) (λ _, ("", true))
        (λ _, true) (λ _, true) (λ _, true) "vrf" FrrSample.notification
      = [work;
         Frr.CallCheckReplayThreshold (FrrSample.failed 4)
           Frr.replayThreshold;
         upd].
Proof.
  destruct (HandleEvent_reported
              (λ _, inr (FrrSample.vrfOf [FrrSample.failed 2]))
              (λ _, inr FrrSample.sviV1) (λ _, inr FrrSample.tunRep)
              FrrSample.down FrrSample.fine
              (λ _, ("", true)) (λ _, ("", true))
              (λ _, true) (λ _, true) (λ _, true) "vrf"
              FrrSample.notification (FrrSample.failed 4) eq_refl)
    as (_ & _ & Hshape).
  exact Hshape.
Defined.

Lemma NewSa_result_witness :
  ∃ s, (SaSample.NewSa "v1" "sa1" SaSample.request).1 = Some s
       ∧ Sa.Components (Sa.Status s) = [pendingComponent "lvm"]
       ∧ Sa.LifetimeCfg_ (Sa.Spec s) = None.
Proof.
  eexists. split; [reflexivity|].
  match goal with
  | |- Sa.Components (Sa.Status ?s) = _ ∧ _ =>
      destruct (NewSa_result SaSample.fmtOther SaSample.fmtOther
                  SaSample.fmtOther SaSample.fmtOther SaSample.fmtOther
                  SaSample.fmtOther SaSample.ParseIP SaSample.bus "v1" "sa1"
                  SaSample.request s eq_refl)
        as (_ & _ & _ & Hcomps & _ & _ & _ & _ & _ & Hlt)
  end.
  split; [exact Hcomps|]. apply Hlt. reflexivity.
Defined.

Lemma NewSa_injective_witness :
  PbSa.Src (PbSa.SaId SaSample.request)
  ≠ PbSa.Src (PbSa.SaId SaSample.request')
  ∧ PbSa.Proto (PbSa.SaId SaSample.request)
    = PbSa.Proto (PbSa.SaId SaSample.request')
  ∧ PbSa.SaData SaSample.request = PbSa.SaData SaSample.request'.
Proof.
  destruct (NewSa_injective SaSample.fmtOther SaSample.fmtOther
              SaSample.fmtOther SaSample.fmtOther SaSample.fmtOther
              SaSample.fmtOther SaSample.ParseIP SaSample.bus SaSample.bus
              "v1" "v2" "sa1" "sa2" SaSample.request SaSample.request'
              _ _ eq_refl eq_refl eq_refl) as (_ & Hproto & _ & Hdata).
  split; [discriminate|]. split; assumption.
Defined.
